(** * Repository factory: a shallow embedding of [generate_mega_repos.py]

    The development follows the Python source function by function:
    the pseudo-random generator is an explicit tape that is threaded
    through every call of the [random] module, exceptions are values of
    a sum type, the [while] loop of the commit scheduler takes fuel, and
    the file system the structure generators write to is an explicit
    store of directories and files. *)

From Stdlib Require Import String Ascii DecimalString.
From Stdlib Require Import ZArith List Lia Bool Sorted.
Import ListNotations.

Local Open Scope Z_scope.
Local Open Scope list_scope.

(** ** Python values and built-ins *)

(** The exceptions the modelled code can raise. *)
Inductive exn : Type :=
| IndexError
| ZeroDivisionError
| FileExistsError
| FileNotFoundError
| IsADirectoryError
| KeyError.

(** A computation either returns or raises. *)
Inductive result (A : Type) : Type :=
| Ok (a : A)
| Raise (e : exn).
Arguments Ok {A} a.
Arguments Raise {A} e.

(** [str(i)] and [f'{i}'] for an integer. *)
Definition str (z : Z) : string := NilZero.string_of_int (Z.to_int z).

(** [len(l)] *)
Definition len {A : Type} (l : list A) : Z := Z.of_nat (length l).

(** [range(n)]: empty when [n <= 0]. *)
Definition range (n : Z) : list Z := map Z.of_nat (seq 0 (Z.to_nat n)).

(** Normalisation of one bound of a slice [l[a:b]] against [len(l)]:
    a negative bound counts from the end, and both are clamped. *)
Definition slice_bound (n i : Z) : Z :=
  if i <? 0 then Z.max 0 (i + n) else Z.min i n.

(** [l[a:b]] *)
Definition py_slice {A : Type} (l : list A) (a b : Z) : list A :=
  let lo := slice_bound (len l) a in
  let hi := slice_bound (len l) b in
  firstn (Z.to_nat (hi - lo)) (skipn (Z.to_nat lo) l).

(** [sub in s] for strings. *)
Fixpoint contains (sub s : string) : bool :=
  prefix sub s ||
  match s with
  | EmptyString => false
  | String _ rest => contains sub rest
  end.

(** [s.split('/')[0]]: the text before the first slash. *)
Fixpoint first_segment (s : string) : string :=
  match s with
  | EmptyString => EmptyString
  | String c rest =>
      if Ascii.eqb c "/"%char then EmptyString else String c (first_segment rest)
  end.

(** [template.format(arg)] for a template with at most one [{}] field:
    the first [{}] is replaced, a template without a field is returned
    as it is (the tables of the source have no other kind). *)
Fixpoint format (template arg : string) : string :=
  match template with
  | String "{"%char (String "}"%char rest) => (arg ++ rest)%string
  | String c rest => String c (format rest arg)
  | EmptyString => EmptyString
  end.

(** ** The [random] module

    The generator is a tape of raw draws and a read position.  Every
    call consumes one draw and reduces it into the range the Python
    function promises, so any sequence of in-range results is the
    behaviour of some tape. *)
Record rng : Type := mkRng { tape : nat -> Z; pos : nat }.

Definition next (g : rng) : Z * rng :=
  (tape g (pos g), mkRng (tape g) (S (pos g))).

(** [random.randint(a, b)], both ends included. *)
Definition randint (a b : Z) (g : rng) : Z * rng :=
  let (r, g') := next g in (a + r mod (b - a + 1), g').

(** [random.choice(l)]; raises [IndexError] on an empty sequence. *)
Definition choice {A : Type} (l : list A) (g : rng) : result (A * rng) :=
  match l with
  | [] => Raise IndexError
  | d :: _ => let (r, g') := next g in
              Ok (nth (Z.to_nat (r mod len l)) l d, g')
  end.

(** [random.random() < 0.1]: one draw in ten. *)
Definition random_lt_tenth (g : rng) : bool * rng :=
  let (r, g') := next g in (r mod 10 =? 0, g').

(** Removal of the element at a position, for sampling without
    replacement. *)
Fixpoint remove_nth {A : Type} (n : nat) (l : list A) : list A :=
  match n, l with
  | _, [] => []
  | O, _ :: t => t
  | S n', x :: t => x :: remove_nth n' t
  end.

(** [random.sample(population, k)] for [0 <= k <= len(population)]:
    [k] draws without replacement. *)
Fixpoint sample {A : Type} (population : list A) (k : nat) (g : rng)
  : list A * rng :=
  match k, population with
  | O, _ | _, [] => ([], g)
  | S k', d :: _ =>
      let (r, g1) := next g in
      let i := Z.to_nat (r mod len population) in
      let (rest, g2) := sample (remove_nth i population) k' g1 in
      (nth i population d :: rest, g2)
  end.

(** ** Configuration tables *)

Record category_config : Type :=
  { count : Z; templates : list string }.

Definition REPO_CATEGORIES : list (string * category_config) :=
  [ ("open_source_clones",
      {| count := 100;
         templates :=
           ["react-clone"; "vue-clone"; "angular-clone"; "django-clone";
            "flask-clone"; "rails-clone"; "spring-boot-clone"; "express-clone";
            "laravel-clone"; "symfony-clone"; "fastapi-clone"; "nextjs-clone";
            "gatsby-clone"; "nuxt-clone"; "nest-clone"; "koa-clone";
            "gin-clone"; "echo-clone"; "actix-clone"; "rocket-clone"] |});
    ("enterprise_ecommerce",
      {| count := 50;
         templates := ["shopify-clone"; "woocommerce-clone"; "magento-clone";
                       "bigcommerce-clone"] |});
    ("enterprise_crm",
      {| count := 50;
         templates := ["salesforce-clone"; "hubspot-clone"; "zoho-clone";
                       "pipedrive-clone"] |});
    ("enterprise_erp",
      {| count := 50;
         templates := ["sap-clone"; "odoo-clone"; "netsuite-clone";
                       "oracle-erp-clone"] |});
    ("enterprise_cms",
      {| count := 50;
         templates := ["wordpress-clone"; "drupal-clone"; "joomla-clone";
                       "strapi-clone"] |});
    ("enterprise_analytics",
      {| count := 50;
         templates := ["google-analytics-clone"; "mixpanel-clone";
                       "amplitude-clone"; "segment-clone"] |});
    ("enterprise_bi",
      {| count := 50;
         templates := ["tableau-clone"; "powerbi-clone"; "looker-clone";
                       "metabase-clone"] |});
    ("enterprise_hr",
      {| count := 50;
         templates := ["workday-clone"; "bamboo-clone"; "namely-clone";
                       "gusto-clone"] |});
    ("enterprise_pm",
      {| count := 50;
         templates := ["jira-clone"; "asana-clone"; "monday-clone";
                       "clickup-clone"] |});
    ("microservices_small",
      {| count := 100;
         templates := ["10-service-ecommerce"; "10-service-social";
                       "10-service-booking"] |});
    ("microservices_medium",
      {| count := 100;
         templates := ["50-service-banking"; "50-service-healthcare";
                       "50-service-logistics"] |});
    ("microservices_large",
      {| count := 50;
         templates := ["100-service-uber-clone"; "100-service-netflix-clone"] |});
    ("libraries_web",
      {| count := 100;
         templates := ["web-framework"; "http-client"; "websocket-lib";
                       "graphql-lib"] |});
    ("libraries_testing",
      {| count := 50;
         templates := ["test-framework"; "mock-lib"; "assertion-lib";
                       "e2e-framework"] |});
    ("libraries_orm",
      {| count := 50;
         templates := ["orm-lib"; "query-builder"; "migration-tool";
                       "schema-validator"] |});
    ("cli_tools",
      {| count := 100;
         templates := ["build-tool"; "package-manager"; "deploy-tool";
                       "monitor-tool"] |});
    ("mobile_ios",
      {| count := 50;
         templates := ["swiftui-app"; "uikit-app"; "combine-app"] |});
    ("mobile_android",
      {| count := 50;
         templates := ["kotlin-app"; "compose-app"; "coroutines-app"] |});
    ("games",
      {| count := 50;
         templates := ["unity-game"; "godot-game"; "phaser-game"] |});
    ("data_engineering",
      {| count := 50;
         templates := ["etl-pipeline"; "data-warehouse"; "stream-processor";
                       "ml-pipeline"] |}) ]%string.

(** The weights of the source are the floats 0.30, 0.25, ...; they are
    kept here as hundredths. *)
Record language_config : Type :=
  { weight : Z; extensions : list string }.

Definition LANGUAGES : list (string * language_config) :=
  [ ("python", {| weight := 30; extensions := [".py"] |});
    ("javascript", {| weight := 25; extensions := [".js"; ".jsx"] |});
    ("typescript", {| weight := 20; extensions := [".ts"; ".tsx"] |});
    ("java", {| weight := 10; extensions := [".java"] |});
    ("go", {| weight := 5; extensions := [".go"] |});
    ("rust", {| weight := 3; extensions := [".rs"] |});
    ("ruby", {| weight := 3; extensions := [".rb"] |});
    ("php", {| weight := 2; extensions := [".php"] |});
    ("c#", {| weight := 2; extensions := [".cs"] |}) ]%string.

Definition Contributor : Type := string * string.

Definition CONTRIBUTORS : list Contributor :=
  [ ("John Smith", "john.smith@example.com");
    ("Sarah Johnson", "sarah.j@example.com");
    ("Michael Chen", "mchen@example.com");
    ("Emily Davis", "emily.d@example.com");
    ("David Wilson", "dwilson@example.com");
    ("Maria Garcia", "mgarcia@example.com");
    ("James Brown", "jbrown@example.com");
    ("Lisa Anderson", "landerson@example.com");
    ("Robert Taylor", "rtaylor@example.com");
    ("Jennifer Martinez", "jmartinez@example.com");
    ("William Lee", "wlee@example.com");
    ("Jessica White", "jwhite@example.com");
    ("Daniel Thomas", "dthomas@example.com");
    ("Ashley Moore", "amoore@example.com");
    ("Christopher Jackson", "cjackson@example.com") ]%string.

(** [random.choices(keys, weights=weights)[0]]: the draw falls into the
    first key whose cumulative weight exceeds it. *)
Fixpoint pick_weighted (table : list (string * language_config)) (r : Z)
  (last : string) : string :=
  match table with
  | [] => last
  | (k, c) :: rest =>
      if r <? weight c then k else pick_weighted rest (r - weight c) k
  end.

Definition total_weight (table : list (string * language_config)) : Z :=
  fold_right (fun kc acc => weight (snd kc) + acc) 0 table.

(** ** The generator object *)

Record RepoGenerator : Type :=
  { repo_id : Z;
    category : string;
    template : string;
    language : string;
    lines_of_code : Z;
    num_commits : Z;
    num_contributors : Z;
    contributors : list Contributor;
    test_coverage : Z }.

Definition _select_language (g : rng) : string * rng :=
  let (r, g') := next g in
  (pick_weighted LANGUAGES (r mod total_weight LANGUAGES) ""%string, g').

(** [RepoGenerator.__init__], the draws in the order of the source. *)
Definition __init__ (repo_id : Z) (category template : string) (g0 : rng)
  : RepoGenerator * rng :=
  let (language, g1) := _select_language g0 in
  let (lines_of_code, g2) := randint 1000 50000 g1 in
  let (num_commits, g3) := randint 100 500 g2 in
  let (num_contributors, g4) := randint 1 (Z.min 5 (len CONTRIBUTORS)) g3 in
  let (contributors, g5) := sample CONTRIBUTORS (Z.to_nat num_contributors) g4 in
  let (test_coverage, g6) := randint 20 90 g5 in
  ({| repo_id := repo_id; category := category; template := template;
      language := language; lines_of_code := lines_of_code;
      num_commits := num_commits; num_contributors := num_contributors;
      contributors := contributors; test_coverage := test_coverage |}, g6).

(** ** The commit scheduler *)

(** A [datetime] is a number of microseconds, and so is a [timedelta]. *)
Definition timedelta_days (d : Z) : Z := d * 86400000000.
Definition timedelta_hours (h : Z) : Z := h * 3600000000.

Record Commit : Type :=
  { date : Z;
    message : string;
    author : Contributor;
    files : list string }.

Definition commit_types : list (string * string) :=
  [ ("feat", "Add {}");
    ("fix", "Fix bug in {}");
    ("refactor", "Refactor {}");
    ("docs", "Update documentation for {}");
    ("test", "Add tests for {}");
    ("chore", "Update dependencies") ]%string.

(** One triple [(root, dirs, files)] of [os.walk(self.repo_path)]; the
    root is kept relative to the repository, ["."] for its top. *)
Definition walk_entry : Type := string * list string * list string.

(** [os.path.relpath(os.path.join(root, file), self.repo_path)] *)
Definition relpath (root file : string) : string :=
  if String.eqb root "." then file else (root ++ "/" ++ file)%string.

(** The two nested [for] loops that fill [all_files]. *)
Definition collect_files (walk : list walk_entry) : list string :=
  flat_map
    (fun e : walk_entry =>
       let '(root, _, files) := e in
       map (relpath root) (filter (fun file => negb (prefix ".git" file)) files))
    walk.

(** [files_per_commit], both assignments. *)
Definition files_per_commit (self : RepoGenerator) (all_files : list string) : Z :=
  let files_per_commit :=
    if num_commits self >? 10
    then len all_files / (num_commits self - 10)
    else 1 in
  Z.max 1 files_per_commit.

(** The variables the [while] loop updates. *)
Record loop_state : Type :=
  { commits : list Commit;
    current_date : Z;
    file_index : Z;
    gen : rng }.

Section CommitLoop.

Variable self : RepoGenerator.
Variable all_files : list string.
Variable per_commit : Z.

Definition loop_cond (st : loop_state) : bool :=
  (file_index st <? len all_files) && (len (commits st) <? num_commits self).

Definition loop_body (st : loop_state) : result loop_state :=
  match choice commit_types (gen st) with
  | Raise e => Raise e
  | Ok (commit_type, msg_template, g1) =>
      let files_in_commit :=
        py_slice all_files (file_index st) (file_index st + per_commit) in
      match files_in_commit with
      | [] =>
          Ok {| commits := commits st; current_date := current_date st;
                file_index := file_index st; gen := g1 |}
      | first :: _ =>
          let component :=
            if contains "/" first then first_segment first else "core"%string in
          let message :=
            (commit_type ++ ": " ++ format msg_template component)%string in
          match choice (contributors self) g1 with
          | Raise e => Raise e
          | Ok (who, g2) =>
              let (hours, g3) := randint 1 48 g2 in
              Ok {| commits :=
                      commits st ++
                      [ {| date := current_date st; message := message;
                           author := who; files := files_in_commit |} ];
                    current_date := current_date st + timedelta_hours hours;
                    file_index := file_index st + per_commit;
                    gen := g3 |}
          end
      end
  end.

(** The loop, with fuel: [None] is fuel running out. *)
Fixpoint while_loop (fuel : nat) (st : loop_state) : option (result loop_state) :=
  if loop_cond st then
    match fuel with
    | O => None
    | S fuel' =>
        match loop_body st with
        | Raise e => Some (Raise e)
        | Ok st' => while_loop fuel' st'
        end
    end
  else Some (Ok st).

End CommitLoop.

(** The first commit of every history. *)
Definition initial_commit (start_date : Z) (who : Contributor) : Commit :=
  {| date := start_date; message := "Initial commit"; author := who;
     files := [".gitignore"; "README.md"]%string |}.

(** [_create_commit_history] up to the list [commits] it replays; [now]
    is [datetime.now()] and [walk] what [os.walk] enumerates. *)
Definition _create_commit_history (self : RepoGenerator) (now : Z)
  (walk : list walk_entry) (g : rng) (fuel : nat)
  : option (result (list Commit * rng)) :=
  let start_date := now - timedelta_days 365 in
  match contributors self with
  | [] => Some (Raise IndexError)
  | who :: _ =>
      let initial := [initial_commit start_date who] in
      let all_files := collect_files walk in
      let per_commit := files_per_commit self all_files in
      let st := {| commits := initial;
                   current_date := start_date + timedelta_days 1;
                   file_index := 0; gen := g |} in
      match while_loop self all_files per_commit fuel st with
      | None => None
      | Some (Raise e) => Some (Raise e)
      | Some (Ok st') => Some (Ok (commits st', gen st'))
      end
  end.

(** ** The code synthesiser

    Every generator of the source appends lines to a list [code] and
    returns ['\n'.join(code)]; the list is kept next to the text. *)

Definition dq : string := String (ascii_of_nat 34) EmptyString.
Definition newline : string := String (ascii_of_nat 10) EmptyString.

(** ['\n'.join(code)] *)
Definition join_lines (code : list string) : string := String.concat newline code.

(** A [for i in range(n)] loop whose body appends lines and may draw
    from the generator. *)
Fixpoint for_each (body : Z -> rng -> list string * rng) (indices : list Z)
  (g : rng) : list string * rng :=
  match indices with
  | [] => ([], g)
  | i :: rest =>
      let (block, g1) := body i g in
      let (more, g2) := for_each body rest g1 in
      (block ++ more, g2)
  end.

Section PythonCode.
Local Open Scope string_scope.

Definition python_header (code_type : string) : list string :=
  [ dq ++ dq ++ dq;
    "Module for " ++ code_type;
    dq ++ dq ++ dq;
    "";
    "import logging";
    "import typing";
    "from datetime import datetime";
    "";
    "logger = logging.getLogger(__name__)";
    "" ].

Definition python_class (i : Z) (g : rng) : list string * rng :=
  let (bug, g') := random_lt_tenth g in
  ([ "class Component" ++ str i ++ ":";
     "    " ++ dq ++ dq ++ dq ++ "Class for component " ++ str i ++ dq ++ dq ++ dq;
     "    ";
     "    def __init__(self, config: dict):";
     "        self.config = config";
     "        self.initialized = False";
     "    ";
     "    def initialize(self):";
     "        " ++ dq ++ dq ++ dq ++ "Initialize component" ++ dq ++ dq ++ dq;
     "        logger.info(" ++ dq ++ "Initializing component" ++ dq ++ ")";
     "        self.initialized = True";
     "    ";
     "    def process(self, data: typing.Any) -> typing.Any:";
     "        " ++ dq ++ dq ++ dq ++ "Process data" ++ dq ++ dq ++ dq;
     "        if not self.initialized:";
     "            raise RuntimeError(" ++ dq ++ "Component not initialized" ++ dq ++ ")";
     "        ";
     "        result = self._transform(data)";
     "        return result";
     "    ";
     "    def _transform(self, data: typing.Any) -> typing.Any:";
     "        " ++ dq ++ dq ++ dq ++ "Internal transformation logic" ++ dq ++ dq ++ dq;
     "        # TODO: Implement transformation";
     if bug then "        return data + None  # BUG: TypeError"
     else "        return data";
     "" ], g').

Definition python_function (i : Z) (g : rng) : list string * rng :=
  ([ "def function_" ++ str i ++ "(param1: str, param2: int = 0) -> dict:";
     "    " ++ dq ++ dq ++ dq ++ "Function " ++ str i ++ " description" ++ dq ++ dq ++ dq;
     "    result = {";
     "        " ++ dq ++ "param1" ++ dq ++ ": param1,";
     "        " ++ dq ++ "param2" ++ dq ++ ": param2,";
     "        " ++ dq ++ "timestamp" ++ dq ++ ": datetime.now().isoformat()";
     "    }";
     "    return result";
     "" ], g).

(** The list [code] of [_generate_python_code]. *)
Definition python_code (lines : Z) (code_type : string) (g : rng)
  : list string * rng :=
  let num_classes := Z.max 1 (lines / 50) in
  let (classes, g1) := for_each python_class (range num_classes) g in
  let num_functions := Z.max 1 (lines / 30) in
  let (functions, g2) := for_each python_function (range num_functions) g1 in
  ((python_header code_type ++ classes ++ functions)%list, g2).

Definition _generate_python_code (lines : Z) (code_type : string) (g : rng)
  : string * rng :=
  let (code, g') := python_code lines code_type g in (join_lines code, g').

End PythonCode.

Section JsCode.
Local Open Scope string_scope.

Definition js_class (is_ts : bool) (i : Z) (g : rng) : list string * rng :=
  let opening :=
    if is_ts then
      [ "export class Service" ++ str i ++ " implements Component {";
        "  private initialized: boolean = false;";
        "  private config: Record<string, any>;";
        "";
        "  constructor(config: Record<string, any>) {" ]
    else
      [ "class Service" ++ str i ++ " {";
        "  constructor(config) {" ] in
  let (bug, g') := random_lt_tenth g in
  (List.app opening
    [ "    this.config = config;";
      "  }";
      "";
      "  async initialize() {";
      "    console.log(" ++ dq ++ "Initializing service" ++ dq ++ ");";
      "    this.initialized = true;";
      "  }";
      "";
      "  async process(data) {";
      "    if (!this.initialized) {";
      "      throw new Error(" ++ dq ++ "Service not initialized" ++ dq ++ ");";
      "    }";
      "    const result = await this.transform(data);";
      "    return result;";
      "  }";
      "";
      "  async transform(data) {";
      if bug
      then "    return data.nonexistent.property;  // BUG: Cannot read property"
      else "    return { ...data, processed: true };";
      "  }";
      "}";
      "" ], g').

(** The list [code] of [_generate_js_code]. *)
Definition js_code (language : string) (lines : Z) (code_type : string)
  (g : rng) : list string * rng :=
  let is_ts := String.eqb language "typescript" in
  let first :=
    if is_ts then "import { Component } from " ++ dq ++ "./types" ++ dq ++ ";"
    else "const Component = require(" ++ dq ++ "./component" ++ dq ++ ");" in
  let num_classes := Z.max 1 (lines / 50) in
  let (classes, g') := for_each (js_class is_ts) (range num_classes) g in
  (([first; ""] ++ classes)%list, g').

Definition _generate_js_code (language : string) (lines : Z)
  (code_type : string) (g : rng) : string * rng :=
  let (code, g') := js_code language lines code_type g in (join_lines code, g').

End JsCode.

Section FixedCode.
Local Open Scope string_scope.

(** The list [code] of [_generate_java_code]; neither argument is used. *)
Definition java_code (lines : Z) (code_type : string) : list string :=
  [ "package com.example.app;";
    "";
    "import java.util.*;";
    "import java.time.LocalDateTime;";
    "";
    "public class Component {";
    "    private Map<String, Object> config;";
    "    private boolean initialized;";
    "";
    "    public Component(Map<String, Object> config) {";
    "        this.config = config;";
    "        this.initialized = false;";
    "    }";
    "";
    "    public void initialize() {";
    "        System.out.println(" ++ dq ++ "Initializing component" ++ dq ++ ");";
    "        this.initialized = true;";
    "    }";
    "";
    "    public Map<String, Object> process(Object data) {";
    "        if (!initialized) {";
    "            throw new RuntimeException(" ++ dq ++ "Component not initialized" ++ dq ++ ");";
    "        }";
    "        return transform(data);";
    "    }";
    "";
    "    private Map<String, Object> transform(Object data) {";
    "        Map<String, Object> result = new HashMap<>();";
    "        result.put(" ++ dq ++ "data" ++ dq ++ ", data);";
    "        result.put(" ++ dq ++ "timestamp" ++ dq ++ ", LocalDateTime.now());";
    "        return result;";
    "    }";
    "}" ].

(** The list [code] of [_generate_go_code]. *)
Definition go_code (lines : Z) (code_type : string) : list string :=
  [ "package main";
    "";
    "import (";
    "    " ++ dq ++ "fmt" ++ dq;
    "    " ++ dq ++ "time" ++ dq;
    ")";
    "";
    "type Component struct {";
    "    Config      map[string]interface{}";
    "    Initialized bool";
    "}";
    "";
    "func NewComponent(config map[string]interface{}) *Component {";
    "    return &Component{";
    "        Config:      config,";
    "        Initialized: false,";
    "    }";
    "}";
    "";
    "func (c *Component) Initialize() {";
    "    fmt.Println(" ++ dq ++ "Initializing component" ++ dq ++ ")";
    "    c.Initialized = true";
    "}";
    "";
    "func (c *Component) Process(data interface{}) (map[string]interface{}, error) {";
    "    if !c.Initialized {";
    "        return nil, fmt.Errorf(" ++ dq ++ "component not initialized" ++ dq ++ ")";
    "    }";
    "    return c.transform(data)";
    "}";
    "";
    "func (c *Component) transform(data interface{}) (map[string]interface{}, error) {";
    "    result := map[string]interface{}{";
    "        " ++ dq ++ "data" ++ dq ++ ":      data,";
    "        " ++ dq ++ "timestamp" ++ dq ++ ": time.Now(),";
    "    }";
    "    return result, nil";
    "}" ].

(** The list [code] of [_generate_rust_code]. *)
Definition rust_code (lines : Z) (code_type : string) : list string :=
  [ "use std::collections::HashMap;";
    "use chrono::Utc;";
    "";
    "pub struct Component {";
    "    config: HashMap<String, String>,";
    "    initialized: bool,";
    "}";
    "";
    "impl Component {";
    "    pub fn new(config: HashMap<String, String>) -> Self {";
    "        Component {";
    "            config,";
    "            initialized: false,";
    "        }";
    "    }";
    "";
    "    pub fn initialize(&mut self) {";
    "        println!(" ++ dq ++ "Initializing component" ++ dq ++ ");";
    "        self.initialized = true;";
    "    }";
    "";
    "    pub fn process(&self, data: &str) -> Result<HashMap<String, String>, String> {";
    "        if !self.initialized {";
    "            return Err(" ++ dq ++ "Component not initialized" ++ dq ++ ".to_string());";
    "        }";
    "        self.transform(data)";
    "    }";
    "";
    "    fn transform(&self, data: &str) -> Result<HashMap<String, String>, String> {";
    "        let mut result = HashMap::new();";
    "        result.insert(" ++ dq ++ "data" ++ dq ++ ".to_string(), data.to_string());";
    "        result.insert(" ++ dq ++ "timestamp" ++ dq ++ ".to_string(), Utc::now().to_rfc3339());";
    "        Ok(result)";
    "    }";
    "}" ].

(** The list [code] of [_generate_generic_code]. *)
Definition generic_code (lines : Z) : list string :=
  map (fun i => "// Line " ++ str i) (range lines).

End FixedCode.

Definition _generate_java_code (lines : Z) (code_type : string) : string :=
  join_lines (java_code lines code_type).
Definition _generate_go_code (lines : Z) (code_type : string) : string :=
  join_lines (go_code lines code_type).
Definition _generate_rust_code (lines : Z) (code_type : string) : string :=
  join_lines (rust_code lines code_type).
Definition _generate_generic_code (lines : Z) : string :=
  join_lines (generic_code lines).

(** The list [code] behind [_generate_code], by the language dispatch of
    the source. *)
Definition code_of (language : string) (lines : Z) (code_type : string)
  (g : rng) : list string * rng :=
  if String.eqb language "python" then python_code lines code_type g
  else if String.eqb language "javascript" || String.eqb language "typescript"
  then js_code language lines code_type g
  else if String.eqb language "java" then (java_code lines code_type, g)
  else if String.eqb language "go" then (go_code lines code_type, g)
  else if String.eqb language "rust" then (rust_code lines code_type, g)
  else (generic_code lines, g).

Definition _generate_code (self : RepoGenerator) (lines : Z)
  (code_type : string) (g : rng) : string * rng :=
  if String.eqb (language self) "python"
  then _generate_python_code lines code_type g
  else if String.eqb (language self) "javascript"
          || String.eqb (language self) "typescript"
  then _generate_js_code (language self) lines code_type g
  else if String.eqb (language self) "java"
  then (_generate_java_code lines code_type, g)
  else if String.eqb (language self) "go"
  then (_generate_go_code lines code_type, g)
  else if String.eqb (language self) "rust"
  then (_generate_rust_code lines code_type, g)
  else (_generate_generic_code lines, g).

(** Lines of [code] that open a class, a struct or another unit, and
    lines that open a free (top-level) function. *)
Definition is_unit_header (line : string) : bool :=
  prefix "class " line || prefix "export class " line
  || prefix "public class " line || prefix "pub struct " line
  || prefix "type " line.

Definition is_function_header (line : string) : bool :=
  prefix "def " line || prefix "function " line || prefix "fn " line
  || (prefix "func " line && negb (prefix "func (" line)).

Definition count_units (code : list string) : Z :=
  len (filter is_unit_header code).

Definition count_functions (code : list string) : Z :=
  len (filter is_function_header code).

(** ** The repository directory

    Paths are strings relative to [self.repo_path], whose own name is
    ["."].  A file holds either synthesised code or one of the static
    texts of the source, named after the method that returns it. *)

Inductive content : Type :=
| Code (text : string)
| Static (generator : string).

Record filesystem : Type :=
  { dirs : list string;
    written : list (string * content) }.

Record world : Type :=
  { fs : filesystem;
    rand : rng }.

(** A method that touches the directory or the generator. *)
Definition M (A : Type) : Type := world -> result (A * world).

Definition ret {A : Type} (a : A) : M A := fun w => Ok (a, w).

Definition bind {A B : Type} (c : M A) (k : A -> M B) : M B :=
  fun w => match c w with
           | Ok (a, w') => k a w'
           | Raise e => Raise e
           end.

Definition raise {A : Type} (e : exn) : M A := fun _ => Raise e.

Declare Scope py_scope.
Delimit Scope py_scope with py.
Notation "x <- c ;; k" := (bind c (fun x => k))
  (at level 61, c at next level, right associativity) : py_scope.
Notation "c ;; k" := (bind c (fun _ => k))
  (at level 61, right associativity) : py_scope.
Local Open Scope py_scope.

(** A call into the [random] module or the code synthesiser. *)
Definition draw {A : Type} (f : rng -> A * rng) : M A :=
  fun w => let (a, g) := f (rand w) in Ok (a, {| fs := fs w; rand := g |}).

Fixpoint for_ {A : Type} (l : list A) (body : A -> M unit) : M unit :=
  match l with
  | [] => ret tt
  | x :: rest => body x ;; for_ rest body
  end.

Definition is_dir (f : filesystem) (p : string) : bool :=
  existsb (String.eqb p) (dirs f).

Definition is_file (f : filesystem) (p : string) : bool :=
  existsb (fun e => String.eqb p (fst e)) (written f).

(** The path without its last component, [None] when there is no slash. *)
Fixpoint dirname (p : string) : option string :=
  match p with
  | EmptyString => None
  | String c rest =>
      match dirname rest with
      | Some d => Some (String c d)
      | None => if Ascii.eqb c "/"%char then Some EmptyString else None
      end
  end.

(** [Path(p).parent] *)
Definition parent (p : string) : string :=
  match dirname p with
  | Some d => d
  | None => "."%string
  end.

(** The proper ancestors of a path below the repository, outermost first. *)
Fixpoint ancestors_from (seen p : string) : list string :=
  match p with
  | EmptyString => []
  | String c rest =>
      if Ascii.eqb c "/"%char
      then seen :: ancestors_from (seen ++ String c EmptyString)%string rest
      else ancestors_from (seen ++ String c EmptyString)%string rest
  end.

Definition ancestors (p : string) : list string := ancestors_from EmptyString p.

Definition add_dir (f : filesystem) (p : string) : filesystem :=
  if is_dir f p then f else {| dirs := dirs f ++ [p]; written := written f |}.

(** [Path(p).mkdir()] *)
Definition mkdir (p : string) : M unit :=
  fun w =>
    if is_dir (fs w) p || is_file (fs w) p then Raise FileExistsError
    else if negb (is_dir (fs w) (parent p)) then Raise FileNotFoundError
    else Ok (tt, {| fs := add_dir (fs w) p; rand := rand w |}).

(** [Path(p).mkdir(exist_ok=True)] *)
Definition mkdir_exist_ok (p : string) : M unit :=
  fun w =>
    if is_dir (fs w) p then Ok (tt, w)
    else if is_file (fs w) p then Raise FileExistsError
    else if negb (is_dir (fs w) (parent p)) then Raise FileNotFoundError
    else Ok (tt, {| fs := add_dir (fs w) p; rand := rand w |}).

(** [Path(p).mkdir(parents=True)] and, with [exist_ok],
    [Path(p).mkdir(parents=True, exist_ok=True)] *)
Definition mkdir_parents (exist_ok : bool) (p : string) : M unit :=
  fun w =>
    if is_file (fs w) p || existsb (is_file (fs w)) (ancestors p)
    then Raise FileExistsError
    else if is_dir (fs w) p && negb exist_ok then Raise FileExistsError
    else Ok (tt, {| fs := fold_left add_dir (ancestors p ++ [p]) (fs w);
                    rand := rand w |}).

Fixpoint store (p : string) (c : content) (l : list (string * content))
  : list (string * content) :=
  match l with
  | [] => [(p, c)]
  | (q, d) :: rest =>
      if String.eqb p q then (p, c) :: rest else (q, d) :: store p c rest
  end.

(** [_write_file]: the parent directories are made, then the file is
    opened for writing and filled. *)
Definition _write_file (path : string) (c : content) : M unit :=
  mkdir_parents true (parent path) ;;
  fun w =>
    if is_dir (fs w) path then Raise IsADirectoryError
    else Ok (tt, {| fs := {| dirs := dirs (fs w);
                             written := store path c (written (fs w)) |};
                    rand := rand w |}).

Definition _write_code_file (path : string) (c : content) : M unit :=
  _write_file path c.

(** [LANGUAGES[self.language]['extensions'][0]] *)
Fixpoint lookup {V : Type} (k : string) (table : list (string * V)) : option V :=
  match table with
  | [] => None
  | (k', v) :: rest => if String.eqb k k' then Some v else lookup k rest
  end.

Definition extension (self : RepoGenerator) : M string :=
  match lookup (language self) LANGUAGES with
  | None => raise KeyError
  | Some c =>
      match extensions c with
      | [] => raise IndexError
      | e :: _ => ret e
      end
  end.

(** [f'{i:0Nd}'] for a non-negative [i]. *)
Fixpoint zeros (n : nat) : string :=
  match n with
  | O => EmptyString
  | S n' => String "0"%char (zeros n')
  end.

Definition zero_padded (width : nat) (i : Z) : string :=
  (zeros (width - String.length (str i)) ++ str i)%string.

Definition repo_name (self : RepoGenerator) : string :=
  ("repo-" ++ zero_padded 5 (repo_id self) ++ "-" ++ template self)%string.

(** ** The structure generators *)

Section Structure.
Local Open Scope string_scope.

Variable self : RepoGenerator.

(** [self._write_code_file(path, self._generate_code(lines, code_type))] *)
Definition write_code (path : string) (lines : Z) (code_type : string) : M unit :=
  text <- draw (_generate_code self lines code_type) ;;
  _write_code_file path (Code text).

(** The loop
    [for i in range(random.randint(lo, hi)):
       self._write_code_file(path(i),
         self._generate_code(random.randint(lines_lo, lines_hi), code_type))] *)
Definition write_code_files (lo hi : Z) (path : Z -> string)
  (lines_lo lines_hi : Z) (code_type : string) : M unit :=
  n <- draw (randint lo hi) ;;
  for_ (range n)
    (fun i => lines <- draw (randint lines_lo lines_hi) ;;
              write_code (path i) lines code_type).

Definition _create_config_files : M unit :=
  (if String.eqb (language self) "javascript"
      || String.eqb (language self) "typescript"
   then _write_file "package.json" (Static "_generate_package_json")
   else if String.eqb (language self) "python"
   then _write_file "setup.py" (Static "_generate_setup_py") ;;
        _write_file "requirements.txt" (Static "_generate_requirements")
   else if String.eqb (language self) "go"
   then _write_file "go.mod" (Static "_generate_go_mod")
   else if String.eqb (language self) "rust"
   then _write_file "Cargo.toml" (Static "_generate_cargo_toml")
   else if String.eqb (language self) "ruby"
   then _write_file "Gemfile" (Static "_generate_gemfile")
   else if String.eqb (language self) "java"
   then _write_file "pom.xml" (Static "_generate_pom_xml")
   else ret tt) ;;
  mkdir_parents true ".github/workflows" ;;
  _write_file ".github/workflows/ci.yml" (Static "_generate_github_actions") ;;
  _write_file ".gitignore" (Static "_generate_gitignore") ;;
  _write_file "README.md" (Static "_generate_readme") ;;
  _write_file "LICENSE" (Static "_generate_license").

Definition _create_web_files : M unit :=
  ext <- extension self ;;
  write_code ("src/app" ++ ext) 500 "app_entry" ;;
  write_code ("src/index" ++ ext) 50 "index" ;;
  write_code_files 10 30 (fun i => "src/components/Component" ++ str i ++ ext)
    50 300 "component" ;;
  write_code_files 5 15 (fun i => "src/pages/Page" ++ str i ++ ext)
    100 500 "page" ;;
  write_code_files 5 15 (fun i => "src/utils/util" ++ str i ++ ext)
    50 200 "util" ;;
  write_code_files 5 15 (fun i => "src/api/api" ++ str i ++ ext)
    100 300 "api" ;;
  write_code_files 20 60 (fun i => "tests/unit/test" ++ str i ++ ext)
    50 200 "test" ;;
  _create_config_files.

Definition _generate_web_structure : M unit :=
  mkdir "src" ;;
  mkdir "src/components" ;;
  mkdir "src/pages" ;;
  mkdir "src/utils" ;;
  mkdir "src/api" ;;
  mkdir "src/models" ;;
  mkdir "src/services" ;;
  mkdir "tests" ;;
  mkdir "tests/unit" ;;
  mkdir "tests/integration" ;;
  mkdir "tests/e2e" ;;
  mkdir "config" ;;
  mkdir "public" ;;
  mkdir "static" ;;
  _create_web_files.

Definition _create_service_files (path service_name : string) : M unit :=
  ext <- extension self ;;
  mkdir_exist_ok (path ++ "/src") ;;
  mkdir_exist_ok (path ++ "/tests") ;;
  mkdir_exist_ok (path ++ "/config") ;;
  write_code (path ++ "/src/main" ++ ext) 200 "service_main" ;;
  write_code (path ++ "/src/handlers" ++ ext) 300 "handlers" ;;
  write_code (path ++ "/src/models" ++ ext) 150 "models" ;;
  write_code (path ++ "/src/repository" ++ ext) 200 "repository" ;;
  write_code_files 5 15 (fun i => path ++ "/tests/test" ++ str i ++ ext)
    50 150 "test".

Definition _create_infrastructure_files : M unit :=
  _write_file "docker-compose.yml" (Static "_generate_docker_compose") ;;
  _write_file "Dockerfile" (Static "_generate_dockerfile") ;;
  mkdir_parents true "infrastructure/k8s" ;;
  _write_file "infrastructure/k8s/deployment.yaml"
    (Static "_generate_k8s_deployment") ;;
  _write_file "infrastructure/k8s/service.yaml" (Static "_generate_k8s_service") ;;
  mkdir_parents true "infrastructure/terraform" ;;
  _write_file "infrastructure/terraform/main.tf" (Static "_generate_terraform").

Definition services : list string :=
  [ "auth"; "user"; "product"; "order"; "payment"; "inventory";
    "notification"; "analytics"; "search"; "recommendation" ].

Definition _generate_microservice_structure : M unit :=
  let num_services :=
    if contains "small" (category self) then 10
    else if contains "medium" (category self) then 50 else 100 in
  mkdir "api-gateway" ;;
  _create_service_files "api-gateway" "gateway" ;;
  for_ (range (Z.min num_services 100))
    (fun i =>
       let service_name :=
         nth (Z.to_nat (i mod len services)) services ""
         ++ (if i >=? len services then "-" ++ str (i / len services) else "") in
       let service_path := "services/" ++ service_name in
       mkdir_parents false service_path ;;
       _create_service_files service_path service_name) ;;
  mkdir "shared" ;;
  mkdir "shared/models" ;;
  mkdir "shared/utils" ;;
  mkdir "infrastructure" ;;
  _create_infrastructure_files.

Definition _create_cli_files : M unit :=
  ext <- extension self ;;
  write_code ("cmd/main" ++ ext) 300 "cli_main" ;;
  write_code ("internal/commands" ++ ext) 500 "commands" ;;
  write_code ("internal/config" ++ ext) 150 "config" ;;
  write_code ("pkg/utils" ++ ext) 200 "utils" ;;
  write_code_files 10 30 (fun i => "tests/test" ++ str i ++ ext) 50 150 "test".

Definition _generate_cli_structure : M unit :=
  mkdir "cmd" ;;
  mkdir "internal" ;;
  mkdir "pkg" ;;
  mkdir "tests" ;;
  _create_cli_files.

Definition _create_library_files : M unit :=
  ext <- extension self ;;
  write_code ("src/core" ++ ext) 1000 "library_core" ;;
  write_code_files 10 30 (fun i => "src/module" ++ str i ++ ext) 100 500 "module" ;;
  write_code_files 20 60 (fun i => "tests/test" ++ str i ++ ext) 50 200 "test" ;;
  write_code_files 5 10 (fun i => "examples/example" ++ str i ++ ext)
    50 150 "example".

Definition _generate_library_structure : M unit :=
  mkdir "src" ;;
  mkdir "tests" ;;
  mkdir "examples" ;;
  mkdir "docs" ;;
  mkdir "benchmarks" ;;
  _create_library_files.

Definition _create_ios_files : M unit :=
  write_code_files 10 30 (fun i => "Sources/View" ++ str i ++ ".swift")
    50 200 "swift_view" ;;
  write_code_files 10 20 (fun i => "Tests/Test" ++ str i ++ ".swift")
    50 150 "swift_test".

Definition _create_android_files : M unit :=
  let base := "app/src/main/java/com/example/app" in
  write_code_files 10 30 (fun i => base ++ "/Activity" ++ str i ++ ".kt")
    50 200 "kotlin_activity" ;;
  let test_base := "app/src/test/java/com/example/app" in
  write_code_files 10 20 (fun i => test_base ++ "/Test" ++ str i ++ ".kt")
    50 150 "kotlin_test".

Definition _generate_mobile_structure : M unit :=
  if contains "ios" (category self) then
    mkdir "Sources" ;;
    mkdir "Tests" ;;
    mkdir "Resources" ;;
    _create_ios_files
  else
    mkdir "app" ;;
    mkdir_parents false "app/src/main/java" ;;
    mkdir_parents false "app/src/test/java" ;;
    mkdir_parents false "app/src/main/res" ;;
    _create_android_files.

Definition _create_game_files : M unit :=
  write_code_files 20 50 (fun i => "Assets/Scripts/Script" ++ str i ++ ".cs")
    50 300 "game_script".

Definition _generate_game_structure : M unit :=
  mkdir "Assets" ;;
  mkdir "Assets/Scripts" ;;
  mkdir "Assets/Scenes" ;;
  mkdir "Assets/Prefabs" ;;
  mkdir "Assets/Materials" ;;
  mkdir "Tests" ;;
  _create_game_files.

Definition _create_data_files : M unit :=
  ext <- extension self ;;
  write_code_files 5 15 (fun i => "pipelines/pipeline" ++ str i ++ ext)
    200 600 "pipeline" ;;
  write_code_files 10 20 (fun i => "transformations/transform" ++ str i ++ ext)
    100 300 "transform".

Definition _generate_data_structure : M unit :=
  mkdir "pipelines" ;;
  mkdir "transformations" ;;
  mkdir "models" ;;
  mkdir "schemas" ;;
  mkdir "tests" ;;
  mkdir "config" ;;
  _create_data_files.

Definition _create_enterprise_files : M unit :=
  ext <- extension self ;;
  write_code_files 20 50 (fun i => "backend/src/module" ++ str i ++ ext)
    100 500 "backend" ;;
  write_code_files 20 50 (fun i => "frontend/src/component" ++ str i ++ ext)
    100 400 "frontend" ;;
  n <- draw (randint 10 30) ;;
  for_ (range n)
    (fun i =>
       _write_file ("database/migrations/migration" ++ zero_padded 3 i ++ ".sql")
         (Static "_generate_sql_migration")).

Definition _generate_enterprise_structure : M unit :=
  mkdir "backend" ;;
  mkdir "backend/src" ;;
  mkdir "backend/tests" ;;
  mkdir "frontend" ;;
  mkdir "frontend/src" ;;
  mkdir "frontend/tests" ;;
  mkdir "database" ;;
  mkdir "database/migrations" ;;
  mkdir "docs" ;;
  mkdir "infrastructure" ;;
  _create_enterprise_files.

(** The [if]/[elif] chain of [_generate_structure], over what each
    branch stands for. *)
Definition dispatch {R : Type}
  (web microservice cli library mobile game data enterprise : R) : R :=
  if contains "web" (template self) || contains "framework" (template self)
  then web
  else if contains "microservice" (category self) then microservice
  else if contains "cli" (category self) then cli
  else if contains "lib" (category self) || contains "lib" (template self)
  then library
  else if contains "mobile" (category self) then mobile
  else if contains "game" (category self) then game
  else if contains "data" (category self) then data
  else enterprise.

Definition _generate_structure : M unit :=
  dispatch _generate_web_structure _generate_microservice_structure
    _generate_cli_structure _generate_library_structure
    _generate_mobile_structure _generate_game_structure
    _generate_data_structure _generate_enterprise_structure.

End Structure.

(** The eight families of repository. *)
Inductive Archetype : Type :=
| WebApp | ServiceMesh | CliTool | Library | MobileApp | Game | DataPipeline
| EnterpriseApp.

(** The branch [_generate_structure] takes. *)
Definition archetype (self : RepoGenerator) : Archetype :=
  dispatch self WebApp ServiceMesh CliTool Library MobileApp Game DataPipeline
    EnterpriseApp.

(** The repository directory right after [self.repo_path.mkdir(...)] on a
    path that did not exist. *)
Definition fresh_repository (g : rng) : world :=
  {| fs := {| dirs := ["."%string]; written := [] |}; rand := g |}.

(** [generate], after [git init]: the structure, then the history.  The
    enumeration [os.walk] makes of the directory is the caller's. *)
Definition generate (self : RepoGenerator) (now : Z)
  (os_walk : filesystem -> list walk_entry) (fuel : nat) (w : world)
  : option (result (list Commit * world)) :=
  match _generate_structure self w with
  | Raise e => Some (Raise e)
  | Ok (_, w1) =>
      match _create_commit_history self now (os_walk (fs w1)) (rand w1) fuel with
      | None => None
      | Some (Raise e) => Some (Raise e)
      | Some (Ok (history, g)) => Some (Ok (history, {| fs := fs w1; rand := g |}))
      end
  end.

(** ** The orchestrator *)

Definition exn_str (e : exn) : string :=
  match e with
  | IndexError => "list index out of range"
  | ZeroDivisionError => "integer division or modulo by zero"
  | FileExistsError => "[Errno 17] File exists"
  | FileNotFoundError => "[Errno 2] No such file or directory"
  | IsADirectoryError => "[Errno 21] Is a directory"
  | KeyError => "KeyError"
  end.

(** [s * n] *)
Fixpoint repeat_string (s : string) (n : nat) : string :=
  match n with
  | O => EmptyString
  | S n' => (s ++ repeat_string s n')%string
  end.

Definition upper_char (c : ascii) : ascii :=
  let n := nat_of_ascii c in
  if (97 <=? n)%nat && (n <=? 122)%nat then ascii_of_nat (n - 32) else c.

(** [s.upper()] on ASCII text. *)
Fixpoint upper (s : string) : string :=
  match s with
  | EmptyString => EmptyString
  | String c rest => String (upper_char c) (upper rest)
  end.

Module Main.
Section Orchestrator.
Local Open Scope string_scope.

(** Everything outside the orchestrator that a repository build can
    change, and the build itself:
    [RepoGenerator(repo_id, category, template, base_path).generate()]
    returns or raises, and leaves the outside as it got. *)
Variable W : Type.
Variable build : Z -> string -> string -> W -> result unit * W.

Record state : Type :=
  { repo_id : Z;
    total_repos : Z;
    outside : W;
    stdout : list string }.

Definition print (line : string) (st : state) : state :=
  {| repo_id := repo_id st; total_repos := total_repos st;
     outside := outside st; stdout := stdout st ++ [line] |}.

(** The inner [for i in range(count)] loop; the flag tells whether it
    was left by [break]. *)
Fixpoint for_templates (category : string) (templates : list string)
  (indices : list Z) (st : state) : result (bool * state) :=
  match indices with
  | [] => Ok (false, st)
  | i :: rest =>
      if (len templates =? 0)%Z then Raise ZeroDivisionError
      else
        let template := nth (Z.to_nat (i mod len templates)) templates "" in
        match build (repo_id st) category template (outside st) with
        | (Ok _, w) =>
            let st1 := {| repo_id := repo_id st + 1;
                          total_repos := total_repos st + 1;
                          outside := w; stdout := stdout st |} in
            if (total_repos st1 >=? 1000)%Z then Ok (true, st1)
            else for_templates category templates rest st1
        | (Raise e, w) =>
            let st1 :=
              print ("  ERROR generating repo " ++ str (repo_id st) ++ ": "
                     ++ exn_str e)
                {| repo_id := repo_id st; total_repos := total_repos st;
                   outside := w; stdout := stdout st |} in
            for_templates category templates rest
              {| repo_id := repo_id st1 + 1; total_repos := total_repos st1;
                 outside := outside st1; stdout := stdout st1 |}
        end
  end.

(** The outer [for category, config in ...items()] loop. *)
Fixpoint for_categories (table : list (string * category_config)) (st : state)
  : result state :=
  match table with
  | [] => Ok st
  | (category, config) :: rest =>
      let st0 :=
        print (newline ++ "[" ++ upper category ++ "] Generating "
               ++ str (count config) ++ " repositories...") st in
      match for_templates category (templates config) (range (count config)) st0 with
      | Raise e => Raise e
      | Ok (_, st1) =>
          if (total_repos st1 >=? 1000)%Z then Ok st1 else for_categories rest st1
      end
  end.

Definition main_over (table : list (string * category_config))
  (base_path : string) (w : W) : result state :=
  let st := {| repo_id := 5001; total_repos := 0; outside := w;
               stdout :=
                 [ repeat_string "=" 80;
                   "MASSIVE REPOSITORY FACTORY";
                   "Generating 1000 repositories (5001-6000)";
                   repeat_string "=" 80;
                   "" ] |} in
  match for_categories table st with
  | Raise e => Raise e
  | Ok st' =>
      Ok (print (repeat_string "=" 80)
           (print ("Location: " ++ base_path)
             (print ("COMPLETE: Generated " ++ str (total_repos st')
                     ++ " repositories")
               (print (newline ++ repeat_string "=" 80) st'))))
  end.

Definition main : string -> W -> result state := main_over REPO_CATEGORIES.

End Orchestrator.
End Main.

Arguments Main.repo_id {W} s.
Arguments Main.total_repos {W} s.
Arguments Main.outside {W} s.
Arguments Main.stdout {W} s.

(** One call of the constructor by the orchestrator: the identity, the
    category and the template it was given. *)
Definition attempt : Type := Z * string * string.

Definition attempt_id (a : attempt) : Z := fst (fst a).

(** A build that records the call and then returns or raises as
    [outcome] says; the record is the list of calls so far, oldest
    first. *)
Definition recording_build (outcome : attempt -> option exn)
  (repo_id : Z) (category template : string) (calls : list attempt)
  : result unit * list attempt :=
  (match outcome (repo_id, category, template) with
   | None => Ok tt
   | Some e => Raise e
   end, calls ++ [(repo_id, category, template)]).

(** The (category, template) pairs the two loops of [main] go through,
    in order. *)
Definition slot_of (category : string) (templates : list string) (i : Z)
  : string * string :=
  (category, nth (Z.to_nat (i mod len templates)) templates EmptyString).

Definition slots (table : list (string * category_config))
  : list (string * string) :=
  flat_map
    (fun entry : string * category_config =>
       map (slot_of (fst entry) (templates (snd entry)))
         (range (count (snd entry))))
    table.

(** Calls that use consecutive identities from [next] on. *)
Fixpoint attempts (next : Z) (sl : list (string * string)) : list attempt :=
  match sl with
  | [] => []
  | (category, template) :: rest =>
      (next, category, template) :: attempts (next + 1) rest
  end.

Definition succeeded (outcome : attempt -> option exn) (a : attempt) : bool :=
  match outcome a with
  | None => true
  | Some _ => false
  end.

(** The line [main] prints for a failed build. *)
Definition error_line (repo_id : Z) (e : exn) : string :=
  ("  ERROR generating repo " ++ str repo_id ++ ": " ++ exn_str e)%string.

Definition error_lines (outcome : attempt -> option exn) (calls : list attempt)
  : list string :=
  flat_map
    (fun a => match outcome a with
              | Some e => [error_line (attempt_id a) e]
              | None => []
              end)
    calls.

(** The error lines among what was printed. *)
Definition printed_errors (stdout : list string) : list string :=
  filter (prefix "  ERROR generating repo ") stdout.

(** [st'] is what the loops make of [st] by the calls for the slots
    [sl], one identity each: the calls are recorded, the identity and
    the count of successes have moved on, the failures are printed. *)
Definition reaches (outcome : attempt -> option exn)
  (st st' : Main.state (list attempt)) (sl : list (string * string)) : Prop :=
  let calls := attempts (Main.repo_id st) sl in
  Main.outside st' = Main.outside st ++ calls
  /\ Main.repo_id st' = Main.repo_id st + len sl
  /\ Main.total_repos st'
     = Main.total_repos st + len (filter (succeeded outcome) calls)
  /\ printed_errors (Main.stdout st')
     = printed_errors (Main.stdout st) ++ error_lines outcome calls.

(** ** Sample inputs *)

Definition sample_rng : rng := mkRng (fun n => Z.of_nat n) 0.

(** A library repository at the lowest target of commits. *)
Definition library_self : RepoGenerator :=
  {| repo_id := 5951; category := "libraries_orm"; template := "orm-lib";
     language := "python"; lines_of_code := 20000; num_commits := 100;
     num_contributors := 1;
     contributors := [("John Smith", "john.smith@example.com")]%string;
     test_coverage := 50 |}.

(** What [os.walk] finds after [_generate_library_structure] drew the
    largest counts: 101 generated files, and the files of [git init]. *)
Definition library_walk : list walk_entry :=
  [ (".", [".git"; "src"; "tests"; "examples"; "docs"; "benchmarks"], []);
    (".git", ["hooks"; "info"; "objects"; "refs"], ["HEAD"; "config"; "description"]);
    ("src", [],
      "core.py" :: map (fun i => "module" ++ str i ++ ".py") (range 30));
    ("tests", [], map (fun i => "test" ++ str i ++ ".py") (range 60));
    ("docs", [], []);
    ("benchmarks", [], []);
    ("examples", [], map (fun i => "example" ++ str i ++ ".py") (range 10)) ]%string.

(** A command-line tool repository and a walk over 40 of its files. *)
Definition cli_self : RepoGenerator :=
  {| repo_id := 5001; category := "cli_tools"; template := "build-tool";
     language := "python"; lines_of_code := 1000; num_commits := 100;
     num_contributors := 2;
     contributors := [("John Smith", "john.smith@example.com");
                      ("Sarah Johnson", "sarah.j@example.com")]%string;
     test_coverage := 20 |}.

Definition cli_walk : list walk_entry :=
  [ (".", ["cmd"; "internal"; "pkg"; "tests"], [".gitignore"]);
    ("cmd", [], ["main.py"]);
    ("internal", [], ["commands.py"; "config.py"]);
    ("pkg", [], ["utils.py"]);
    ("tests", [], map (fun i => "test" ++ str i ++ ".py") (range 36)) ]%string.

(** A repository of category [libraries_web] whose template is not a
    web one, and one whose template is. *)
Definition http_client_self : RepoGenerator :=
  {| repo_id := 5752; category := "libraries_web"; template := "http-client";
     language := "go"; lines_of_code := 1000; num_commits := 100;
     num_contributors := 1;
     contributors := [("John Smith", "john.smith@example.com")]%string;
     test_coverage := 20 |}.

Definition web_framework_self : RepoGenerator :=
  {| repo_id := 5751; category := "libraries_web"; template := "web-framework";
     language := "python"; lines_of_code := 1000; num_commits := 100;
     num_contributors := 1;
     contributors := [("John Smith", "john.smith@example.com")]%string;
     test_coverage := 20 |}.

(** An enterprise repository in Java. *)
Definition java_self : RepoGenerator :=
  {| repo_id := 5101; category := "enterprise_crm"; template := "salesforce-clone";
     language := "java"; lines_of_code := 1000; num_commits := 100;
     num_contributors := 1;
     contributors := [("John Smith", "john.smith@example.com")]%string;
     test_coverage := 20 |}.

(** The extension [ext] the file creators compute, when the language is
    configured. *)
Definition ext_of (self : RepoGenerator) : string :=
  match lookup (language self) LANGUAGES with
  | Some c => hd EmptyString (extensions c)
  | None => EmptyString
  end.

(** [w'] has every directory and every file of [w]. *)
Definition grows (w w' : world) : Prop :=
  (forall p, is_dir (fs w) p = true -> is_dir (fs w') p = true)
  /\ (forall p, is_file (fs w) p = true -> is_file (fs w') p = true).

(** Whenever [c] returns, nothing was removed, the directories [ds]
    exist and the files [fs] exist. *)
Definition establishes {A : Type} (c : M A) (ds fls : list string) : Prop :=
  forall w a w',
    c w = Ok (a, w') ->
    grows w w'
    /\ Forall (fun p => is_dir (fs w') p = true) ds
    /\ Forall (fun p => is_file (fs w') p = true) fls.

(** The directory [_generate_cli_structure] leaves when it is run for
    [cli_self] in a repository that was just created. *)
Definition cli_world : world :=
  match _generate_cli_structure cli_self (fresh_repository sample_rng) with
  | Ok (_, w') => w'
  | Raise _ => fresh_repository sample_rng
  end.

(** What holds of the loop variables before and after every iteration:
    the commits after the first stage the files below [file_index], in
    order and batch by batch; dates grow; the count stays under the
    ceiling. *)
Record history_inv (self : RepoGenerator) (all_files : list string)
  (per_commit : Z) (first : Commit) (st : loop_state) : Prop :=
  { inv_index : 0 <= file_index st;
    inv_files :
      exists batches,
        commits st = first :: batches
        /\ file_index st = per_commit * len batches
        /\ (batches = [] \/ file_index st - per_commit < len all_files)
        /\ concat (map files batches)
           = firstn (Z.to_nat (file_index st)) all_files
        /\ map files batches
           = map (fun j => py_slice all_files (j * per_commit)
                             (j * per_commit + per_commit))
               (range (len batches))
        /\ Forall (fun c => In (author c) (contributors self)) batches;
    inv_sorted : StronglySorted Z.lt (map date (commits st));
    inv_before : Forall (fun c => date c < current_date st) (commits st);
    inv_count : 1 <= len (commits st) <= Z.max 1 (num_commits self) }.

(** A path with no slash in it. *)
Definition flat (p : string) : Prop := dirname p = None.

(** The directories are exactly [ds], none of them nested, and every
    file written so far lies below one. *)
Definition laid_out (ds : list string) (w : world) : Prop :=
  dirs (fs w) = ds
  /\ Forall flat ds
  /\ Forall (fun e => ~ flat (fst e)) (written (fs w)).

(** From such a directory [c] returns and leaves it such. *)
Definition keeps {A : Type} (ds : list string) (c : M A) : Prop :=
  forall w, laid_out ds w -> exists a w', c w = Ok (a, w') /\ laid_out ds w'.

(** ** What the scheduler puts into a commit *)

(** The label [component] of a batch, from its first file: the text
    before the first slash, or ["core"] for a file at the top. *)
Definition component_label (first : string) : string :=
  if contains "/" first then first_segment first else "core"%string.

(** The dictionary the loop appends in a state [st] once it has chosen
    a commit type, a message template and an author. *)
Definition batch_commit (all_files : list string) (per_commit : Z)
  (st : loop_state) (commit_type msg_template : string) (who : Contributor)
  : Commit :=
  let files_in_commit :=
    py_slice all_files (file_index st) (file_index st + per_commit) in
  {| date := current_date st;
     message :=
       (commit_type ++ ": "
        ++ format msg_template (component_label (hd EmptyString files_in_commit)))%string;
     author := who;
     files := files_in_commit |}.

(** A message built from a row of [commit_types] and the label of the
    commit's first file. *)
Definition scheduled_message (c : Commit) : Prop :=
  exists commit_type msg_template,
    In (commit_type, msg_template) commit_types
    /\ message c
       = (commit_type ++ ": "
          ++ format msg_template (component_label (hd EmptyString (files c))))%string.

(** The differences between neighbours of a list of dates. *)
Fixpoint gaps (l : list Z) : list Z :=
  match l with
  | a :: (b :: _) as rest => (b - a) :: gaps rest
  | _ => []
  end.

(** A whole number of hours, between 1 and 48. *)
Definition hourly (gap : Z) : Prop :=
  exists hours, 1 <= hours <= 48 /\ gap = timedelta_hours hours.

(** The directory a structure function makes first. *)
Definition first_directory (self : RepoGenerator) : string :=
  (dispatch self "src" "api-gateway" "cmd" "src"
     (if contains "ios" (category self) then "Sources" else "app")
     "Assets" "pipelines" "backend")%string.

Definition attempt_category (a : attempt) : string := snd (fst a).

(** The name of the [i]-th service of a mesh: the domain names in
    rotation, with the number of the round appended from the second
    round on. *)
Definition service_name_of (i : Z) : string :=
  (nth (Z.to_nat (i mod len services)) services ""
   ++ (if i >=? len services then "-" ++ str (i / len services) else ""))%string.

(** The number of services of a mesh, by the category. *)
Definition num_services_of (category : string) : Z :=
  if contains "small" category then 10
  else if contains "medium" category then 50 else 100.

(** No string occurs twice. *)
Fixpoint distinct (l : list string) : bool :=
  match l with
  | [] => true
  | x :: rest => negb (existsb (String.eqb x) rest) && distinct rest
  end.

(** Every directory is one of [allowed], and no file written has the
    name of one of them; every file written has a name that [Q] holds
    of. *)
Definition within (allowed : list string) (Q : string -> Prop)
  (f : filesystem) : Prop :=
  (forall d, is_dir f d = true -> In d allowed)
  /\ Forall (fun e => ~ In (fst e) allowed /\ Q (fst e)) (written f).

(** From such a directory [c] returns and leaves it such. *)
Definition stays {A : Type} (allowed : list string) (Q : string -> Prop)
  (c : M A) : Prop :=
  forall w,
    within allowed Q (fs w) ->
    exists a w', c w = Ok (a, w') /\ within allowed Q (fs w').

(** A directory and all the directories above it are among [allowed]. *)
Definition reachable (allowed : list string) (dir : string) : bool :=
  forallb (fun d => existsb (String.eqb d) allowed) (ancestors dir ++ [dir]).

(** ** Replaying the history

    The second half of [_create_commit_history] calls [git] once per
    configuration key, staged file and commit, and does not look at
    what [git] answers.  The dates it passes are the commit's date,
    here without the rendering by [isoformat]. *)
Inductive git_call : Type :=
| GitConfig (key value : string)
| GitAdd (file : string)
| GitCommit (message : string) (author_date committer_date : Z).

(** [(self.repo_path / file).exists()] *)
Definition path_exists (f : filesystem) (file : string) : bool :=
  is_dir f file || is_file f file.

(** The body of the loop [for commit in commits]. *)
Definition replay_commit (f : filesystem) (commit : Commit) : list git_call :=
  [ GitConfig "user.name" (fst (author commit));
    GitConfig "user.email" (snd (author commit)) ]
  ++ map GitAdd (filter (path_exists f) (files commit))
  ++ [ GitCommit (message commit) (date commit) (date commit) ].

Definition replay (f : filesystem) (history : list Commit) : list git_call :=
  flat_map (replay_commit f) history.

(** The directories a structure function makes before it calls its
    file creator, in a repository that had none. *)
Definition made_directories (self : RepoGenerator) : list string :=
  (dispatch self
     [ "src"; "src/components"; "src/pages"; "src/utils"; "src/api";
       "src/models"; "src/services"; "tests"; "tests/unit";
       "tests/integration"; "tests/e2e"; "config"; "public"; "static" ]
     []
     [ "cmd"; "internal"; "pkg"; "tests" ]
     [ "src"; "tests"; "examples"; "docs"; "benchmarks" ]
     (if contains "ios" (category self)
      then [ "Sources"; "Tests"; "Resources" ]
      else [ "app"; "app/src"; "app/src/main"; "app/src/main/java";
             "app/src/test"; "app/src/test/java"; "app/src/main/res" ])
     [ "Assets"; "Assets/Scripts"; "Assets/Scenes"; "Assets/Prefabs";
       "Assets/Materials"; "Tests" ]
     [ "pipelines"; "transformations"; "models"; "schemas"; "tests"; "config" ]
     [ "backend"; "backend/src"; "backend/tests"; "frontend"; "frontend/src";
       "frontend/tests"; "database"; "database/migrations"; "docs";
       "infrastructure" ])%string.

(** The directories that writing the files adds to them. *)
Definition file_directories (self : RepoGenerator) : list string :=
  (dispatch self
     [ ".github"; ".github/workflows" ]
     [] [] []
     (if contains "ios" (category self)
      then []
      else [ "app/src/main/java/com"; "app/src/main/java/com/example";
             "app/src/main/java/com/example/app"; "app/src/test/java/com";
             "app/src/test/java/com/example";
             "app/src/test/java/com/example/app" ])
     [] [] [])%string.

(** All the directories a generated repository can have. *)
Definition repository_directories (self : RepoGenerator) : list string :=
  "."%string :: made_directories self ++ file_directories self.

(** What holds of the names of the files of a generated repository:
    outside the web archetype every file lies below a directory. *)
Definition file_rule (self : RepoGenerator) (p : string) : Prop :=
  dispatch self True True (~ flat p) (~ flat p) (~ flat p) (~ flat p)
    (~ flat p) (~ flat p).

(** A command-line tool in Ruby, a language the code synthesiser has
    no generator for. *)
Definition ruby_self : RepoGenerator :=
  {| repo_id := 5002; category := "cli_tools"; template := "build-tool";
     language := "ruby"; lines_of_code := 1000; num_commits := 100;
     num_contributors := 1;
     contributors := [("John Smith", "john.smith@example.com")]%string;
     test_coverage := 20 |}.

(** A small service mesh. *)
Definition mesh_self : RepoGenerator :=
  {| repo_id := 5601; category := "microservices_small";
     template := "10-service-ecommerce";
     language := "go"; lines_of_code := 1000; num_commits := 100;
     num_contributors := 1;
     contributors := [("John Smith", "john.smith@example.com")]%string;
     test_coverage := 20 |}.

(** ** The directories of a service mesh *)

(** The directory [_create_service_files] is given and the three it
    makes there. *)
Definition service_directories (path : string) : list string :=
  [ path; path ++ "/src"; path ++ "/tests"; path ++ "/config" ]%string.

(** All the directories of a generated mesh of [n] services. *)
Definition mesh_directories (n : Z) : list string :=
  ("."%string :: service_directories "api-gateway")
  ++ "services"%string
     :: flat_map
          (fun i => service_directories ("services/" ++ service_name_of i))
          (range n)
  ++ [ "shared"; "shared/models"; "shared/utils"; "infrastructure";
       "infrastructure/k8s"; "infrastructure/terraform" ]%string.

(** The directories of a mesh after [k] rounds of the loop over the
    services; every round asks for [services] again. *)
Definition mesh_so_far (k : nat) : list string :=
  ("."%string :: service_directories "api-gateway")
  ++ flat_map
       (fun i => "services"%string
                 :: service_directories ("services/" ++ service_name_of i))
       (map Z.of_nat (seq 0 k)).

(** The directories are exactly those of [ds], all of them members of
    [all], and no file written has the name of a member of [all]. *)
Definition arranged (all ds : list string) (w : world) : Prop :=
  incl ds all
  /\ (forall d, is_dir (fs w) d = true <-> In d ds)
  /\ Forall (fun e => ~ In (fst e) all) (written (fs w)).

(** From a directory arranged as [ds], [c] returns and leaves it
    arranged as [ds']. *)
Definition leads {A : Type} (all ds ds' : list string) (c : M A) : Prop :=
  forall w,
    arranged all ds w ->
    exists a w', c w = Ok (a, w') /\ arranged all ds' w'.

(** No member of [all] lies directly in [dir]. *)
Definition no_child (all : list string) (dir : string) : bool :=
  forallb (fun d => match dirname d with
                    | Some q => negb (String.eqb q dir)
                    | None => true
                    end) all.

Definition subset (l1 l2 : list string) : bool :=
  forallb (fun d => existsb (String.eqb d) l2) l1.

(** What round [k] of the loop over the services needs of the names:
    the name of the service has no slash, its directories are new,
    different from each other and directories of the largest mesh, and
    no directory lies in its [src] or [tests]. *)
Definition round_ok (k : nat) : bool :=
  let name := service_name_of (Z.of_nat k) in
  let path := ("services/" ++ name)%string in
  match dirname name with None => true | Some _ => false end
  && distinct ("services"%string :: service_directories path)
  && forallb (fun d => negb (existsb (String.eqb d) (mesh_so_far k)))
       (service_directories path)
  && subset ("services"%string :: service_directories path)
       (mesh_directories 100)
  && no_child (mesh_directories 100) (path ++ "/src")
  && no_child (mesh_directories 100) (path ++ "/tests").

(** ** Directories and files in a structure function

    Every structure function but that of the service mesh is a
    sequence of [mkdir] calls followed by one call of a file creator. *)

(** The [mkdir] calls a structure function makes before it calls its
    file creator: [(parents, path)] stands for
    [(self.repo_path / path).mkdir(parents=True)] when [parents] is
    set and for [(self.repo_path / path).mkdir()] otherwise.  The
    service mesh has no such part. *)
Definition directory_calls (self : RepoGenerator) : list (bool * string) :=
  (dispatch self
     (map (pair false)
        [ "src"; "src/components"; "src/pages"; "src/utils"; "src/api";
          "src/models"; "src/services"; "tests"; "tests/unit";
          "tests/integration"; "tests/e2e"; "config"; "public"; "static" ])
     []
     (map (pair false) [ "cmd"; "internal"; "pkg"; "tests" ])
     (map (pair false) [ "src"; "tests"; "examples"; "docs"; "benchmarks" ])
     (if contains "ios" (category self)
      then map (pair false) [ "Sources"; "Tests"; "Resources" ]
      else [ (false, "app"); (true, "app/src/main/java");
             (true, "app/src/test/java"); (true, "app/src/main/res") ])
     (map (pair false)
        [ "Assets"; "Assets/Scripts"; "Assets/Scenes"; "Assets/Prefabs";
          "Assets/Materials"; "Tests" ])
     (map (pair false)
        [ "pipelines"; "transformations"; "models"; "schemas"; "tests";
          "config" ])
     (map (pair false)
        [ "backend"; "backend/src"; "backend/tests"; "frontend";
          "frontend/src"; "frontend/tests"; "database"; "database/migrations";
          "docs"; "infrastructure" ]))%string.

Definition make_directory (call : bool * string) : M unit :=
  if fst call then mkdir_parents false (snd call) else mkdir (snd call).

Definition make_directories (self : RepoGenerator) : M unit :=
  for_ (directory_calls self) make_directory.

(** The file creator a structure function calls last. *)
Definition file_creator (self : RepoGenerator) : M unit :=
  dispatch self
    (_create_web_files self)
    _create_infrastructure_files
    (_create_cli_files self)
    (_create_library_files self)
    (if contains "ios" (category self)
     then _create_ios_files self else _create_android_files self)
    (_create_game_files self)
    (_create_data_files self)
    (_create_enterprise_files self).

(** The first two statements of [_generate_microservice_structure],
    and the statements after them. *)
Definition mesh_gateway (self : RepoGenerator) : M unit :=
  mkdir "api-gateway" ;;
  _create_service_files self "api-gateway" "gateway".

Definition mesh_remainder (self : RepoGenerator) : M unit :=
  for_ (range (Z.min (num_services_of (category self)) 100))
    (fun i =>
       mkdir_parents false ("services/" ++ service_name_of i) ;;
       _create_service_files self ("services/" ++ service_name_of i)
         (service_name_of i)) ;;
  mkdir "shared" ;;
  mkdir "shared/models" ;;
  mkdir "shared/utils" ;;
  mkdir "infrastructure" ;;
  _create_infrastructure_files.

(** The repository of [mesh_self] after the gateway part and after the
    whole structure function, run in a repository that was just
    created. *)
Definition mesh_gateway_world : world :=
  match mesh_gateway mesh_self (fresh_repository sample_rng) with
  | Ok (_, w') => w'
  | Raise _ => fresh_repository sample_rng
  end.

Definition mesh_world : world :=
  match _generate_structure mesh_self (fresh_repository sample_rng) with
  | Ok (_, w') => w'
  | Raise _ => fresh_repository sample_rng
  end.

(** The batch size in the words of the specification:
    [max(1, total_files / (target_commit_count - 10))] when the target
    exceeds 10, else 1. *)
Definition batch_size_spec (total_files target_commit_count : Z) : Z :=
  if target_commit_count >? 10
  then Z.max 1 (total_files / (target_commit_count - 10))
  else 1.

(** * Properties *)

(** ** The [random] module and the built-ins *)

Lemma randint_range (a b : Z) (g : rng) :
  a <= b -> a <= fst (randint a b g) <= b.
Proof.
  intros Hab. unfold randint, next. simpl.
  pose proof (Z.mod_pos_bound (tape g (pos g)) (b - a + 1)). lia.
Qed.

Lemma choice_some {A : Type} (l : list A) (g : rng) :
  l <> [] -> exists x g', choice l g = Ok (x, g') /\ In x l.
Proof.
  destruct l as [|d l']; [congruence|]. intros _.
  unfold choice, next.
  eexists; eexists; split; [reflexivity|].
  apply nth_In.
  pose proof (Z.mod_pos_bound (tape g (pos g)) (len (d :: l'))) as Hm.
  unfold len in *. simpl length in *. lia.
Qed.

Lemma sample_nonempty {A : Type} (population : list A) (k : nat) (g : rng) :
  population <> [] -> (0 < k)%nat -> fst (sample population k g) <> [].
Proof.
  destruct population as [|d l']; [congruence|]. intros _ Hk.
  destruct k as [|k']; [lia|].
  simpl. destruct (sample _ k' _). simpl. discriminate.
Qed.

Lemma len_app {A : Type} (l1 l2 : list A) : len (l1 ++ l2) = len l1 + len l2.
Proof. unfold len. rewrite length_app. lia. Qed.

Lemma len_nonneg {A : Type} (l : list A) : 0 <= len l.
Proof. unfold len. lia. Qed.

Lemma len_range (n : Z) : len (range n) = Z.max 0 n.
Proof. unfold len, range. rewrite length_map, length_seq. lia. Qed.

Lemma firstn_add {A : Type} (a b : nat) (l : list A) :
  firstn (a + b) l = firstn a l ++ firstn b (skipn a l).
Proof.
  revert l. induction a as [|a IH]; intros l; [reflexivity|].
  destruct l as [|x l]; simpl.
  - now rewrite firstn_nil.
  - now rewrite IH.
Qed.

(** A slice that starts inside the list and asks for [k >= 1] elements
    is the next [k] elements, and there is at least one. *)
Lemma py_slice_inside {A : Type} (l : list A) (i k : Z) :
  0 <= i < len l -> 1 <= k ->
  py_slice l i (i + k) = firstn (Z.to_nat k) (skipn (Z.to_nat i) l)
  /\ py_slice l i (i + k) <> [].
Proof.
  intros Hi Hk. unfold py_slice, slice_bound.
  destruct (Z.ltb_spec i 0) as [?|_]; [lia|].
  destruct (Z.ltb_spec (i + k) 0) as [?|_]; [lia|].
  rewrite (Z.min_l i) by lia.
  assert (Hlen : length (skipn (Z.to_nat i) l) = Z.to_nat (len l - i)).
  { rewrite length_skipn. unfold len. lia. }
  assert (Heq : firstn (Z.to_nat (Z.min (i + k) (len l) - i)) (skipn (Z.to_nat i) l)
                = firstn (Z.to_nat k) (skipn (Z.to_nat i) l)).
  { destruct (Z.le_ge_cases (i + k) (len l)) as [Hle|Hge].
    - rewrite Z.min_l by lia. f_equal. lia.
    - rewrite Z.min_r by lia.
      rewrite !firstn_all2; [reflexivity| |]; rewrite Hlen; lia. }
  split; [exact Heq|].
  rewrite Heq. intros Hnil.
  apply (f_equal (@length A)) in Hnil.
  rewrite length_firstn, Hlen in Hnil. simpl in Hnil. lia.
Qed.

(** With [k = 1] the slice is the single element at the index. *)
Lemma py_slice_single {A : Type} (l : list A) (i : Z) (d : A) :
  0 <= i < len l -> py_slice l i (i + 1) = [nth (Z.to_nat i) l d].
Proof.
  intros Hi. destruct (py_slice_inside l i 1 Hi) as [-> _]; [lia|].
  assert (Hn : (Z.to_nat i < length l)%nat) by (unfold len in Hi; lia).
  revert Hn. generalize (Z.to_nat i) as n. clear Hi i.
  induction l as [|x l IH]; intros n Hn; simpl in Hn; [lia|].
  destruct n as [|n]; simpl.
  - reflexivity.
  - apply IH. lia.
Qed.

(** ** The commit loop *)

Section CommitLoopFacts.

Variable self : RepoGenerator.
Variable all_files : list string.
Variable per_commit : Z.
Hypothesis per_commit_pos : 1 <= per_commit.

(** What one iteration does when the index is inside the list. *)
Lemma loop_body_inside (st : loop_state) :
  0 <= file_index st < len all_files ->
  contributors self <> [] ->
  exists msg who hours g',
    loop_body self all_files per_commit st =
      Ok {| commits :=
              commits st ++
              [ {| date := current_date st; message := msg; author := who;
                   files := py_slice all_files (file_index st)
                              (file_index st + per_commit) |} ];
            current_date := current_date st + timedelta_hours hours;
            file_index := file_index st + per_commit;
            gen := g' |}
    /\ 1 <= hours <= 48 /\ In who (contributors self).
Proof.
  intros Hi Hc. unfold loop_body.
  destruct (choice_some commit_types (gen st)) as ([ct mt] & g1 & -> & _);
    [discriminate|].
  destruct (py_slice_inside all_files (file_index st) per_commit Hi per_commit_pos)
    as [_ Hne].
  destruct (py_slice all_files (file_index st) (file_index st + per_commit))
    as [|first rest] eqn:Hs; [congruence|].
  destruct (choice_some (contributors self) g1 Hc) as (who & g2 & -> & Hin).
  pose proof (randint_range 1 48 g2 ltac:(lia)) as Hh.
  destruct (randint 1 48 g2) as [hours g3]. simpl in Hh.
  eexists; eexists; exists hours; eexists. split; [reflexivity|]. split; assumption.
Qed.

(** An iteration raises only when there is no contributor to choose. *)
Lemma loop_body_raises (st : loop_state) (e : exn) :
  loop_body self all_files per_commit st = Raise e ->
  e = IndexError /\ contributors self = [].
Proof.
  unfold loop_body.
  destruct (choice_some commit_types (gen st)) as ([ct mt] & g1 & -> & _);
    [discriminate|].
  destruct (py_slice _ _ _); [discriminate|].
  destruct (contributors self) as [|c cs] eqn:Hc.
  - simpl. intros H; inversion H; auto.
  - unfold choice. destruct (next g1). destruct (randint 1 48 _). discriminate.
Qed.

(** The rule for the loop: an invariant of the body holds at the end,
    where the loop condition is false. *)
Lemma while_loop_invariant (I : loop_state -> Prop) :
  (forall st st',
      I st -> loop_cond self all_files st = true ->
      loop_body self all_files per_commit st = Ok st' -> I st') ->
  forall fuel st r,
    I st -> while_loop self all_files per_commit fuel st = Some (Ok r) ->
    I r /\ loop_cond self all_files r = false.
Proof.
  intros Hstep. induction fuel as [|fuel IH]; intros st r HI; simpl.
  - destruct (loop_cond self all_files st) eqn:Hc; [discriminate|].
    intros H; inversion H; subst; auto.
  - destruct (loop_cond self all_files st) eqn:Hc.
    + destruct (loop_body self all_files per_commit st) as [st'|e] eqn:Hb;
        [|discriminate].
      apply IH. eapply Hstep; eauto.
    + intros H; inversion H; subst; auto.
Qed.

(** More fuel does not change an answer. *)
Lemma while_loop_more_fuel (fuel fuel' : nat) (st : loop_state)
  (r : result loop_state) :
  while_loop self all_files per_commit fuel st = Some r ->
  (fuel <= fuel')%nat ->
  while_loop self all_files per_commit fuel' st = Some r.
Proof.
  revert fuel' st. induction fuel as [|fuel IH]; intros fuel' st; simpl.
  - destruct (loop_cond self all_files st) eqn:Hc; [discriminate|].
    intros H _. destruct fuel'; simpl; rewrite Hc; exact H.
  - destruct (loop_cond self all_files st) eqn:Hc.
    + intros H Hle. destruct fuel' as [|fuel']; [lia|]. simpl. rewrite Hc.
      destruct (loop_body self all_files per_commit st) as [st'|e]; [|exact H].
      apply IH; [exact H|lia].
    + intros H _. destruct fuel'; simpl; rewrite Hc; exact H.
Qed.

(** The loop ends within as many iterations as files remain. *)
Lemma while_loop_terminates (fuel : nat) (st : loop_state) :
  0 <= file_index st ->
  (Z.to_nat (len all_files - file_index st) <= fuel)%nat ->
  exists r, while_loop self all_files per_commit fuel st = Some r.
Proof.
  revert st. induction fuel as [|fuel IH]; intros st Hi Hf; simpl.
  - destruct (loop_cond self all_files st) eqn:Hc; [|eauto].
    unfold loop_cond in Hc. apply andb_prop in Hc as [Hc _].
    apply Z.ltb_lt in Hc. lia.
  - destruct (loop_cond self all_files st) eqn:Hc; [|eauto].
    pose proof Hc as Hc'. unfold loop_cond in Hc'.
    apply andb_prop in Hc' as [Hlt _]. apply Z.ltb_lt in Hlt.
    destruct (loop_body self all_files per_commit st) as [st'|e] eqn:Hb; [|eauto].
    destruct (contributors self) as [|c cs] eqn:Hcs.
    + exfalso. revert Hb. unfold loop_body.
      destruct (choice_some commit_types (gen st)) as ([ct mt] & g1 & -> & _);
        [discriminate|].
      destruct (py_slice_inside all_files (file_index st) per_commit
                  (conj Hi Hlt) per_commit_pos) as [_ Hne].
      destruct (py_slice _ _ _); [congruence|].
      rewrite Hcs. discriminate.
    + destruct (loop_body_inside st (conj Hi Hlt)) as (m & w & h & g' & Hb' & _).
      { rewrite Hcs. discriminate. }
      rewrite Hb in Hb'. inversion Hb'; subst st'; clear Hb'.
      apply IH; simpl; lia.
Qed.

(** With a contributor to choose, the loop returns normally. *)
Lemma while_loop_returns (fuel : nat) (st : loop_state) :
  contributors self <> [] ->
  0 <= file_index st ->
  (Z.to_nat (len all_files - file_index st) <= fuel)%nat ->
  exists r, while_loop self all_files per_commit fuel st = Some (Ok r).
Proof.
  intros Hc. revert st. induction fuel as [|fuel IH]; intros st Hi Hf; simpl.
  - destruct (loop_cond self all_files st) eqn:Hcd; [|eauto].
    unfold loop_cond in Hcd. apply andb_prop in Hcd as [Hcd _].
    apply Z.ltb_lt in Hcd. lia.
  - destruct (loop_cond self all_files st) eqn:Hcd; [|eauto].
    unfold loop_cond in Hcd.
    apply andb_prop in Hcd as [Hlt _]. apply Z.ltb_lt in Hlt.
    destruct (loop_body_inside st (conj Hi Hlt) Hc) as (m & w & h & g' & -> & _).
    apply IH; simpl; lia.
Qed.

End CommitLoopFacts.

Lemma range_succ (n : Z) : 0 <= n -> range (n + 1) = range n ++ [n].
Proof.
  intros Hn. unfold range.
  replace (Z.to_nat (n + 1)) with (Z.to_nat n + 1)%nat by lia.
  rewrite seq_app, map_app. simpl. f_equal. f_equal. lia.
Qed.

Lemma StronglySorted_snoc (l : list Z) (x : Z) :
  StronglySorted Z.lt l -> Forall (fun y => y < x) l ->
  StronglySorted Z.lt (l ++ [x]).
Proof.
  induction l as [|a l IH]; intros Hs Hf; simpl.
  - constructor; constructor.
  - inversion Hs; subst. inversion Hf; subst.
    constructor; [auto|].
    apply Forall_app; split; [assumption|]. constructor; [assumption|constructor].
Qed.

Lemma singletons_by_index {A : Type} (l : list A) (d : A) :
  map (fun j => [nth (Z.to_nat j) l d]) (range (len l)) = map (fun x => [x]) l.
Proof.
  unfold range, len. rewrite Nat2Z.id, map_map.
  rewrite (map_ext _ (fun j => [nth j l d]))
    by (intros a; now rewrite Nat2Z.id).
  induction l as [|x l IH]; [reflexivity|].
  simpl length. rewrite <- cons_seq, <- seq_shift, map_cons, map_map.
  cbn [nth map]. f_equal. exact IH.
Qed.

Section CommitHistoryInvariant.

Variable self : RepoGenerator.
Variable all_files : list string.
Variable per_commit : Z.
Variable first : Commit.
Hypothesis per_commit_pos : 1 <= per_commit.
Hypothesis some_contributor : contributors self <> [].

Lemma history_inv_step (st st' : loop_state) :
  history_inv self all_files per_commit first st ->
  loop_cond self all_files st = true ->
  loop_body self all_files per_commit st = Ok st' ->
  history_inv self all_files per_commit first st'.
Proof.
  intros [Hi (batches & Hc & Hidx & Hlast & Hcat & Hmap & Hauth) Hs Hb Hn] Hcond Hbody.
  unfold loop_cond in Hcond. apply andb_prop in Hcond as [Hlt Hceil].
  apply Z.ltb_lt in Hlt. apply Z.ltb_lt in Hceil.
  destruct (loop_body_inside self all_files per_commit per_commit_pos st
              (conj Hi Hlt) some_contributor)
    as (msg & who & hours & g' & Heq & Hh & Hwho).
  rewrite Heq in Hbody. inversion Hbody; subst st'; clear Hbody Heq.
  destruct (py_slice_inside all_files (file_index st) per_commit (conj Hi Hlt)
              per_commit_pos) as [Hslice _].
  pose proof (len_nonneg batches) as Hnb.
  constructor; simpl.
  - lia.
  - exists (batches ++ [ {| date := current_date st; message := msg; author := who;
                            files := py_slice all_files (file_index st)
                                       (file_index st + per_commit) |} ]).
    rewrite Hc. split; [reflexivity|].
    rewrite len_app. change (len [_]) with 1.
    split; [lia|]. split; [right; lia|].
    rewrite !map_app, concat_app, Hcat, range_succ, map_app by lia. simpl.
    rewrite app_nil_r, <- Hmap, Hslice.
    split; [|split].
    + replace (Z.to_nat (file_index st + per_commit))
        with (Z.to_nat (file_index st) + Z.to_nat per_commit)%nat by lia.
      symmetry. apply firstn_add.
    + f_equal. f_equal. rewrite <- Hslice. f_equal; lia.
    + apply Forall_app; split; [assumption|]. constructor; [assumption|constructor].
  - rewrite map_app. simpl. apply StronglySorted_snoc; [assumption|].
    apply Forall_map. assumption.
  - unfold timedelta_hours. apply Forall_app; split.
    + eapply Forall_impl; [|exact Hb]. simpl. intros c Hd. lia.
    + constructor; [simpl; lia|constructor].
  - rewrite len_app. change (len [_]) with 1. lia.
Qed.

End CommitHistoryInvariant.

(** [files_per_commit] is never below one. *)
Lemma files_per_commit_pos (self : RepoGenerator) (all_files : list string) :
  1 <= files_per_commit self all_files.
Proof. unfold files_per_commit. lia. Qed.

(** The scheduler as a whole: with a contributor and fuel for one
    iteration per file it returns a history that satisfies the
    invariant, at a state where the loop condition is false. *)
Lemma commit_history_correct (self : RepoGenerator) (now : Z)
  (walk : list walk_entry) (g : rng) (fuel : nat) :
  contributors self <> [] ->
  (length (collect_files walk) <= fuel)%nat ->
  exists who st,
    _create_commit_history self now walk g fuel = Some (Ok (commits st, gen st))
    /\ In who (contributors self)
    /\ history_inv self (collect_files walk)
         (files_per_commit self (collect_files walk))
         (initial_commit (now - timedelta_days 365) who) st
    /\ loop_cond self (collect_files walk) st = false.
Proof.
  intros Hc Hfuel. unfold _create_commit_history.
  destruct (contributors self) as [|who rest] eqn:Hcs; [congruence|].
  set (all_files := collect_files walk) in *.
  set (k := files_per_commit self all_files).
  set (st0 := {| commits := [initial_commit (now - timedelta_days 365) who];
                 current_date := now - timedelta_days 365 + timedelta_days 1;
                 file_index := 0; gen := g |}).
  assert (Hk : 1 <= k) by apply files_per_commit_pos.
  assert (Hc' : contributors self <> []) by (rewrite Hcs; discriminate).
  destruct (while_loop_returns self all_files k Hk fuel st0 Hc') as [st Hrun].
  { simpl. lia. }
  { simpl. unfold len. lia. }
  rewrite Hrun. exists who, st. split; [reflexivity|].
  split; [left; reflexivity|].
  apply (while_loop_invariant self all_files k
           (history_inv self all_files k
              (initial_commit (now - timedelta_days 365) who))) with (fuel := fuel) (st := st0).
  - intros s s'. apply history_inv_step; assumption.
  - constructor; simpl.
    + lia.
    + exists []. change (len (@nil Commit)) with 0. simpl.
      repeat split; auto. lia.
    + repeat constructor.
    + constructor; [|constructor]. simpl. unfold timedelta_days. lia.
    + unfold len. simpl. lia.
  - exact Hrun.
Qed.

Lemma existsb_eqb_In (x : string) (l : list string) :
  existsb (String.eqb x) l = true <-> In x l.
Proof.
  rewrite existsb_exists. split.
  - intros (y & Hin & Heq). apply String.eqb_eq in Heq. now subst.
  - intros Hin. exists x. split; [assumption|apply String.eqb_refl].
Qed.

Lemma existsb_eqb_not_In (x : string) (l : list string) :
  existsb (String.eqb x) l = false -> ~ In x l.
Proof.
  intros Hf Hin. apply existsb_eqb_In in Hin. congruence.
Qed.

Lemma in_range (j n : Z) : In j (range n) -> 0 <= j < n.
Proof.
  unfold range. rewrite in_map_iff. intros (i & <- & Hi).
  apply in_seq in Hi. lia.
Qed.

Lemma NoDup_firstn {A : Type} (n : nat) (l : list A) :
  NoDup l -> NoDup (firstn n l).
Proof.
  intros Hnd. rewrite <- (firstn_skipn n l) in Hnd.
  now apply NoDup_app_remove_r in Hnd.
Qed.

(** What [RepoGenerator(...)] can be. *)
Lemma init_spec (id : Z) (cat tmpl : string) (g0 : rng) :
  let self := fst (__init__ id cat tmpl g0) in
  repo_id self = id /\ category self = cat /\ template self = tmpl
  /\ 1000 <= lines_of_code self <= 50000
  /\ 100 <= num_commits self <= 500
  /\ 1 <= num_contributors self <= 5
  /\ contributors self <> [].
Proof.
  unfold __init__.
  destruct (_select_language g0) as [lang g1].
  pose proof (randint_range 1000 50000 g1 ltac:(lia)) as Hl.
  destruct (randint 1000 50000 g1) as [loc g2].
  pose proof (randint_range 100 500 g2 ltac:(lia)) as Hn.
  destruct (randint 100 500 g2) as [nc g3].
  change (Z.min 5 (len CONTRIBUTORS)) with 5.
  pose proof (randint_range 1 5 g3 ltac:(lia)) as Hk.
  destruct (randint 1 5 g3) as [k g4]. simpl in Hl, Hn, Hk.
  pose proof (sample_nonempty CONTRIBUTORS (Z.to_nat k) g4) as Hs.
  destruct (sample CONTRIBUTORS (Z.to_nat k) g4) as [cs g5].
  destruct (randint 20 90 g5) as [tc g6]. simpl in *.
  repeat split; try lia.
  apply Hs; [discriminate|lia].
Qed.

(** An iteration that returns has moved the index on by the batch size
    and added one commit. *)
Lemma loop_body_advances (self : RepoGenerator) (all_files : list string)
  (k : Z) (st st' : loop_state) :
  1 <= k -> 0 <= file_index st < len all_files ->
  loop_body self all_files k st = Ok st' ->
  file_index st' = file_index st + k
  /\ len (commits st') = len (commits st) + 1.
Proof.
  intros Hk Hi Hb.
  destruct (contributors self) as [|c cs] eqn:Hcs.
  - exfalso. revert Hb. unfold loop_body.
    destruct (choice_some commit_types (gen st)) as ([ct mt] & g1 & -> & _);
      [discriminate|].
    destruct (py_slice_inside all_files (file_index st) k Hi Hk) as [_ Hne].
    destruct (py_slice _ _ _); [congruence|].
    rewrite Hcs. discriminate.
  - destruct (loop_body_inside self all_files k Hk st Hi)
      as (m & w & h & g' & Hb' & _).
    { rewrite Hcs. discriminate. }
    rewrite Hb in Hb'. inversion Hb'; subst st'; simpl.
    rewrite len_app. change (len [_]) with 1. lia.
Qed.

(** ** The commit history *)

(** C1, as stated, fails: at the lowest commit target (100) a library
    repository with 104 walked files gets batches of one file, the loop
    stops at the hundredth commit, and [examples/example9.py] is in the
    walked list but in no commit. *)
Lemma commit_ceiling_omits_files :
  exists history g',
    _create_commit_history library_self 1700000000000000 library_walk
      sample_rng 200 = Some (Ok (history, g'))
    /\ In "examples/example9.py"%string (collect_files library_walk)
    /\ ~ In "examples/example9.py"%string (concat (map files history)).
Proof.
  eexists. eexists. split; [vm_compute; reflexivity|]. split.
  - apply existsb_eqb_In. vm_compute. reflexivity.
  - apply existsb_eqb_not_In. vm_compute. reflexivity.
Qed.

(** C1, amended: the first commit stages the fixed pair [.gitignore],
    [README.md]; the commits after it stage, in walk order, a prefix of
    the walked file list, without repeating a file that is listed once;
    and that prefix is the whole list whenever the history ends below
    the target commit count. *)
Theorem batches_stage_walked_prefix (self : RepoGenerator) (now : Z)
  (walk : list walk_entry) (g : rng) (fuel : nat) :
  contributors self <> [] ->
  (length (collect_files walk) <= fuel)%nat ->
  exists first batches g',
    _create_commit_history self now walk g fuel
      = Some (Ok (first :: batches, g'))
    /\ files first = [".gitignore"; "README.md"]%string
    /\ (exists n, concat (map files batches) = firstn n (collect_files walk))
    /\ (NoDup (collect_files walk) -> NoDup (concat (map files batches)))
    /\ (len (first :: batches) < num_commits self ->
        concat (map files batches) = collect_files walk).
Proof.
  intros Hc Hfuel.
  destruct (commit_history_correct self now walk g fuel Hc Hfuel)
    as (who & st & Hrun & _ & Hinv & Hcond).
  destruct Hinv as [Hi (batches & Hcs & Hidx & _ & Hcat & _) _ _ _].
  exists (initial_commit (now - timedelta_days 365) who), batches, (gen st).
  rewrite Hrun, Hcs. split; [reflexivity|]. split; [reflexivity|].
  split; [eauto|]. split.
  - rewrite Hcat. apply NoDup_firstn.
  - intros Hlt. rewrite Hcat. apply firstn_all2.
    unfold loop_cond in Hcond. rewrite Hcs in Hcond.
    apply andb_false_iff in Hcond as [Hc1|Hc2].
    + apply Z.ltb_ge in Hc1. unfold len in Hc1. lia.
    + apply Z.ltb_ge in Hc2. lia.
Qed.

Lemma batches_stage_walked_prefix_witness :
  exists first batches g',
    _create_commit_history cli_self 1700000000000000 cli_walk sample_rng 40
      = Some (Ok (first :: batches, g'))
    /\ files first = [".gitignore"; "README.md"]%string
    /\ (exists n, concat (map files batches) = firstn n (collect_files cli_walk))
    /\ (NoDup (collect_files cli_walk) -> NoDup (concat (map files batches)))
    /\ (len (first :: batches) < num_commits cli_self ->
        concat (map files batches) = collect_files cli_walk).
Proof.
  apply (batches_stage_walked_prefix cli_self 1700000000000000 cli_walk
           sample_rng 40).
  - vm_compute. discriminate.
  - vm_compute. lia.
Defined.

(** C2: the dates of the history strictly increase from each commit to
    the next (here for any two positions), and the first commit is
    dated [now] minus 365 days, strictly before every other one. *)
Theorem commit_dates_increase (self : RepoGenerator) (now : Z)
  (walk : list walk_entry) (g : rng) (fuel : nat) :
  contributors self <> [] ->
  (length (collect_files walk) <= fuel)%nat ->
  exists first rest g',
    _create_commit_history self now walk g fuel = Some (Ok (first :: rest, g'))
    /\ StronglySorted Z.lt (map date (first :: rest))
    /\ date first = now - timedelta_days 365
    /\ timedelta_days 365 = 365 * 24 * 60 * 60 * 1000000
    /\ Forall (fun c => date first < date c) rest.
Proof.
  intros Hc Hfuel.
  destruct (commit_history_correct self now walk g fuel Hc Hfuel)
    as (who & st & Hrun & _ & Hinv & _).
  destruct Hinv as [_ (batches & Hcs & _) Hsorted _ _].
  exists (initial_commit (now - timedelta_days 365) who), batches, (gen st).
  rewrite Hrun, Hcs. rewrite Hcs in Hsorted.
  split; [reflexivity|]. split; [exact Hsorted|].
  split; [reflexivity|]. split; [reflexivity|].
  simpl in Hsorted. inversion Hsorted; subst.
  rewrite Forall_map in H2. exact H2.
Qed.

Lemma commit_dates_increase_witness :
  exists first rest g',
    _create_commit_history cli_self 1700000000000000 cli_walk sample_rng 40
      = Some (Ok (first :: rest, g'))
    /\ StronglySorted Z.lt (map date (first :: rest))
    /\ date first = 1700000000000000 - timedelta_days 365
    /\ timedelta_days 365 = 365 * 24 * 60 * 60 * 1000000
    /\ Forall (fun c => date first < date c) rest.
Proof.
  apply (commit_dates_increase cli_self 1700000000000000 cli_walk sample_rng 40).
  - vm_compute. discriminate.
  - vm_compute. lia.
Defined.

(** C6: the batch size the code computes is the one the specification
    words, [max(1, total / (target - 10))] above a target of 10 and 1
    otherwise; and with a target of 100 and 40 walked files the history
    is the first commit followed by 40 commits of one file each, in walk
    order: 41 commits, fewer than 100. *)
Theorem batch_size_and_forty_files :
  (forall (self : RepoGenerator) (all_files : list string),
      files_per_commit self all_files
      = batch_size_spec (len all_files) (num_commits self))
  /\ (forall (self : RepoGenerator) (now : Z) (walk : list walk_entry)
             (g : rng) (fuel : nat),
         num_commits self = 100 ->
         length (collect_files walk) = 40%nat ->
         contributors self <> [] ->
         (40 <= fuel)%nat ->
         exists history g',
           _create_commit_history self now walk g fuel = Some (Ok (history, g'))
           /\ map files history
              = [".gitignore"; "README.md"]%string
                :: map (fun f => [f]) (collect_files walk)
           /\ len history = 41
           /\ len history < 100).
Proof.
  split.
  - intros self all_files. unfold files_per_commit, batch_size_spec.
    destruct (num_commits self >? 10); lia.
  - intros self now walk g fuel Hn Hlen Hc Hfuel.
    destruct (commit_history_correct self now walk g fuel Hc) as
      (who & st & Hrun & _ & Hinv & Hcond); [lia|].
    set (all_files := collect_files walk) in *.
    assert (Hk : files_per_commit self all_files = 1).
    { unfold files_per_commit. rewrite Hn. unfold len. rewrite Hlen. reflexivity. }
    rewrite Hk in Hinv.
    destruct Hinv as [Hi (batches & Hcs & Hidx & Hlast & _ & Hmap & _) _ _ _].
    assert (Hall : len all_files = 40) by (unfold len; rewrite Hlen; reflexivity).
    assert (Hcount : len (commits st) = 1 + len batches).
    { rewrite Hcs. unfold len. simpl length. lia. }
    assert (Hb : len batches = 40).
    { unfold loop_cond in Hcond. rewrite Hn, Hall in Hcond.
      apply andb_false_iff in Hcond as [Hc1|Hc2].
      - apply Z.ltb_ge in Hc1. destruct Hlast as [->|Hlast].
        + change (len (@nil Commit)) with 0 in Hidx. lia.
        + lia.
      - apply Z.ltb_ge in Hc2. destruct Hlast as [->|Hlast].
        + change (len (@nil Commit)) with 0 in Hcount. lia.
        + lia. }
    exists (commits st), (gen st). split; [exact Hrun|].
    split; [|lia].
    rewrite Hcs. simpl. f_equal. rewrite Hmap, Hb, <- Hall.
    rewrite <- (singletons_by_index all_files ""%string).
    apply map_ext_in. intros j Hj. apply in_range in Hj.
    rewrite Z.mul_1_r. apply py_slice_single. exact Hj.
Qed.

Lemma batch_size_and_forty_files_witness :
  files_per_commit cli_self (collect_files cli_walk)
  = batch_size_spec (len (collect_files cli_walk)) (num_commits cli_self)
  /\ exists history g',
       _create_commit_history cli_self 1700000000000000 cli_walk sample_rng 40
         = Some (Ok (history, g'))
       /\ map files history
          = [".gitignore"; "README.md"]%string
            :: map (fun f => [f]) (collect_files cli_walk)
       /\ len history = 41
       /\ len history < 100.
Proof.
  split.
  - apply (proj1 batch_size_and_forty_files).
  - apply (proj2 batch_size_and_forty_files cli_self 1700000000000000 cli_walk
             sample_rng 40%nat).
    + reflexivity.
    + vm_compute. reflexivity.
    + vm_compute. discriminate.
    + lia.
Defined.

(** C7: for every repository the constructor can describe, the history
    has at least the first commit and at most [num_commits] commits. *)
Theorem commit_count_within_target (id : Z) (cat tmpl : string) (g0 : rng)
  (now : Z) (walk : list walk_entry) (g : rng) :
  let self := fst (__init__ id cat tmpl g0) in
  exists history g',
    _create_commit_history self now walk g (length (collect_files walk))
      = Some (Ok (history, g'))
    /\ 1 <= len history <= num_commits self.
Proof.
  intros self.
  destruct (init_spec id cat tmpl g0) as (_ & _ & _ & _ & Hn & _ & Hc).
  fold self in Hn, Hc.
  destruct (commit_history_correct self now walk g (length (collect_files walk)) Hc
              (le_n _)) as (who & st & Hrun & _ & Hinv & _).
  destruct Hinv as [_ _ _ _ Hcount].
  exists (commits st), (gen st). split; [exact Hrun|]. lia.
Qed.

(** C9: the constructor draws [num_commits] in 100..500, so the target
    exceeds 10, the divisor [num_commits - 10] is positive, and the
    batch size is always the quotient branch, never the constant 1 of
    the [else]. *)
Theorem commit_target_keeps_divisor_positive (id : Z) (cat tmpl : string)
  (g0 : rng) :
  let self := fst (__init__ id cat tmpl g0) in
  100 <= num_commits self <= 500
  /\ (num_commits self >? 10) = true
  /\ 0 < num_commits self - 10
  /\ forall all_files : list string,
       files_per_commit self all_files
       = Z.max 1 (len all_files / (num_commits self - 10)).
Proof.
  intros self.
  destruct (init_spec id cat tmpl g0) as (_ & _ & _ & _ & Hn & _).
  fold self in Hn.
  assert (Hgt : (num_commits self >? 10) = true) by (apply Z.gtb_lt; lia).
  repeat split; try lia; try assumption.
  intros all_files. unfold files_per_commit. rewrite Hgt. reflexivity.
Qed.

(** C10: the batch size is at least 1; in an iteration (one entered with
    the loop condition true) the slice is not empty and the file index
    grows; so with fuel for one iteration per walked file the scheduler
    returns, the same for all such fuel; and the loop is left only with
    the files exhausted or the commit ceiling reached. *)
Theorem commit_loop_terminates (self : RepoGenerator) (now : Z)
  (walk : list walk_entry) (g : rng) :
  let all_files := collect_files walk in
  let k := files_per_commit self all_files in
  1 <= k
  /\ (forall st : loop_state,
         0 <= file_index st ->
         loop_cond self all_files st = true ->
         py_slice all_files (file_index st) (file_index st + k) <> []
         /\ forall st', loop_body self all_files k st = Ok st' ->
                        file_index st < file_index st')
  /\ (exists r, forall fuel : nat,
         (length all_files <= fuel)%nat ->
         _create_commit_history self now walk g fuel = Some r)
  /\ (forall (fuel : nat) (st st' : loop_state),
         while_loop self all_files k fuel st = Some (Ok st') ->
         len all_files <= file_index st'
         \/ num_commits self <= len (commits st')).
Proof.
  intros all_files k.
  assert (Hk : 1 <= k) by apply files_per_commit_pos.
  split; [exact Hk|]. split; [|split].
  - intros st Hi Hcond. unfold loop_cond in Hcond.
    apply andb_prop in Hcond as [Hlt _]. apply Z.ltb_lt in Hlt.
    split.
    + apply (py_slice_inside all_files (file_index st) k (conj Hi Hlt) Hk).
    + intros st' Hb.
      destruct (loop_body_advances self all_files k st st' Hk (conj Hi Hlt) Hb).
      lia.
  - unfold _create_commit_history. fold all_files. fold k.
    destruct (contributors self) as [|who rest].
    + exists (Raise IndexError). reflexivity.
    + set (st0 := {| commits := [initial_commit (now - timedelta_days 365) who];
                     current_date := now - timedelta_days 365 + timedelta_days 1;
                     file_index := 0; gen := g |}).
      destruct (while_loop_terminates self all_files k Hk (length all_files) st0)
        as [r Hr].
      { simpl. lia. }
      { simpl. unfold len. lia. }
      exists (match r with
              | Ok st' => Ok (commits st', gen st')
              | Raise e => Raise e
              end).
      intros fuel Hfuel.
      rewrite (while_loop_more_fuel self all_files k _ fuel st0 r Hr Hfuel).
      destruct r; reflexivity.
  - intros fuel st st' Hrun.
    destruct (while_loop_invariant self all_files k (fun _ => True)
                (fun _ _ _ _ _ => I) fuel st st' I Hrun) as [_ Hcond].
    unfold loop_cond in Hcond. apply andb_false_iff in Hcond as [Hc|Hc];
      apply Z.ltb_ge in Hc; auto.
Qed.

Lemma commit_loop_terminates_witness :
  let st0 := {| commits := [initial_commit 0 ("John Smith", "john.smith@example.com")%string];
                current_date := 1; file_index := 0; gen := sample_rng |} in
  py_slice (collect_files cli_walk) 0
    (0 + files_per_commit cli_self (collect_files cli_walk)) <> []
  /\ exists r,
       _create_commit_history cli_self 1700000000000000 cli_walk sample_rng 40
       = Some r.
Proof.
  intros st0.
  pose proof (commit_loop_terminates cli_self 1700000000000000 cli_walk sample_rng)
    as (_ & Hiter & (r & Hr) & _).
  split.
  - apply (Hiter st0); [simpl; lia|vm_compute; reflexivity].
  - exists r. apply Hr. vm_compute. lia.
Defined.

(** ** The code synthesiser *)

Section Counting.

Variable P : string -> bool.

(** A loop whose every block has [c] lines of a kind has [c] of them
    per index. *)
Lemma for_each_count (body : Z -> rng -> list string * rng) (c : Z) :
  (forall i g, len (filter P (fst (body i g))) = c) ->
  forall indices g,
    len (filter P (fst (for_each body indices g))) = c * len indices.
Proof.
  intros Hbody. induction indices as [|i rest IH]; intros g; simpl.
  - change (len (@nil Z)) with 0. change (len (@nil string)) with 0. lia.
  - specialize (Hbody i g). destruct (body i g) as [block g1].
    specialize (IH g1). destruct (for_each body rest g1) as [more g2].
    simpl in *. rewrite filter_app, len_app, Hbody, IH.
    unfold len. simpl length. lia.
Qed.

End Counting.

Lemma python_class_counts (i : Z) (g : rng) :
  len (filter is_unit_header (fst (python_class i g))) = 1
  /\ len (filter is_function_header (fst (python_class i g))) = 0.
Proof.
  unfold python_class. destruct (random_lt_tenth g) as [[|] g'];
    split; reflexivity.
Qed.

Lemma python_function_counts (i : Z) (g : rng) :
  len (filter is_unit_header (fst (python_function i g))) = 0
  /\ len (filter is_function_header (fst (python_function i g))) = 1.
Proof. split; reflexivity. Qed.

Lemma python_code_counts (lines : Z) (code_type : string) (g : rng) :
  count_units (fst (python_code lines code_type g)) = Z.max 1 (lines / 50)
  /\ count_functions (fst (python_code lines code_type g)) = Z.max 1 (lines / 30).
Proof.
  unfold python_code, count_units, count_functions.
  pose proof (for_each_count is_unit_header python_class 1
                (fun i g => proj1 (python_class_counts i g))
                (range (Z.max 1 (lines / 50))) g) as Hcu.
  pose proof (for_each_count is_function_header python_class 0
                (fun i g => proj2 (python_class_counts i g))
                (range (Z.max 1 (lines / 50))) g) as Hcf.
  destruct (for_each python_class (range (Z.max 1 (lines / 50))) g)
    as [classes g1].
  pose proof (for_each_count is_unit_header python_function 0
                (fun i g => proj1 (python_function_counts i g))
                (range (Z.max 1 (lines / 30))) g1) as Hfu.
  pose proof (for_each_count is_function_header python_function 1
                (fun i g => proj2 (python_function_counts i g))
                (range (Z.max 1 (lines / 30))) g1) as Hff.
  destruct (for_each python_function (range (Z.max 1 (lines / 30))) g1)
    as [functions g2].
  cbn [fst] in *. rewrite len_range in *.
  assert (Hhu : len (filter is_unit_header (python_header code_type)) = 0)
    by reflexivity.
  assert (Hhf : len (filter is_function_header (python_header code_type)) = 0)
    by reflexivity.
  rewrite !filter_app, !len_app. lia.
Qed.

Lemma js_class_counts (is_ts : bool) (i : Z) (g : rng) :
  len (filter is_unit_header (fst (js_class is_ts i g))) = 1
  /\ len (filter is_function_header (fst (js_class is_ts i g))) = 0.
Proof.
  unfold js_class. destruct (random_lt_tenth g) as [[|] g'];
    destruct is_ts; split; reflexivity.
Qed.

Lemma js_code_counts (language : string) (lines : Z) (code_type : string)
  (g : rng) :
  count_units (fst (js_code language lines code_type g)) = Z.max 1 (lines / 50)
  /\ count_functions (fst (js_code language lines code_type g)) = 0.
Proof.
  unfold js_code, count_units, count_functions.
  set (is_ts := String.eqb language "typescript").
  pose proof (for_each_count is_unit_header (js_class is_ts) 1
                (fun i g => proj1 (js_class_counts is_ts i g))
                (range (Z.max 1 (lines / 50))) g) as Hcu.
  pose proof (for_each_count is_function_header (js_class is_ts) 0
                (fun i g => proj2 (js_class_counts is_ts i g))
                (range (Z.max 1 (lines / 50))) g) as Hcf.
  destruct (for_each (js_class is_ts) (range (Z.max 1 (lines / 50))) g)
    as [classes g1].
  cbn [fst] in *. rewrite len_range in *.
  rewrite !filter_app, !len_app.
  split; destruct is_ts; simpl; unfold len in *; simpl length; lia.
Qed.

Lemma generic_code_counts (lines : Z) :
  count_units (generic_code lines) = 0
  /\ count_functions (generic_code lines) = 0
  /\ len (generic_code lines) = Z.max 0 lines.
Proof.
  unfold generic_code, count_units, count_functions.
  split; [|split].
  - induction (range lines) as [|i l IH]; [reflexivity|]. exact IH.
  - induction (range lines) as [|i l IH]; [reflexivity|]. exact IH.
  - unfold len. rewrite length_map. apply len_range.
Qed.

(** The text [_generate_code] returns is the joined list of [code_of]. *)
Lemma generate_code_text (self : RepoGenerator) (lines : Z)
  (code_type : string) (g : rng) :
  _generate_code self lines code_type g
  = (join_lines (fst (code_of (language self) lines code_type g)),
     snd (code_of (language self) lines code_type g)).
Proof.
  unfold _generate_code, code_of.
  destruct (String.eqb (language self) "python").
  { unfold _generate_python_code. now destruct (python_code _ _ _). }
  destruct (String.eqb (language self) "javascript"
            || String.eqb (language self) "typescript").
  { unfold _generate_js_code. now destruct (js_code _ _ _ _). }
  destruct (String.eqb (language self) "java"); [reflexivity|].
  destruct (String.eqb (language self) "go"); [reflexivity|].
  destruct (String.eqb (language self) "rust"); reflexivity.
Qed.

(** C3, as stated, fails: for Java a budget of 100 lines asks for
    [max(1, 100/50) = 2] units, and the text has the one class the Java
    generator always writes. *)
Lemma java_ignores_line_budget :
  fst (_generate_code java_self 100 "backend" sample_rng)
  = join_lines (fst (code_of "java" 100 "backend" sample_rng))
  /\ count_units (fst (code_of "java" 100 "backend" sample_rng)) = 1
  /\ count_units (fst (code_of "java" 100 "backend" sample_rng))
     <> Z.max 1 (100 / 50).
Proof.
  split; [reflexivity|]. split; [reflexivity|]. vm_compute. discriminate.
Qed.

(** C3, amended: for every role tag and line budget, Python text has
    [max(1, lines/50)] classes and [max(1, lines/30)] free functions;
    JavaScript and TypeScript text has [max(1, lines/50)] classes and
    no free function; Java, Go and Rust text has one unit whatever the
    budget; any other language gets one comment line per requested line
    and no unit. *)
Theorem synthesized_unit_counts (lines : Z) (code_type : string) (g : rng) :
  (forall self : RepoGenerator,
      fst (_generate_code self lines code_type g)
      = join_lines (fst (code_of (language self) lines code_type g)))
  /\ count_units (fst (code_of "python" lines code_type g)) = Z.max 1 (lines / 50)
  /\ count_functions (fst (code_of "python" lines code_type g))
     = Z.max 1 (lines / 30)
  /\ (forall language : string,
         language = "javascript"%string \/ language = "typescript"%string ->
         count_units (fst (code_of language lines code_type g))
         = Z.max 1 (lines / 50)
         /\ count_functions (fst (code_of language lines code_type g)) = 0)
  /\ (forall language : string,
         In language ["java"; "go"; "rust"]%string ->
         count_units (fst (code_of language lines code_type g)) = 1)
  /\ (forall language : string,
         ~ In language ["python"; "javascript"; "typescript"; "java"; "go";
                        "rust"]%string ->
         fst (code_of language lines code_type g) = generic_code lines
         /\ count_units (generic_code lines) = 0
         /\ count_functions (generic_code lines) = 0
         /\ len (generic_code lines) = Z.max 0 lines).
Proof.
  split; [|split; [|split; [|split; [|split]]]].
  - intros self. rewrite generate_code_text. reflexivity.
  - apply (python_code_counts lines code_type g).
  - apply (python_code_counts lines code_type g).
  - intros language [-> | ->]; apply js_code_counts.
  - intros language [<- | [<- | [<- | []]]]; reflexivity.
  - intros language Hnot. split; [|apply generic_code_counts].
    unfold code_of.
    destruct (String.eqb_spec language "python") as [->|_].
    { exfalso. apply Hnot. simpl. auto. }
    destruct (String.eqb_spec language "javascript") as [->|_].
    { exfalso. apply Hnot. simpl. auto. }
    destruct (String.eqb_spec language "typescript") as [->|_].
    { exfalso. apply Hnot. simpl. auto. }
    destruct (String.eqb_spec language "java") as [->|_].
    { exfalso. apply Hnot. simpl. auto 6. }
    destruct (String.eqb_spec language "go") as [->|_].
    { exfalso. apply Hnot. simpl. auto 6. }
    destruct (String.eqb_spec language "rust") as [->|_].
    { exfalso. apply Hnot. simpl. auto 7. }
    reflexivity.
Qed.

Lemma synthesized_unit_counts_witness :
  (count_units (fst (code_of "typescript" 120 "component" sample_rng)) = Z.max 1 (120 / 50)
   /\ count_functions (fst (code_of "typescript" 120 "component" sample_rng)) = 0)
  /\ count_units (fst (code_of "go" 120 "component" sample_rng)) = 1
  /\ fst (code_of "ruby" 120 "component" sample_rng) = generic_code 120.
Proof.
  pose proof (synthesized_unit_counts 120 "component" sample_rng)
    as (_ & _ & _ & Hjs & Hfixed & Hother).
  split; [|split].
  - apply Hjs. right. reflexivity.
  - apply Hfixed. simpl. auto.
  - apply Hother. simpl. intros [H|[H|[H|[H|[H|[H|[]]]]]]]; discriminate.
Defined.

(** ** The structure generators *)

(** C4, as stated, fails: a repository of category [libraries_web]
    with template [http-client] has "web" in its category and gets the
    library archetype. *)
Lemma web_category_is_not_enough :
  (contains "web" (category http_client_self)
   || contains "framework" (category http_client_self)) = true
  /\ archetype http_client_self = Library
  /\ archetype http_client_self <> WebApp.
Proof. split; [reflexivity|]. split; [reflexivity|discriminate]. Qed.

(** C4, amended: the web-app archetype is chosen exactly when the
    template name contains "web" or "framework"; the test comes first,
    so no category and no later rule changes it, and the category is
    not read by this rule. *)
Theorem web_rule_reads_template (self : RepoGenerator) :
  (contains "web" (template self) || contains "framework" (template self) = true ->
   archetype self = WebApp
   /\ _generate_structure self = _generate_web_structure self)
  /\ (archetype self = WebApp ->
      contains "web" (template self) || contains "framework" (template self) = true).
Proof.
  unfold archetype, _generate_structure, dispatch. split.
  - intros ->. split; reflexivity.
  - destruct (contains "web" (template self) || contains "framework" (template self));
      [reflexivity|].
    destruct (contains "microservice" (category self)); [discriminate|].
    destruct (contains "cli" (category self)); [discriminate|].
    destruct (contains "lib" (category self) || contains "lib" (template self));
      [discriminate|].
    destruct (contains "mobile" (category self)); [discriminate|].
    destruct (contains "game" (category self)); [discriminate|].
    destruct (contains "data" (category self)); discriminate.
Qed.

Lemma web_rule_reads_template_witness :
  (contains "web" (template web_framework_self)
   || contains "framework" (template web_framework_self)) = true
  /\ archetype web_framework_self = WebApp
  /\ _generate_structure web_framework_self
     = _generate_web_structure web_framework_self.
Proof.
  split; [reflexivity|].
  apply (proj1 (web_rule_reads_template web_framework_self)). reflexivity.
Defined.

(** *** The directory store *)

Lemma grows_refl (w : world) : grows w w.
Proof. split; auto. Qed.

Lemma grows_trans (w1 w2 w3 : world) : grows w1 w2 -> grows w2 w3 -> grows w1 w3.
Proof. intros [H1 H2] [H3 H4]. split; auto. Qed.

Lemma is_dir_add_dir (f : filesystem) (p q : string) :
  is_dir (add_dir f p) q = is_dir f q || String.eqb q p.
Proof.
  unfold add_dir. destruct (is_dir f p) eqn:Hp.
  - destruct (String.eqb_spec q p) as [->|_].
    + rewrite Hp. reflexivity.
    + now rewrite orb_false_r.
  - unfold is_dir. simpl. rewrite existsb_app. simpl. now rewrite orb_false_r.
Qed.

Lemma is_file_add_dir (f : filesystem) (p q : string) :
  is_file (add_dir f p) q = is_file f q.
Proof. unfold add_dir. destruct (is_dir f p); reflexivity. Qed.

Lemma is_dir_add_dirs (ps : list string) (f : filesystem) (q : string) :
  is_dir (fold_left add_dir ps f) q = is_dir f q || existsb (String.eqb q) ps.
Proof.
  revert f. induction ps as [|p ps IH]; intros f; simpl.
  - now rewrite orb_false_r.
  - rewrite IH, is_dir_add_dir. now rewrite orb_assoc.
Qed.

Lemma is_file_add_dirs (ps : list string) (f : filesystem) (q : string) :
  is_file (fold_left add_dir ps f) q = is_file f q.
Proof.
  revert f. induction ps as [|p ps IH]; intros f; simpl; [reflexivity|].
  now rewrite IH, is_file_add_dir.
Qed.

Lemma is_file_store (p q : string) (c : content) (l : list (string * content)) :
  existsb (fun e => String.eqb q (fst e)) (store p c l)
  = String.eqb q p || existsb (fun e => String.eqb q (fst e)) l.
Proof.
  induction l as [|[r d] l IH]; simpl.
  - reflexivity.
  - destruct (String.eqb_spec p r) as [->|Hne]; simpl.
    + destruct (String.eqb q r); reflexivity.
    + rewrite IH. destruct (String.eqb q p), (String.eqb q r); reflexivity.
Qed.

Lemma bind_Ok {A B : Type} (c : M A) (k : A -> M B) (w w2 : world) (b : B) :
  bind c k w = Ok (b, w2) ->
  exists a w1, c w = Ok (a, w1) /\ k a w1 = Ok (b, w2).
Proof.
  unfold bind. destruct (c w) as [[a w1]|e]; [eauto|discriminate].
Qed.

Lemma establishes_weaken {A : Type} (c : M A) (ds ds' fls fls' : list string) :
  establishes c ds fls -> incl ds' ds -> incl fls' fls -> establishes c ds' fls'.
Proof.
  intros Hc Hd Hf w a w' Hrun. destruct (Hc w a w' Hrun) as (Hg & H1 & H2).
  split; [exact Hg|]. rewrite !Forall_forall in *.
  split; intros x Hx; [apply H1, Hd|apply H2, Hf]; exact Hx.
Qed.

Lemma establishes_ret {A : Type} (a : A) : establishes (ret a) [] [].
Proof.
  intros w b w' H. inversion H; subst. split; [apply grows_refl|]. split; constructor.
Qed.

Lemma establishes_raise {A : Type} (e : exn) (ds fls : list string) :
  establishes (@raise A e) ds fls.
Proof. intros w b w' H. discriminate. Qed.

Lemma establishes_draw {A : Type} (f : rng -> A * rng) : establishes (draw f) [] [].
Proof.
  intros w a w' H. unfold draw in H. destruct (f (rand w)). inversion H; subst.
  split; [split; auto|]. split; constructor.
Qed.

Lemma establishes_bind {A B : Type} (c : M A) (k : A -> M B)
  (ds1 ds2 fls1 fls2 : list string) :
  establishes c ds1 fls1 ->
  (forall a, establishes (k a) ds2 fls2) ->
  establishes (bind c k) (ds1 ++ ds2) (fls1 ++ fls2).
Proof.
  intros Hc Hk w b w2 Hrun.
  apply bind_Ok in Hrun as (a & w1 & H1 & H2).
  destruct (Hc w a w1 H1) as (Hg1 & Hd1 & Hf1).
  destruct (Hk a w1 b w2 H2) as (Hg2 & Hd2 & Hf2).
  split; [eapply grows_trans; eauto|].
  destruct Hg2 as [Hgd Hgf].
  split; apply Forall_app; split; try assumption.
  - eapply Forall_impl; [|exact Hd1]. auto.
  - eapply Forall_impl; [|exact Hf1]. auto.
Qed.

Lemma establishes_for {A : Type} (l : list A) (body : A -> M unit) :
  (forall x, establishes (body x) [] []) -> establishes (for_ l body) [] [].
Proof.
  intros Hb. induction l as [|x l IH]; simpl.
  - apply establishes_ret.
  - apply (establishes_bind (body x) (fun _ => for_ l body) [] [] [] []); auto.
Qed.

Lemma establishes_mkdir (p : string) : establishes (mkdir p) [p] [].
Proof.
  intros w a w' H. unfold mkdir in H.
  destruct (is_dir (fs w) p || is_file (fs w) p); [discriminate|].
  destruct (negb (is_dir (fs w) (parent p))); [discriminate|].
  inversion H; subst. split; [split|split]; cbn [fs].
  - intros q Hq. rewrite is_dir_add_dir, Hq. reflexivity.
  - intros q Hq. now rewrite is_file_add_dir.
  - constructor; [|constructor].
    rewrite is_dir_add_dir, String.eqb_refl. apply orb_true_r.
  - constructor.
Qed.

Lemma establishes_mkdir_exist_ok (p : string) :
  establishes (mkdir_exist_ok p) [p] [].
Proof.
  intros w a w' H. unfold mkdir_exist_ok in H.
  destruct (is_dir (fs w) p) eqn:Hp.
  { inversion H; subst. split; [apply grows_refl|]. split; repeat constructor.
    exact Hp. }
  destruct (is_file (fs w) p); [discriminate|].
  destruct (negb (is_dir (fs w) (parent p))); [discriminate|].
  inversion H; subst. split; [split|split]; cbn [fs].
  - intros q Hq. rewrite is_dir_add_dir, Hq. reflexivity.
  - intros q Hq. now rewrite is_file_add_dir.
  - constructor; [|constructor].
    rewrite is_dir_add_dir, String.eqb_refl. apply orb_true_r.
  - constructor.
Qed.

Lemma establishes_mkdir_parents (exist_ok : bool) (p : string) :
  establishes (mkdir_parents exist_ok p) [p] [].
Proof.
  intros w a w' H. unfold mkdir_parents in H.
  destruct (is_file (fs w) p || existsb (is_file (fs w)) (ancestors p));
    [discriminate|].
  destruct (is_dir (fs w) p && negb exist_ok); [discriminate|].
  inversion H; subst. split; [split|split]; cbn [fs].
  - intros q Hq. rewrite is_dir_add_dirs, Hq. reflexivity.
  - intros q Hq. now rewrite is_file_add_dirs.
  - constructor; [|constructor].
    rewrite is_dir_add_dirs, existsb_app. simpl.
    rewrite String.eqb_refl, !orb_true_r. reflexivity.
  - constructor.
Qed.

Lemma establishes_write_file (path : string) (c : content) :
  establishes (_write_file path c) [] [path].
Proof.
  unfold _write_file.
  apply (establishes_weaken _ ([parent path] ++ []) _ ([] ++ [path]));
    [|intros x []|apply incl_refl].
  apply establishes_bind; [apply establishes_mkdir_parents|].
  intros _ w a w' H.
  destruct (is_dir (fs w) path); [discriminate|].
  inversion H; subst. split; [split|split]; cbn [fs].
  - auto.
  - intros q Hq. unfold is_file in *. simpl. rewrite is_file_store, Hq.
    apply orb_true_r.
  - constructor.
  - constructor; [|constructor]. unfold is_file. simpl.
    rewrite is_file_store, String.eqb_refl. reflexivity.
Qed.

Section StructureFacts.

Variable self : RepoGenerator.

Lemma establishes_write_code (path : string) (lines : Z) (code_type : string) :
  establishes (write_code self path lines code_type) [] [path].
Proof.
  unfold write_code, _write_code_file.
  apply (establishes_bind _ _ [] [] [] [path]).
  - apply establishes_draw.
  - intros text. apply establishes_write_file.
Qed.

Lemma establishes_write_code_files (lo hi : Z) (path : Z -> string)
  (lines_lo lines_hi : Z) (code_type : string) :
  establishes (write_code_files self lo hi path lines_lo lines_hi code_type) [] [].
Proof.
  unfold write_code_files.
  apply (establishes_bind _ _ [] [] [] []); [apply establishes_draw|].
  intros n. apply establishes_for. intros i.
  apply (establishes_weaken _ ([] ++ []) _ ([] ++ [path i]));
    [|apply incl_refl|intros x []].
  apply establishes_bind; [apply establishes_draw|].
  intros l. apply establishes_write_code.
Qed.

(** A file creator that starts by computing [ext]. *)
Lemma establishes_with_extension (rest : string -> M unit) (ds fls : list string) :
  establishes (rest (ext_of self)) ds fls ->
  establishes (bind (extension self) rest) ds fls.
Proof.
  intros Hrest w a w' H. unfold bind, extension, ext_of in *.
  destruct (lookup (language self) LANGUAGES) as [c|]; [|discriminate].
  destruct (extensions c) as [|e es]; [discriminate|].
  simpl in *. eapply Hrest; eauto.
Qed.

End StructureFacts.

Lemma establishes_then_dir {A B : Type} (c : M A) (k : A -> M B) (d : string)
  (ds fls : list string) :
  establishes c [d] [] ->
  (forall a, establishes (k a) ds fls) ->
  establishes (bind c k) (d :: ds) fls.
Proof. intros Hc Hk. apply (establishes_bind c k [d] ds [] fls Hc Hk). Qed.

Lemma establishes_then_file {A B : Type} (c : M A) (k : A -> M B) (f : string)
  (ds fls : list string) :
  establishes c [] [f] ->
  (forall a, establishes (k a) ds fls) ->
  establishes (bind c k) ds (f :: fls).
Proof. intros Hc Hk. apply (establishes_bind c k [] ds [f] fls Hc Hk). Qed.

Lemma establishes_then {A B : Type} (c : M A) (k : A -> M B)
  (ds fls : list string) :
  establishes c [] [] ->
  (forall a, establishes (k a) ds fls) ->
  establishes (bind c k) ds fls.
Proof. intros Hc Hk. apply (establishes_bind c k [] ds [] fls Hc Hk). Qed.

Create HintDb fs_steps.
#[local] Hint Resolve establishes_mkdir establishes_mkdir_parents
  establishes_mkdir_exist_ok establishes_write_file establishes_write_code
  establishes_write_code_files establishes_ret : fs_steps.

(** One statement of a method body after the other. *)
Ltac step_through :=
  repeat first
    [ apply establishes_then_dir; [solve [auto with fs_steps]|intros _]
    | apply establishes_then_file; [solve [auto with fs_steps]|intros _]
    | apply establishes_then; [solve [auto with fs_steps]|intros _] ].

Lemma establishes_create_cli_files (self : RepoGenerator) :
  establishes (_create_cli_files self) []
    (map (fun p => (p ++ ext_of self)%string)
       ["cmd/main"; "internal/commands"; "internal/config"; "pkg/utils"]%string).
Proof.
  unfold _create_cli_files. apply establishes_with_extension.
  cbn [map]. step_through.
  apply (establishes_weaken _ [] _ []); [|apply incl_refl|apply incl_refl].
  apply establishes_write_code_files.
Qed.

Lemma establishes_generate_cli_structure (self : RepoGenerator) :
  establishes (_generate_cli_structure self)
    ["cmd"; "internal"; "pkg"; "tests"]%string
    (map (fun p => (p ++ ext_of self)%string)
       ["cmd/main"; "internal/commands"; "internal/config"; "pkg/utils"]%string).
Proof.
  unfold _generate_cli_structure. step_through.
  apply establishes_create_cli_files.
Qed.

Lemma establishes_create_config_files (self : RepoGenerator) :
  establishes (_create_config_files self) [".github/workflows"%string]
    [".github/workflows/ci.yml"; ".gitignore"; "README.md"; "LICENSE"]%string.
Proof.
  unfold _create_config_files.
  apply establishes_then.
  - destruct (_ || _).
    { eapply establishes_weaken; [apply establishes_write_file|intros x []..]. }
    destruct (String.eqb _ _).
    { apply establishes_then; [|intros _];
        (eapply establishes_weaken; [apply establishes_write_file|intros x []..]). }
    repeat (destruct (String.eqb _ _);
            [eapply establishes_weaken; [apply establishes_write_file|intros x []..]|]).
    apply establishes_ret.
  - intros _. step_through.
    eapply establishes_weaken; [apply establishes_write_file| |apply incl_refl].
    intros x [].
Qed.

Lemma establishes_create_web_files (self : RepoGenerator) :
  establishes (_create_web_files self) [".github/workflows"%string]
    [ ("src/app" ++ ext_of self)%string; ("src/index" ++ ext_of self)%string;
      ".github/workflows/ci.yml"%string; ".gitignore"%string;
      "README.md"%string; "LICENSE"%string ].
Proof.
  unfold _create_web_files. apply establishes_with_extension.
  step_through. apply establishes_create_config_files.
Qed.

Lemma establishes_generate_web_structure (self : RepoGenerator) :
  establishes (_generate_web_structure self)
    [ "src"; "src/components"; "src/pages"; "src/utils"; "src/api";
      "src/models"; "src/services"; "tests"; "tests/unit";
      "tests/integration"; "tests/e2e"; "config"; "public"; "static";
      ".github/workflows" ]%string
    [ ("src/app" ++ ext_of self)%string; ("src/index" ++ ext_of self)%string;
      ".github/workflows/ci.yml"%string; ".gitignore"%string;
      "README.md"%string; "LICENSE"%string ].
Proof.
  unfold _generate_web_structure. step_through.
  apply establishes_create_web_files.
Qed.

(** *** The command-line structure step returns *)

Lemma flat_cons (c : ascii) (p : string) :
  flat (String c p) <-> c <> "/"%char /\ flat p.
Proof.
  unfold flat. simpl. destruct (dirname p) as [d|].
  - split; [discriminate|]. intros [_ H]. discriminate.
  - destruct (Ascii.eqb_spec c "/"%char) as [->|Hne].
    + split; [discriminate|]. intros [H _]. congruence.
    + split; auto.
Qed.

Lemma flat_app (a b : string) : flat a -> flat b -> flat (a ++ b).
Proof.
  induction a as [|c a IH]; intros Ha Hb; simpl; [exact Hb|].
  apply flat_cons in Ha as [Hc Ha]. apply flat_cons. auto.
Qed.

Lemma flat_uint (d : Decimal.uint) : flat (NilEmpty.string_of_uint d).
Proof.
  induction d; simpl; try reflexivity;
    apply flat_cons; (split; [discriminate|assumption]).
Qed.

Lemma flat_str (i : Z) : flat (str i).
Proof.
  unfold str, NilZero.string_of_int.
  destruct (Z.to_int i) as [d|d];
    [|apply flat_cons; split; [discriminate|]];
    unfold NilZero.string_of_uint; destruct d;
    try reflexivity; apply (flat_uint (_ d)).
Qed.

(** The parent of a file directly below a flat directory. *)
Lemma dirname_below (dir name : string) :
  flat name -> dirname (dir ++ String "/" name) = Some dir.
Proof.
  intros Hn. induction dir as [|c dir IH]; simpl.
  - unfold flat in Hn. rewrite Hn. reflexivity.
  - rewrite IH. reflexivity.
Qed.

Lemma ancestors_flat (seen p : string) : flat p -> ancestors_from seen p = [].
Proof.
  revert seen. induction p as [|c p IH]; intros seen Hp; simpl; [reflexivity|].
  apply flat_cons in Hp as [Hc Hp].
  destruct (Ascii.eqb_spec c "/"%char); [contradiction|]. apply IH, Hp.
Qed.

Lemma store_below (p : string) (c : content) (l : list (string * content)) :
  ~ flat p ->
  Forall (fun e => ~ flat (fst e)) l ->
  Forall (fun e => ~ flat (fst e)) (store p c l).
Proof.
  intros Hp. induction l as [|[q d] l IH]; intros Hl; simpl.
  - constructor; [exact Hp|constructor].
  - inversion Hl; subst. destruct (String.eqb p q).
    + constructor; assumption.
    + constructor; auto.
Qed.

Lemma laid_out_not_file (ds : list string) (w : world) (d : string) :
  laid_out ds w -> flat d -> is_file (fs w) d = false.
Proof.
  intros (_ & _ & Hw) Hd. unfold is_file.
  apply not_true_is_false. intros Hex.
  apply existsb_exists in Hex as (e & Hin & Heq).
  apply String.eqb_eq in Heq. rewrite Forall_forall in Hw.
  apply (Hw e Hin). rewrite <- Heq. exact Hd.
Qed.

Lemma laid_out_is_dir (ds : list string) (w : world) (d : string) :
  laid_out ds w -> In d ds -> is_dir (fs w) d = true.
Proof.
  intros (Hd & _) Hin. unfold is_dir. rewrite Hd.
  apply existsb_exists. exists d. split; [exact Hin|apply String.eqb_refl].
Qed.

Lemma laid_out_not_dir (ds : list string) (w : world) (p : string) :
  laid_out ds w -> ~ flat p -> is_dir (fs w) p = false.
Proof.
  intros (Hd & Hflat & _) Hp. unfold is_dir. rewrite Hd.
  apply not_true_is_false. intros Hex.
  apply existsb_exists in Hex as (d & Hin & Heq).
  apply String.eqb_eq in Heq. rewrite Forall_forall in Hflat.
  apply Hp. rewrite Heq. apply Hflat, Hin.
Qed.

Section KeepsFacts.

Variable ds : list string.

Lemma keeps_ret {A : Type} (a : A) : keeps ds (ret a).
Proof. intros w Hw. exists a, w. split; [reflexivity|exact Hw]. Qed.

Lemma keeps_bind {A B : Type} (c : M A) (k : A -> M B) :
  keeps ds c -> (forall a, keeps ds (k a)) -> keeps ds (bind c k).
Proof.
  intros Hc Hk w Hw. destruct (Hc w Hw) as (a & w1 & H1 & Hw1).
  destruct (Hk a w1 Hw1) as (b & w2 & H2 & Hw2).
  exists b, w2. unfold bind. rewrite H1. split; assumption.
Qed.

Lemma keeps_ret_bind {A B : Type} (a : A) (k : A -> M B) :
  keeps ds (k a) -> keeps ds (bind (ret a) k).
Proof. intros Hk w Hw. exact (Hk w Hw). Qed.

Lemma keeps_draw {A : Type} (f : rng -> A * rng) : keeps ds (draw f).
Proof.
  intros w Hw. unfold draw. destruct (f (rand w)) as [a g].
  exists a. eexists. split; [reflexivity|exact Hw].
Qed.

Lemma keeps_for {A : Type} (l : list A) (body : A -> M unit) :
  (forall x, keeps ds (body x)) -> keeps ds (for_ l body).
Proof.
  intros Hb. induction l as [|x l IH]; simpl.
  - apply keeps_ret.
  - apply keeps_bind; [apply Hb|intros _; exact IH].
Qed.

(** Writing a file directly below one of the directories succeeds. *)
Lemma keeps_write_file (dir name : string) (c : content) :
  In dir ds -> flat name ->
  keeps ds (_write_file (dir ++ String "/" name) c).
Proof.
  intros Hin Hname w Hw.
  pose proof Hw as (Hd & Hflat & Hwr).
  assert (Hdir : flat dir) by (rewrite Forall_forall in Hflat; auto).
  assert (Hpath : ~ flat (dir ++ String "/" name)).
  { unfold flat. rewrite (dirname_below dir name Hname). discriminate. }
  unfold _write_file, bind, mkdir_parents, parent, ancestors.
  rewrite (dirname_below dir name Hname), (ancestors_flat _ dir Hdir).
  rewrite (laid_out_not_file ds w dir Hw Hdir).
  rewrite (laid_out_is_dir ds w dir Hw Hin).
  cbn [existsb orb andb negb app fold_left fs rand].
  assert (Hsame : add_dir (fs w) dir = fs w).
  { unfold add_dir. now rewrite (laid_out_is_dir ds w dir Hw Hin). }
  rewrite Hsame, (laid_out_not_dir ds w _ Hw Hpath).
  eexists. eexists. split; [reflexivity|].
  repeat split; cbn [fs dirs written]; try assumption.
  apply store_below; assumption.
Qed.

End KeepsFacts.

Lemma extension_configured (self : RepoGenerator) :
  lookup (language self) LANGUAGES <> None ->
  extension self = ret (ext_of self) /\ flat (ext_of self).
Proof.
  unfold extension, ext_of, LANGUAGES, lookup.
  repeat (destruct (String.eqb (language self) _);
          [intros _; split; reflexivity|]).
  congruence.
Qed.

(** From a new repository the command-line structure step returns for
    every configured language and every sequence of draws. *)
Lemma cli_structure_returns (self : RepoGenerator) (g : rng) :
  lookup (language self) LANGUAGES <> None ->
  exists w', _generate_cli_structure self (fresh_repository g) = Ok (tt, w').
Proof.
  intros Hlang. destruct (extension_configured self Hlang) as [Hext Hflat].
  set (ds := ["."; "cmd"; "internal"; "pkg"; "tests"]%string).
  assert (Hfiles : keeps ds (_create_cli_files self)).
  { unfold _create_cli_files. rewrite Hext.
    assert (Hcode : forall dir name lines code_type,
               In dir ds -> flat name ->
               keeps ds (write_code self (dir ++ String "/" name) lines code_type)).
    { intros dir name lines code_type Hin Hn. unfold write_code, _write_code_file.
      apply keeps_bind; [apply keeps_draw|].
      intros text. apply keeps_write_file; assumption. }
    apply keeps_ret_bind.
    apply keeps_bind.
    { apply (Hcode "cmd" ("main" ++ ext_of self) 300 "cli_main")%string.
      - simpl. auto.
      - apply flat_app; [reflexivity|exact Hflat]. }
    intros _. apply keeps_bind.
    { apply (Hcode "internal" ("commands" ++ ext_of self) 500 "commands")%string.
      - simpl. auto.
      - apply flat_app; [reflexivity|exact Hflat]. }
    intros _. apply keeps_bind.
    { apply (Hcode "internal" ("config" ++ ext_of self) 150 "config")%string.
      - simpl. auto.
      - apply flat_app; [reflexivity|exact Hflat]. }
    intros _. apply keeps_bind.
    { apply (Hcode "pkg" ("utils" ++ ext_of self) 200 "utils")%string.
      - simpl. auto.
      - apply flat_app; [reflexivity|exact Hflat]. }
    intros _. unfold write_code_files.
    apply keeps_bind; [apply keeps_draw|]. intros n.
    apply keeps_for. intros i.
    apply keeps_bind; [apply keeps_draw|]. intros lines.
    apply (Hcode "tests" ("test" ++ str i ++ ext_of self) lines "test")%string.
    - simpl. auto 6.
    - apply flat_app; [reflexivity|]. apply flat_app; [apply flat_str|exact Hflat]. }
  destruct (Hfiles {| fs := {| dirs := ds; written := [] |}; rand := g |})
    as ([] & w' & Hrun & _).
  { repeat split; [|constructor]. repeat constructor. }
  exists w'. exact Hrun.
Qed.

(** ** The orchestrator *)

Lemma attempts_app (next : Z) (a b : list (string * string)) :
  attempts next (a ++ b) = attempts next a ++ attempts (next + len a) b.
Proof.
  revert next. induction a as [|[c t] a IH]; intros next; simpl.
  - change (len (@nil (string * string))) with 0. now rewrite Z.add_0_r.
  - rewrite IH.
    replace (next + len ((c, t) :: a)) with (next + 1 + len a); [reflexivity|].
    unfold len. simpl length. lia.
Qed.

Lemma attempts_ids_from (next : Z) (sl : list (string * string)) (a : attempt) :
  In a (attempts next sl) -> next <= attempt_id a.
Proof.
  revert next. induction sl as [|[c t] sl IH]; intros next; simpl; [tauto|].
  intros [<-|Hin].
  - unfold attempt_id. simpl. lia.
  - apply IH in Hin. lia.
Qed.

(** Consecutive identities are distinct. *)
Lemma attempts_ids_NoDup (next : Z) (sl : list (string * string)) :
  NoDup (map attempt_id (attempts next sl)).
Proof.
  revert next. induction sl as [|[c t] sl IH]; intros next; simpl.
  - constructor.
  - constructor; [|apply IH].
    rewrite in_map_iff. intros (a & Hid & Hin).
    apply attempts_ids_from in Hin. unfold attempt_id in *. simpl in *. lia.
Qed.

Lemma error_line_is_printed_error (id : Z) (e : exn) :
  prefix "  ERROR generating repo " (error_line id e) = true.
Proof.
  unfold error_line. simpl.
  destruct (str id ++ String ":" (String " " (exn_str e)))%string; reflexivity.
Qed.

Section OrchestratorFacts.

Variable outcome : attempt -> option exn.

Lemma reaches_refl (st st' : Main.state (list attempt)) :
  Main.outside st' = Main.outside st ->
  Main.repo_id st' = Main.repo_id st ->
  Main.total_repos st' = Main.total_repos st ->
  printed_errors (Main.stdout st') = printed_errors (Main.stdout st) ->
  reaches outcome st st' [].
Proof.
  intros H1 H2 H3 H4. unfold reaches. simpl.
  change (len (@nil (string * string))) with 0.
  change (len (@nil attempt)) with 0.
  rewrite !app_nil_r. repeat split; (assumption || lia).
Qed.

Lemma reaches_trans (st1 st2 st3 : Main.state (list attempt))
  (a b : list (string * string)) :
  reaches outcome st1 st2 a -> reaches outcome st2 st3 b ->
  reaches outcome st1 st3 (a ++ b).
Proof.
  unfold reaches. intros (Ho1 & Hi1 & Ht1 & He1) (Ho2 & Hi2 & Ht2 & He2).
  rewrite Hi1 in Ho2, Ht2, He2.
  rewrite attempts_app.
  unfold error_lines in *. rewrite filter_app, flat_map_app, !len_app.
  rewrite Ho2, Ho1, Hi2, Hi1, Ht2, Ht1, He2, He1, <- !app_assoc.
  split; [reflexivity|]. split; [lia|]. split; [lia|reflexivity].
Qed.

(** A build that returns: the next identity, one more success. *)
Lemma reaches_success (st : Main.state (list attempt)) (c t : string) :
  outcome (Main.repo_id st, c, t) = None ->
  reaches outcome st
    {| Main.repo_id := Main.repo_id st + 1;
       Main.total_repos := Main.total_repos st + 1;
       Main.outside := Main.outside st ++ [(Main.repo_id st, c, t)];
       Main.stdout := Main.stdout st |}
    [(c, t)].
Proof.
  intros Hok. unfold reaches, error_lines, succeeded. simpl.
  rewrite Hok. simpl. rewrite app_nil_r. repeat split.
Qed.

(** A build that raises: the next identity all the same, and a line
    that names the identity that failed. *)
Lemma reaches_failure (st : Main.state (list attempt)) (c t : string) (e : exn) :
  outcome (Main.repo_id st, c, t) = Some e ->
  reaches outcome st
    {| Main.repo_id := Main.repo_id st + 1;
       Main.total_repos := Main.total_repos st;
       Main.outside := Main.outside st ++ [(Main.repo_id st, c, t)];
       Main.stdout := Main.stdout st ++ [error_line (Main.repo_id st) e] |}
    [(c, t)].
Proof.
  intros Hfail. unfold reaches, error_lines, succeeded, printed_errors.
  cbn [Main.repo_id Main.total_repos Main.outside Main.stdout attempts
       flat_map filter].
  rewrite Hfail, filter_app. cbn [filter].
  rewrite error_line_is_printed_error, app_nil_r.
  change (len (@nil attempt)) with 0. change (len [(c, t)]) with 1.
  repeat split. lia.
Qed.

Lemma for_templates_spec (category : string) (templates : list string) :
  templates <> [] ->
  forall (indices : list Z) (st : Main.state (list attempt)),
    Main.total_repos st < 1000 ->
    exists brk st' m,
      Main.for_templates (list attempt) (recording_build outcome) category
        templates indices st = Ok (brk, st')
      /\ (m <= length indices)%nat
      /\ reaches outcome st st'
           (firstn m (map (slot_of category templates) indices))
      /\ Main.total_repos st' <= 1000
      /\ (Main.total_repos st' < 1000 -> m = length indices).
Proof.
  intros Hne.
  assert (Hlen : (len templates =? 0) = false).
  { apply Z.eqb_neq. destruct templates; [congruence|].
    unfold len. simpl length. lia. }
  induction indices as [|i rest IH]; intros st Htot; simpl.
  - exists false, st, 0%nat. split; [reflexivity|]. split; [lia|].
    split; [apply reaches_refl; reflexivity|]. split; [lia|reflexivity].
  - rewrite Hlen. unfold recording_build.
    set (t := nth (Z.to_nat (i mod len templates)) templates ""%string).
    destruct (outcome (Main.repo_id st, category, t)) as [e|] eqn:Hout.
    + cbn [Main.print Main.repo_id Main.total_repos Main.outside Main.stdout].
      match goal with
      | |- context [Main.for_templates _ _ _ _ rest ?s] => set (st1 := s)
      end.
      destruct (IH st1 Htot) as (brk & st' & m & Hrun & Hm & Hreach & Hle & Hall).
      exists brk, st', (S m). split; [exact Hrun|]. split; [simpl; lia|].
      split; [|split; [exact Hle|intros H; rewrite (Hall H); reflexivity]].
      apply (reaches_trans st st1 st' [(category, t)]
               (firstn m (map (slot_of category templates) rest)));
        [|exact Hreach].
      apply (reaches_failure st category t e Hout).
    + cbn [Main.repo_id Main.total_repos Main.outside Main.stdout].
      match goal with
      | |- context [Main.for_templates _ _ _ _ rest ?s] => set (st1 := s)
      end.
      pose proof (reaches_success st category t Hout) as Hone. fold st1 in Hone.
      destruct (Z.geb_spec (Main.total_repos st + 1) 1000) as [Hge|Hlt].
      * exists true, st1, 1%nat. split; [reflexivity|]. split; [simpl; lia|].
        split; [exact Hone|]. subst st1. simpl. split; lia.
      * destruct (IH st1) as (brk & st' & m & Hrun & Hm & Hreach & Hle & Hall).
        { subst st1. simpl. lia. }
        exists brk, st', (S m). split; [exact Hrun|]. split; [simpl; lia|].
        split; [|split; [exact Hle|intros H; rewrite (Hall H); reflexivity]].
        apply (reaches_trans st st1 st' [(category, t)]
                 (firstn m (map (slot_of category templates) rest)));
          [exact Hone|exact Hreach].
Qed.

End OrchestratorFacts.

Lemma for_categories_spec (outcome : attempt -> option exn)
  (table : list (string * category_config)) :
  Forall (fun entry => templates (snd entry) <> []) table ->
  forall st : Main.state (list attempt),
    Main.total_repos st < 1000 ->
    exists st' n,
      Main.for_categories (list attempt) (recording_build outcome) table st
      = Ok st'
      /\ (n <= length (slots table))%nat
      /\ reaches outcome st st' (firstn n (slots table))
      /\ Main.total_repos st' <= 1000
      /\ (Main.total_repos st' < 1000 -> n = length (slots table)).
Proof.
  induction table as [|[cat cfg] rest IH]; intros Hne st Htot.
  - exists st, 0%nat. simpl. split; [reflexivity|]. split; [lia|].
    split; [apply reaches_refl; reflexivity|]. split; [lia|reflexivity].
  - inversion Hne as [|? ? Hcfg Hrest]; subst. simpl in Hcfg.
    cbn [Main.for_categories].
    match goal with
    | |- context [Main.for_templates _ _ _ _ _ ?s] => set (st0 := s)
    end.
    assert (H0 : reaches outcome st st0 []).
    { apply reaches_refl; try reflexivity.
      subst st0. unfold Main.print, printed_errors. simpl.
      rewrite filter_app. simpl. apply app_nil_r. }
    destruct (for_templates_spec outcome cat (templates cfg) Hcfg
                (range (count cfg)) st0 Htot)
      as (brk & st1 & m & Hrun & Hm & Hreach & Hle & Hall).
    rewrite Hrun.
    change (slots ((cat, cfg) :: rest))
      with (map (slot_of cat (templates cfg)) (range (count cfg)) ++ slots rest).
    set (here := map (slot_of cat (templates cfg)) (range (count cfg))) in *.
    assert (Hhere : length here = length (range (count cfg)))
      by (subst here; apply length_map).
    destruct (Z.geb_spec (Main.total_repos st1) 1000) as [Hge|Hlt].
    + exists st1, m. split; [reflexivity|].
      split; [rewrite length_app; lia|].
      split; [|split; [exact Hle|lia]].
      rewrite firstn_app.
      replace (m - length here)%nat with 0%nat by lia.
      simpl. rewrite app_nil_r.
      apply (reaches_trans outcome st st0 st1 [] (firstn m here) H0 Hreach).
    + specialize (Hall Hlt). subst m.
      rewrite <- Hhere, firstn_all in Hreach.
      destruct (IH Hrest st1 Hlt) as (st' & n & Hrun' & Hn & Hreach' & Hle' & Hall').
      exists st', (length here + n)%nat. split; [exact Hrun'|].
      split; [rewrite length_app; lia|].
      split; [|split; [exact Hle'|]].
      * rewrite firstn_app_2.
        apply (reaches_trans outcome st st1 st' here (firstn n (slots rest)));
          [|exact Hreach'].
        apply (reaches_trans outcome st st0 st1 [] here H0 Hreach).
      * intros H. rewrite (Hall' H), length_app. reflexivity.
Qed.

(** C8: whatever builds raise, [main] returns; it has called the
    constructor for the slots of the table in order, each call with the
    next identity from 5001 on, so no identity twice and a failed build
    uses up its identity like a successful one; every failure is
    printed with the identity that failed; and the run stops only after
    the thousandth success or the last slot, never at a failure. *)
Theorem failed_build_keeps_run_and_identity (outcome : attempt -> option exn)
  (base_path : string) :
  exists st n,
    Main.main (list attempt) (recording_build outcome) base_path [] = Ok st
    /\ (n <= length (slots REPO_CATEGORIES))%nat
    /\ Main.outside st = attempts 5001 (firstn n (slots REPO_CATEGORIES))
    /\ Main.repo_id st = 5001 + Z.of_nat n
    /\ NoDup (map attempt_id (Main.outside st))
    /\ Main.total_repos st = len (filter (succeeded outcome) (Main.outside st))
    /\ printed_errors (Main.stdout st) = error_lines outcome (Main.outside st)
    /\ (Main.total_repos st = 1000 \/ n = length (slots REPO_CATEGORIES)).
Proof.
  unfold Main.main, Main.main_over.
  match goal with
  | |- context [Main.for_categories _ _ _ ?s] => set (st0 := s)
  end.
  destruct (for_categories_spec outcome REPO_CATEGORIES) with (st := st0)
    as (st' & n & Hrun & Hn & (Ho & Hi & Ht & He) & Hle & Hall).
  { repeat constructor; discriminate. }
  { subst st0. simpl. lia. }
  rewrite Hrun. eexists. exists n. split; [reflexivity|].
  subst st0.
  cbn [Main.print Main.repo_id Main.total_repos Main.outside Main.stdout] in *.
  rewrite app_nil_l in Ho. rewrite Ho, Hi, Ht.
  split; [exact Hn|]. split; [reflexivity|].
  split.
  { unfold len. rewrite length_firstn. lia. }
  split; [apply attempts_ids_NoDup|].
  split; [lia|].
  split.
  - unfold printed_errors in *. rewrite !filter_app, He. simpl.
    now rewrite !app_nil_r.
  - destruct (Z.eq_dec (Main.total_repos st') 1000) as [Heq|Hneq].
    + left. lia.
    + right. apply Hall. lia.
Qed.

(** * Further properties of the code *)

(** ** More on the commit history *)

(** One iteration in full: the commit it appends and the state it
    leaves. *)
Lemma loop_body_detail (self : RepoGenerator) (all_files : list string)
  (k : Z) (st : loop_state) :
  1 <= k ->
  0 <= file_index st < len all_files ->
  contributors self <> [] ->
  exists commit_type msg_template who hours g',
    In (commit_type, msg_template) commit_types
    /\ In who (contributors self)
    /\ 1 <= hours <= 48
    /\ loop_body self all_files k st
       = Ok {| commits :=
                 commits st
                 ++ [batch_commit all_files k st commit_type msg_template who];
               current_date := current_date st + timedelta_hours hours;
               file_index := file_index st + k;
               gen := g' |}.
Proof.
  intros Hk Hi Hc. unfold loop_body, batch_commit.
  destruct (choice_some commit_types (gen st)) as ([ct mt] & g1 & -> & Hin);
    [discriminate|].
  destruct (py_slice_inside all_files (file_index st) k Hi Hk) as [_ Hne].
  destruct (py_slice all_files (file_index st) (file_index st + k))
    as [|first rest] eqn:Hs; [congruence|].
  destruct (choice_some (contributors self) g1 Hc) as (who & g2 & -> & Hwho).
  pose proof (randint_range 1 48 g2 ltac:(lia)) as Hh.
  destruct (randint 1 48 g2) as [hours g3]. simpl in Hh.
  exists ct, mt, who, hours, g3. repeat split; try assumption; lia.
Qed.

(** The scheduler's run, opened up: the first contributor, the state
    the loop starts from and the state it ends in. *)
Lemma commit_history_run (self : RepoGenerator) (now : Z)
  (walk : list walk_entry) (g : rng) (fuel : nat) :
  contributors self <> [] ->
  (length (collect_files walk) <= fuel)%nat ->
  exists who others st,
    contributors self = who :: others
    /\ while_loop self (collect_files walk)
         (files_per_commit self (collect_files walk)) fuel
         {| commits := [initial_commit (now - timedelta_days 365) who];
            current_date := now - timedelta_days 365 + timedelta_days 1;
            file_index := 0; gen := g |}
       = Some (Ok st)
    /\ _create_commit_history self now walk g fuel
       = Some (Ok (commits st, gen st)).
Proof.
  intros Hc Hfuel. unfold _create_commit_history.
  destruct (contributors self) as [|who others] eqn:Hcs; [congruence|].
  match goal with
  | |- context [while_loop ?s ?a ?k ?f ?st0] =>
      destruct (while_loop_returns s a k (files_per_commit_pos s a) f st0)
        as [st Hrun]
  end.
  - rewrite Hcs. discriminate.
  - simpl. lia.
  - simpl. unfold len. lia.
  - exists who, others, st. rewrite Hrun. repeat split.
Qed.

(** An invariant of the iterations that run with the index inside the
    list holds of the state the scheduler ends in. *)
Lemma commit_history_invariant (self : RepoGenerator) (now : Z)
  (walk : list walk_entry) (g : rng) (fuel : nat)
  (I : loop_state -> Prop) :
  contributors self <> [] ->
  (length (collect_files walk) <= fuel)%nat ->
  (forall who,
      Some who = nth_error (contributors self) 0 ->
      I {| commits := [initial_commit (now - timedelta_days 365) who];
           current_date := now - timedelta_days 365 + timedelta_days 1;
           file_index := 0; gen := g |}) ->
  (forall st commit_type msg_template who hours g',
      I st ->
      0 <= file_index st < len (collect_files walk) ->
      In (commit_type, msg_template) commit_types ->
      In who (contributors self) ->
      1 <= hours <= 48 ->
      I {| commits :=
             commits st
             ++ [batch_commit (collect_files walk)
                   (files_per_commit self (collect_files walk)) st
                   commit_type msg_template who];
           current_date := current_date st + timedelta_hours hours;
           file_index := file_index st + files_per_commit self (collect_files walk);
           gen := g' |}) ->
  exists st,
    _create_commit_history self now walk g fuel = Some (Ok (commits st, gen st))
    /\ I st
    /\ loop_cond self (collect_files walk) st = false.
Proof.
  intros Hc Hfuel Hinit Hstep.
  destruct (commit_history_run self now walk g fuel Hc Hfuel)
    as (who & others & st & Hcs & Hrun & Hres).
  exists st. split; [exact Hres|].
  set (all_files := collect_files walk) in *.
  set (k := files_per_commit self all_files) in *.
  assert (Hk : 1 <= k) by apply files_per_commit_pos.
  assert (Hpres : forall s s',
             (0 <= file_index s /\ I s) ->
             loop_cond self all_files s = true ->
             loop_body self all_files k s = Ok s' ->
             0 <= file_index s' /\ I s').
  { intros s s' [Hidx HIs] Hcond Hbody.
    unfold loop_cond in Hcond. apply andb_prop in Hcond as [Hlt _].
    apply Z.ltb_lt in Hlt.
    destruct (loop_body_detail self all_files k s Hk (conj Hidx Hlt) Hc)
      as (ct & mt & w & h & g' & Hct & Hw & Hh & Heq).
    rewrite Heq in Hbody. inversion Hbody; subst s'. split.
    - simpl. lia.
    - apply Hstep; auto. }
  pose proof (fun H0 =>
                while_loop_invariant self all_files k
                  (fun s => 0 <= file_index s /\ I s) Hpres fuel _ st H0 Hrun)
    as Hend.
  destruct Hend as [[_ HI] Hcond]; [|split; assumption].
  split; [simpl; lia|]. apply Hinit. rewrite Hcs. reflexivity.
Qed.

(** What every appended commit satisfies, every commit after the first
    satisfies at the end; and the first commit is the initial one, by
    the first contributor. *)
Lemma batches_all (self : RepoGenerator) (now : Z) (walk : list walk_entry)
  (g : rng) (fuel : nat) (P : Commit -> Prop) :
  contributors self <> [] ->
  (length (collect_files walk) <= fuel)%nat ->
  (forall st commit_type msg_template who,
      0 <= file_index st < len (collect_files walk) ->
      In (commit_type, msg_template) commit_types ->
      In who (contributors self) ->
      P (batch_commit (collect_files walk)
           (files_per_commit self (collect_files walk)) st
           commit_type msg_template who)) ->
  exists who rest g',
    Some who = nth_error (contributors self) 0
    /\ _create_commit_history self now walk g fuel
       = Some (Ok (initial_commit (now - timedelta_days 365) who :: rest, g'))
    /\ Forall P rest.
Proof.
  intros Hc Hfuel HP.
  destruct (commit_history_invariant self now walk g fuel
              (fun st => exists who rest,
                   Some who = nth_error (contributors self) 0
                   /\ commits st
                      = initial_commit (now - timedelta_days 365) who :: rest
                   /\ Forall P rest) Hc Hfuel)
    as (st & Hrun & (who & rest & Hwho & Hcs & Hall) & _).
  - intros who Hwho. exists who, []. simpl. auto.
  - intros st ct mt w h g' (who & rest & Hwho & Hcs & Hall) Hi Hct Hw Hh.
    exists who, (rest ++ [batch_commit (collect_files walk)
                            (files_per_commit self (collect_files walk)) st ct mt w]).
    simpl. rewrite Hcs. split; [exact Hwho|]. split; [reflexivity|].
    apply Forall_app. split; [exact Hall|]. constructor; [|constructor].
    apply HP; assumption.
  - exists who, rest, (gen st). rewrite Hrun, Hcs. auto.
Qed.

(** Every commit is made in the name of a contributor of the
    repository: the initial one by the first of them, each later one by
    one of them. *)
Theorem commit_authors_are_contributors (self : RepoGenerator) (now : Z)
  (walk : list walk_entry) (g : rng) (fuel : nat) :
  contributors self <> [] ->
  (length (collect_files walk) <= fuel)%nat ->
  exists first rest g',
    _create_commit_history self now walk g fuel = Some (Ok (first :: rest, g'))
    /\ Some (author first) = nth_error (contributors self) 0
    /\ Forall (fun c => In (author c) (contributors self)) (first :: rest).
Proof.
  intros Hc Hfuel.
  destruct (batches_all self now walk g fuel
              (fun c => In (author c) (contributors self)) Hc Hfuel)
    as (who & rest & g' & Hwho & Hrun & Hall).
  { intros st ct mt w _ _ Hw. exact Hw. }
  exists (initial_commit (now - timedelta_days 365) who), rest, g'.
  split; [exact Hrun|]. split; [exact Hwho|].
  constructor; [|exact Hall]. simpl.
  destruct (contributors self) as [|c cs]; [congruence|].
  simpl in Hwho. inversion Hwho. left. reflexivity.
Qed.

Lemma commit_authors_are_contributors_witness :
  exists first rest g',
    _create_commit_history cli_self 1700000000000000 cli_walk sample_rng 40
    = Some (Ok (first :: rest, g'))
    /\ Some (author first) = nth_error (contributors cli_self) 0
    /\ Forall (fun c => In (author c) (contributors cli_self)) (first :: rest).
Proof.
  apply (commit_authors_are_contributors cli_self 1700000000000000 cli_walk
           sample_rng 40).
  - vm_compute. discriminate.
  - vm_compute. lia.
Defined.

(** The first message is [Initial commit]; every later message is a
    type of [commit_types], a colon and the type's template filled with
    the top-level directory of the commit's first file, or with [core]
    when that file is at the top. *)
Theorem commit_messages_follow_types (self : RepoGenerator) (now : Z)
  (walk : list walk_entry) (g : rng) (fuel : nat) :
  contributors self <> [] ->
  (length (collect_files walk) <= fuel)%nat ->
  exists first rest g',
    _create_commit_history self now walk g fuel = Some (Ok (first :: rest, g'))
    /\ message first = "Initial commit"%string
    /\ Forall scheduled_message rest
    /\ Forall (fun c =>
                 exists commit_type,
                   In commit_type ["feat"; "fix"; "refactor"; "docs"; "test";
                                   "chore"]%string
                   /\ prefix (commit_type ++ ": ") (message c) = true) rest.
Proof.
  intros Hc Hfuel.
  destruct (batches_all self now walk g fuel
              (fun c => scheduled_message c
                        /\ exists commit_type,
                             In commit_type ["feat"; "fix"; "refactor"; "docs";
                                             "test"; "chore"]%string
                             /\ prefix (commit_type ++ ": ") (message c) = true)
              Hc Hfuel)
    as (who & rest & g' & _ & Hrun & Hall).
  { intros st ct mt w _ Hct _. split.
    - exists ct, mt. split; [exact Hct|reflexivity].
    - exists ct. unfold batch_commit. cbn [message].
      set (tail := format mt _). clearbody tail.
      simpl in Hct.
      repeat (destruct Hct as [Hct|Hct];
              [inversion Hct; subst; split; [simpl; auto 7|destruct tail; reflexivity]|]).
      contradiction. }
  exists (initial_commit (now - timedelta_days 365) who), rest, g'.
  split; [exact Hrun|]. split; [reflexivity|].
  split; eapply Forall_impl; try exact Hall; simpl; tauto.
Qed.

Lemma commit_messages_follow_types_witness :
  exists first rest g',
    _create_commit_history cli_self 1700000000000000 cli_walk sample_rng 40
    = Some (Ok (first :: rest, g'))
    /\ message first = "Initial commit"%string
    /\ Forall scheduled_message rest
    /\ Forall (fun c =>
                 exists commit_type,
                   In commit_type ["feat"; "fix"; "refactor"; "docs"; "test";
                                   "chore"]%string
                   /\ prefix (commit_type ++ ": ") (message c) = true) rest.
Proof.
  apply (commit_messages_follow_types cli_self 1700000000000000 cli_walk
           sample_rng 40).
  - vm_compute. discriminate.
  - vm_compute. lia.
Defined.

Lemma nth_range (i : nat) (n d : Z) :
  (i < Z.to_nat n)%nat -> nth i (range n) d = Z.of_nat i.
Proof.
  intros Hi. unfold range.
  rewrite (nth_indep _ d (Z.of_nat 0)) by (rewrite length_map, length_seq; exact Hi).
  rewrite map_nth, seq_nth by exact Hi. reflexivity.
Qed.

Lemma len_py_slice_inside {A : Type} (l : list A) (i k : Z) :
  0 <= i < len l -> 1 <= k ->
  len (py_slice l i (i + k)) = Z.min k (len l - i).
Proof.
  intros Hi Hk. destruct (py_slice_inside l i k Hi Hk) as [-> _].
  unfold len in *. rewrite length_firstn, length_skipn. lia.
Qed.

(** Every commit after the first stages at least one file and at most
    [files_per_commit] of them, and every one but the last stages
    exactly [files_per_commit]: only the last batch can be short. *)
Theorem batches_are_full_but_last (self : RepoGenerator) (now : Z)
  (walk : list walk_entry) (g : rng) (fuel : nat) :
  contributors self <> [] ->
  (length (collect_files walk) <= fuel)%nat ->
  exists first batches g',
    _create_commit_history self now walk g fuel
    = Some (Ok (first :: batches, g'))
    /\ Forall (fun c =>
                 1 <= len (files c)
                 <= files_per_commit self (collect_files walk)) batches
    /\ forall i : nat,
         (S i < length batches)%nat ->
         len (files (nth i batches first))
         = files_per_commit self (collect_files walk).
Proof.
  intros Hc Hfuel.
  destruct (commit_history_correct self now walk g fuel Hc Hfuel)
    as (who & st & Hrun & _ & Hinv & _).
  set (all_files := collect_files walk) in *.
  set (k := files_per_commit self all_files) in *.
  assert (Hk : 1 <= k) by apply files_per_commit_pos.
  destruct Hinv as [_ (batches & Hcs & Hidx & Hlast & _ & Hmap & _) _ _ _].
  exists (initial_commit (now - timedelta_days 365) who), batches, (gen st).
  rewrite Hrun, Hcs. split; [reflexivity|].
  assert (Hnth : forall i d,
             (i < length batches)%nat ->
             files (nth i batches d)
             = py_slice all_files (Z.of_nat i * k) (Z.of_nat i * k + k)
             /\ 0 <= Z.of_nat i * k < len all_files).
  { intros i d Hi.
    assert (Hb : batches <> []) by (destruct batches; simpl in Hi; [lia|discriminate]).
    destruct Hlast as [?|Hlast]; [contradiction|].
    split.
    - rewrite <- (map_nth files), (nth_indep _ _ (@nil string))
        by (rewrite length_map; exact Hi).
      rewrite Hmap.
      rewrite (nth_indep _ _ ((fun j => py_slice all_files (j * k) (j * k + k)) 0))
        by (rewrite length_map; unfold range, len;
            rewrite length_map, length_seq; lia).
      rewrite (map_nth (fun j => py_slice all_files (j * k) (j * k + k))).
      rewrite nth_range by (unfold len; lia). reflexivity.
    - unfold len in Hidx, Hlast |- *. nia. }
  split.
  - apply Forall_forall. intros c Hin.
    destruct (In_nth _ _ (initial_commit 0 who) Hin) as (i & Hi & <-).
    destruct (Hnth i (initial_commit 0 who) Hi) as [-> Hinside].
    rewrite (len_py_slice_inside all_files _ k Hinside Hk). lia.
  - intros i Hi.
    destruct (Hnth i (initial_commit (now - timedelta_days 365) who)) as [-> Hinside];
      [lia|].
    rewrite (len_py_slice_inside all_files _ k Hinside Hk).
    destruct (Hnth (S i) (initial_commit 0 who) Hi) as [_ Hnext].
    lia.
Qed.

Lemma batches_are_full_but_last_witness :
  exists first batches g',
    _create_commit_history cli_self 1700000000000000 cli_walk sample_rng 40
    = Some (Ok (first :: batches, g'))
    /\ Forall (fun c =>
                 1 <= len (files c)
                 <= files_per_commit cli_self (collect_files cli_walk)) batches
    /\ forall i : nat,
         (S i < length batches)%nat ->
         len (files (nth i batches first))
         = files_per_commit cli_self (collect_files cli_walk).
Proof.
  apply (batches_are_full_but_last cli_self 1700000000000000 cli_walk
           sample_rng 40).
  - vm_compute. discriminate.
  - vm_compute. lia.
Defined.

Lemma gaps_snoc (l : list Z) (x d : Z) :
  l <> [] -> gaps (l ++ [x]) = gaps l ++ [x - last l d].
Proof.
  induction l as [|a l IH]; intros Hne; [congruence|].
  destruct l as [|b l]; [reflexivity|].
  change (gaps ((a :: b :: l) ++ [x])) with ((b - a) :: gaps ((b :: l) ++ [x])).
  rewrite IH by discriminate. reflexivity.
Qed.

(** The first commit after the initial one is dated exactly one day
    after it, and from then on each commit is dated a whole number of
    hours, at least 1 and at most 48, after the one before. *)
Theorem commit_dates_step_by_hours (self : RepoGenerator) (now : Z)
  (walk : list walk_entry) (g : rng) (fuel : nat) :
  contributors self <> [] ->
  (length (collect_files walk) <= fuel)%nat ->
  exists first rest g',
    _create_commit_history self now walk g fuel = Some (Ok (first :: rest, g'))
    /\ match rest with
       | [] => True
       | second :: _ => date second = date first + timedelta_days 1
       end
    /\ Forall hourly (gaps (map date rest)).
Proof.
  intros Hc Hfuel.
  set (start := now - timedelta_days 365).
  destruct (commit_history_invariant self now walk g fuel
              (fun st => exists who rest,
                   commits st = initial_commit start who :: rest
                   /\ match rest with
                      | [] => current_date st = start + timedelta_days 1
                      | second :: _ =>
                          date second = start + timedelta_days 1
                          /\ hourly (current_date st - last (map date rest) 0)
                      end
                   /\ Forall hourly (gaps (map date rest))) Hc Hfuel)
    as (st & Hrun & (who & rest & Hcs & Hhead & Hgaps) & _).
  - intros who _. exists who, []. simpl. repeat split. constructor.
  - intros st ct mt w h g' (who & rest & Hcs & Hhead & Hgaps) _ _ _ Hh.
    exists who, (rest ++ [batch_commit (collect_files walk)
                            (files_per_commit self (collect_files walk)) st ct mt w]).
    cbn [commits current_date]. rewrite Hcs. split; [reflexivity|].
    assert (Hnew : hourly (current_date st + timedelta_hours h - current_date st)).
    { exists h. split; [exact Hh|lia]. }
    destruct rest as [|second rest'].
    + simpl. repeat split; auto.
    + destruct Hhead as [Hsecond Hlast]. rewrite map_app. cbn [map app date batch_commit].
      split; [split; [exact Hsecond|]|].
      * change (date second :: map date rest' ++ [current_date st])
          with ((date second :: map date rest') ++ [current_date st]).
        rewrite last_last. exact Hnew.
      * change (date second :: map date rest' ++ [current_date st])
          with ((date second :: map date rest') ++ [current_date st]).
        rewrite (gaps_snoc _ _ 0) by discriminate.
        apply Forall_app. split; [exact Hgaps|].
        constructor; [exact Hlast|constructor].
  - exists (initial_commit start who), rest, (gen st). rewrite Hrun, Hcs.
    split; [reflexivity|]. split; [|exact Hgaps].
    destruct rest; [exact I|]. apply Hhead.
Qed.

Lemma commit_dates_step_by_hours_witness :
  exists first rest g',
    _create_commit_history cli_self 1700000000000000 cli_walk sample_rng 40
    = Some (Ok (first :: rest, g'))
    /\ match rest with
       | [] => True
       | second :: _ => date second = date first + timedelta_days 1
       end
    /\ Forall hourly (gaps (map date rest)).
Proof.
  apply (commit_dates_step_by_hours cli_self 1700000000000000 cli_walk
           sample_rng 40).
  - vm_compute. discriminate.
  - vm_compute. lia.
Defined.

(** The number of commits: the initial one and one per batch, where the
    batches are as many as the files need at [files_per_commit] each
    (the quotient rounded up), cut at [num_commits - 1]. *)
Theorem commit_count_formula (self : RepoGenerator) (now : Z)
  (walk : list walk_entry) (g : rng) (fuel : nat) :
  contributors self <> [] ->
  (length (collect_files walk) <= fuel)%nat ->
  let total := len (collect_files walk) in
  let k := files_per_commit self (collect_files walk) in
  exists history g',
    _create_commit_history self now walk g fuel = Some (Ok (history, g'))
    /\ len history
       = 1 + Z.max 0 (Z.min ((total + k - 1) / k) (num_commits self - 1)).
Proof.
  intros Hc Hfuel total k.
  destruct (commit_history_correct self now walk g fuel Hc Hfuel)
    as (who & st & Hrun & _ & Hinv & Hcond).
  fold total in Hinv, Hcond. fold k in Hinv.
  assert (Hk : 1 <= k) by apply files_per_commit_pos.
  destruct Hinv as [_ (batches & Hcs & Hidx & Hlast & _) _ _ Hcount].
  exists (commits st), (gen st). split; [exact Hrun|].
  assert (Hlen : len (commits st) = 1 + len batches).
  { rewrite Hcs. unfold len. simpl length. lia. }
  assert (Hn : 0 <= len batches) by apply len_nonneg.
  assert (Hnil : batches = [] -> len batches = 0) by (intros ->; reflexivity).
  assert (Ht : 0 <= total) by apply len_nonneg.
  unfold loop_cond in Hcond. fold total in Hcond.
  pose proof (Z.div_mod (total + k - 1) k ltac:(lia)) as Hdm.
  pose proof (Z.mod_pos_bound (total + k - 1) k ltac:(lia)) as Hmod.
  set (q := (total + k - 1) / k) in *.
  set (r := (total + k - 1) mod k) in *.
  assert (Hq : 0 <= q) by (apply Z.div_pos; lia).
  rewrite Hlen.
  apply andb_false_iff in Hcond as [Hc1|Hc2].
  - apply Z.ltb_ge in Hc1.
    assert (len batches = q).
    { destruct Hlast as [Hb|Hlast]; [specialize (Hnil Hb)|]; nia. }
    lia.
  - apply Z.ltb_ge in Hc2.
    destruct Hlast as [Hb|Hlast]; [specialize (Hnil Hb); lia|].
    assert (len batches <= q) by nia.
    lia.
Qed.

Lemma commit_count_formula_witness :
  exists history g',
    _create_commit_history library_self 1700000000000000 library_walk
      sample_rng 104 = Some (Ok (history, g'))
    /\ len history
       = 1 + Z.max 0 (Z.min ((104 + 1 - 1) / 1) (100 - 1)).
Proof.
  apply (commit_count_formula library_self 1700000000000000 library_walk
           sample_rng 104).
  - vm_compute. discriminate.
  - vm_compute. lia.
Defined.

(** ** The constructor *)

Lemma pick_weighted_in (table : list (string * language_config)) (r : Z)
  (last : string) :
  table <> [] -> In (pick_weighted table r last) (map fst table).
Proof.
  revert r last. induction table as [|[k c] rest IH]; intros r last Hne;
    [congruence|].
  simpl. destruct (r <? weight c); [left; reflexivity|].
  destruct rest as [|e rest'].
  - left. reflexivity.
  - right. apply IH. discriminate.
Qed.

Lemma lookup_in_keys {V : Type} (k : string) (table : list (string * V)) :
  In k (map fst table) -> lookup k table <> None.
Proof.
  induction table as [|[k' v] rest IH]; simpl; [tauto|].
  intros [->|Hin].
  - rewrite String.eqb_refl. discriminate.
  - destruct (String.eqb k k'); [discriminate|auto].
Qed.

(** The language the constructor selects is a key of [LANGUAGES], so
    the lookup of its first extension never raises. *)
Theorem selected_language_is_configured (id : Z) (cat tmpl : string) (g0 : rng) :
  let self := fst (__init__ id cat tmpl g0) in
  In (language self) (map fst LANGUAGES)
  /\ language self = fst (_select_language g0)
  /\ exists ext,
       extension self = ret ext
       /\ In ext [".py"; ".js"; ".ts"; ".java"; ".go"; ".rs"; ".rb"; ".php";
                  ".cs"]%string.
Proof.
  intros self.
  assert (Hlang : language self = fst (_select_language g0)).
  { unfold self, __init__.
    destruct (_select_language g0) as [lang g1].
    destruct (randint 1000 50000 g1) as [loc g2].
    destruct (randint 100 500 g2) as [nc g3].
    destruct (randint 1 (Z.min 5 (len CONTRIBUTORS)) g3) as [k g4].
    destruct (sample CONTRIBUTORS (Z.to_nat k) g4) as [cs g5].
    destruct (randint 20 90 g5) as [tc g6]. reflexivity. }
  assert (Hin : In (language self) (map fst LANGUAGES)).
  { rewrite Hlang. unfold _select_language, next. cbn [fst].
    apply pick_weighted_in. discriminate. }
  split; [exact Hin|]. split; [exact Hlang|].
  destruct (extension_configured self (lookup_in_keys _ _ Hin)) as [Hext _].
  exists (ext_of self). split; [exact Hext|].
  unfold ext_of. simpl in Hin.
  repeat (destruct Hin as [Hin|Hin]; [rewrite <- Hin; simpl; auto 10|]).
  contradiction.
Qed.

Lemma remove_nth_length {A : Type} (i : nat) (l : list A) :
  (i < length l)%nat -> length (remove_nth i l) = (length l - 1)%nat.
Proof.
  revert i. induction l as [|x l IH]; intros i Hi; simpl in Hi; [lia|].
  destruct i as [|i]; simpl; [lia|].
  rewrite IH by lia. lia.
Qed.

Lemma remove_nth_incl {A : Type} (i : nat) (l : list A) (x : A) :
  In x (remove_nth i l) -> In x l.
Proof.
  revert i. induction l as [|y l IH]; intros i; [destruct i; simpl; tauto|].
  destruct i as [|i]; simpl; [tauto|].
  intros [->|Hin]; [auto|right; eapply IH; eauto].
Qed.

Lemma remove_nth_NoDup {A : Type} (i : nat) (l : list A) (d : A) :
  NoDup l -> (i < length l)%nat ->
  NoDup (remove_nth i l) /\ ~ In (nth i l d) (remove_nth i l).
Proof.
  revert i. induction l as [|y l IH]; intros i Hnd Hi; simpl in Hi; [lia|].
  inversion Hnd as [|? ? Hy Hl]; subst.
  destruct i as [|i]; simpl.
  - split; assumption.
  - destruct (IH i Hl ltac:(lia)) as [Hnd' Hnot].
    split.
    + constructor; [|exact Hnd']. intros Hin. apply Hy.
      eapply remove_nth_incl; eauto.
    + intros [Heq|Hin]; [|contradiction].
      apply Hy. rewrite Heq. apply nth_In. lia.
Qed.

(** Sampling [k] of a population of distinct elements, with [k] within
    its size, gives [k] distinct elements of the population. *)
Lemma sample_spec {A : Type} (k : nat) (population : list A) (g : rng) :
  NoDup population -> (k <= length population)%nat ->
  length (fst (sample population k g)) = k
  /\ NoDup (fst (sample population k g))
  /\ incl (fst (sample population k g)) population.
Proof.
  revert population g. induction k as [|k IH]; intros population g Hnd Hk.
  - destruct population; simpl;
      (split; [reflexivity|]; split; [constructor|intros x []]).
  - destruct population as [|d rest]; [simpl in Hk; lia|].
    cbn [sample]. unfold next.
    set (population := d :: rest) in *.
    set (i := Z.to_nat (tape g (pos g) mod len population)).
    assert (Hi : (i < length population)%nat).
    { pose proof (Z.mod_pos_bound (tape g (pos g)) (len population)) as Hm.
      unfold i, len in *. subst population. simpl length in *. lia. }
    destruct (remove_nth_NoDup i population d Hnd Hi) as [Hnd' Hnot].
    specialize (IH (remove_nth i population)
                  {| tape := tape g; pos := S (pos g) |} Hnd').
    rewrite remove_nth_length in IH by exact Hi.
    specialize (IH ltac:(lia)).
    destruct (sample (remove_nth i population) k _) as [chosen g2].
    cbn [fst] in *. destruct IH as (Hlen & Hnd2 & Hincl).
    split; [simpl; lia|]. split.
    + constructor; [|exact Hnd2]. intros Hin. apply Hnot, Hincl, Hin.
    + intros x [<-|Hin]; [apply nth_In, Hi|].
      eapply remove_nth_incl, Hincl, Hin.
Qed.

Lemma CONTRIBUTORS_NoDup : NoDup CONTRIBUTORS.
Proof.
  unfold CONTRIBUTORS.
  repeat (constructor; [simpl; intuition discriminate|]). constructor.
Qed.

(** The constructor gives a repository between one and five
    contributors, all different and all from [CONTRIBUTORS], and
    [num_contributors] is their number. *)
Theorem contributors_are_distinct_pool_members (id : Z) (cat tmpl : string)
  (g0 : rng) :
  let self := fst (__init__ id cat tmpl g0) in
  1 <= num_contributors self <= 5
  /\ len (contributors self) = num_contributors self
  /\ NoDup (contributors self)
  /\ incl (contributors self) CONTRIBUTORS.
Proof.
  unfold __init__.
  destruct (_select_language g0) as [lang g1].
  destruct (randint 1000 50000 g1) as [loc g2].
  destruct (randint 100 500 g2) as [nc g3].
  change (Z.min 5 (len CONTRIBUTORS)) with 5.
  pose proof (randint_range 1 5 g3 ltac:(lia)) as Hk.
  destruct (randint 1 5 g3) as [k g4]. cbn [fst] in Hk.
  pose proof (sample_spec (Z.to_nat k) CONTRIBUTORS g4 CONTRIBUTORS_NoDup) as Hs.
  destruct (sample CONTRIBUTORS (Z.to_nat k) g4) as [cs g5].
  destruct (randint 20 90 g5) as [tc g6]. cbn [fst] in *.
  cbn [num_contributors contributors].
  destruct Hs as (Hlen & Hnd & Hincl).
  { change (length CONTRIBUTORS) with 15%nat. lia. }
  split; [exact Hk|]. split; [unfold len; lia|]. split; assumption.
Qed.

(** ** The size of the synthesised text *)

Lemma filter_all {A : Type} (l : list A) : filter (fun _ => true) l = l.
Proof. induction l as [|x l IH]; simpl; [reflexivity|now rewrite IH]. Qed.

Lemma for_each_len (body : Z -> rng -> list string * rng) (c : Z) :
  (forall i g, len (fst (body i g)) = c) ->
  forall indices g, len (fst (for_each body indices g)) = c * len indices.
Proof.
  intros Hbody indices g.
  rewrite <- (filter_all (fst (for_each body indices g))).
  apply for_each_count. intros i g'. rewrite filter_all. apply Hbody.
Qed.

(** The line budget sets the number of lines of the text only through
    the two counts: Python text has 10 lines, 25 per class and 9 per
    function; JavaScript text 2 lines and 23 per class, TypeScript 2
    and 26; Java, Go and Rust text has 33, 38 and 35 lines whatever
    the budget. *)
Theorem synthesized_line_counts (lines : Z) (code_type : string) (g : rng) :
  len (fst (code_of "python" lines code_type g))
  = 10 + 25 * Z.max 1 (lines / 50) + 9 * Z.max 1 (lines / 30)
  /\ len (fst (code_of "javascript" lines code_type g))
     = 2 + 23 * Z.max 1 (lines / 50)
  /\ len (fst (code_of "typescript" lines code_type g))
     = 2 + 26 * Z.max 1 (lines / 50)
  /\ len (fst (code_of "java" lines code_type g)) = 33
  /\ len (fst (code_of "go" lines code_type g)) = 38
  /\ len (fst (code_of "rust" lines code_type g)) = 35.
Proof.
  assert (Hjs : forall ts c,
             (forall i g', len (fst (js_class ts i g')) = c) ->
             len (fst (for_each (js_class ts) (range (Z.max 1 (lines / 50))) g))
             = c * Z.max 1 (lines / 50)).
  { intros ts c Hc. rewrite (for_each_len _ c Hc), len_range. lia. }
  split; [|split; [|split; [|repeat split]]].
  - change (code_of "python" lines code_type g) with (python_code lines code_type g).
    unfold python_code.
    pose proof (for_each_len python_class 25) as Hc.
    specialize (Hc ltac:(intros i g'; unfold python_class;
                         destruct (random_lt_tenth g') as [[|] ?]; reflexivity)
                   (range (Z.max 1 (lines / 50))) g).
    destruct (for_each python_class _ g) as [classes g1].
    pose proof (for_each_len python_function 9 ltac:(reflexivity)
                  (range (Z.max 1 (lines / 30))) g1) as Hf.
    destruct (for_each python_function _ g1) as [functions g2].
    cbn [fst] in *. rewrite len_range in *.
    rewrite !len_app. change (len (python_header code_type)) with 10. lia.
  - change (code_of "javascript" lines code_type g)
      with (js_code "javascript" lines code_type g).
    unfold js_code. change (String.eqb "javascript" "typescript") with false.
    specialize (Hjs false 23 ltac:(intros i g'; unfold js_class;
                                   destruct (random_lt_tenth g') as [[|] ?];
                                   reflexivity)).
    destruct (for_each (js_class false) _ g) as [classes g1].
    cbn [fst] in *. rewrite len_app, Hjs. reflexivity.
  - change (code_of "typescript" lines code_type g)
      with (js_code "typescript" lines code_type g).
    unfold js_code. change (String.eqb "typescript" "typescript") with true.
    specialize (Hjs true 26 ltac:(intros i g'; unfold js_class;
                                  destruct (random_lt_tenth g') as [[|] ?];
                                  reflexivity)).
    destruct (for_each (js_class true) _ g) as [classes g1].
    cbn [fst] in *. rewrite len_app, Hjs. reflexivity.
Qed.

(** ** Files and directories *)

Lemma lookup_store_same (p : string) (c : content) (l : list (string * content)) :
  lookup p (store p c l) = Some c.
Proof.
  induction l as [|[q d] l IH]; simpl.
  - now rewrite String.eqb_refl.
  - destruct (String.eqb_spec p q) as [->|Hne]; simpl.
    + now rewrite String.eqb_refl.
    + apply String.eqb_neq in Hne. now rewrite Hne.
Qed.

Lemma lookup_store_other (p q : string) (c : content)
  (l : list (string * content)) :
  q <> p -> lookup q (store p c l) = lookup q l.
Proof.
  intros Hne. induction l as [|[r d] l IH]; simpl.
  - apply String.eqb_neq in Hne. now rewrite Hne.
  - destruct (String.eqb_spec p r) as [->|Hpr]; simpl.
    + apply String.eqb_neq in Hne. now rewrite Hne.
    + now rewrite IH.
Qed.

Lemma store_keys_NoDup (p : string) (c : content) (l : list (string * content)) :
  NoDup (map fst l) -> NoDup (map fst (store p c l)).
Proof.
  induction l as [|[q d] l IH]; intros Hnd; simpl.
  - repeat constructor. intros [].
  - inversion Hnd as [|? ? Hq Hl]; subst.
    destruct (String.eqb_spec p q) as [->|Hne]; simpl.
    + constructor; assumption.
    + constructor; [|auto].
      intros Hin. apply Hq. clear - Hin Hne.
      induction l as [|[r e] l IH]; simpl in *.
      * destruct Hin as [H|[]]. congruence.
      * destruct (String.eqb p r); simpl in *; intuition.
Qed.

Lemma written_add_dirs (ps : list string) (f : filesystem) :
  written (fold_left add_dir ps f) = written f.
Proof.
  revert f. induction ps as [|p ps IH]; intros f; simpl; [reflexivity|].
  rewrite IH. unfold add_dir. destruct (is_dir f p); reflexivity.
Qed.

(** Writing and reading back: after [_write_file] has returned, the
    path holds the content just written, every other path holds what
    it held, no path is listed twice if none was, the parent of the
    path is a directory, and no directory is gone. *)
Theorem write_file_then_lookup (path : string) (c : content) (w w' : world) :
  _write_file path c w = Ok (tt, w') ->
  lookup path (written (fs w')) = Some c
  /\ (forall q, q <> path ->
                lookup q (written (fs w')) = lookup q (written (fs w)))
  /\ (NoDup (map fst (written (fs w))) -> NoDup (map fst (written (fs w'))))
  /\ is_dir (fs w') (parent path) = true
  /\ (forall d, is_dir (fs w) d = true -> is_dir (fs w') d = true)
  /\ rand w' = rand w.
Proof.
  unfold _write_file, bind, mkdir_parents. intros Hrun.
  destruct (is_file (fs w) (parent path)
            || existsb (is_file (fs w)) (ancestors (parent path)));
    [discriminate|].
  destruct (is_dir (fs w) (parent path) && negb true); [discriminate|].
  cbn [fs rand] in Hrun.
  set (made := fold_left add_dir (ancestors (parent path) ++ [parent path]) (fs w))
    in *.
  destruct (is_dir made path); [discriminate|].
  inversion Hrun; subst w'; clear Hrun. cbn [fs written rand].
  assert (Hdir : forall x p,
             is_dir {| dirs := dirs made; written := x |} p = is_dir made p)
    by reflexivity.
  assert (Hw : written made = written (fs w)) by apply written_add_dirs.
  split; [apply lookup_store_same|].
  split; [intros q Hq; rewrite lookup_store_other, Hw by exact Hq; reflexivity|].
  split; [intros Hnd; apply store_keys_NoDup; rewrite Hw; exact Hnd|].
  rewrite !Hdir. unfold made.
  split; [|split; [|reflexivity]].
  - rewrite is_dir_add_dirs, existsb_app. simpl.
    rewrite String.eqb_refl, !orb_true_r. reflexivity.
  - intros d Hd. rewrite ?Hdir. unfold made.
    rewrite is_dir_add_dirs, Hd. reflexivity.
Qed.

Lemma write_file_then_lookup_witness :
  let w' := {| fs := {| dirs := ["."; "docs"]%string;
                        written := [("docs/guide.md"%string, Static "guide")] |};
               rand := sample_rng |} in
  _write_file "docs/guide.md" (Static "guide") (fresh_repository sample_rng)
  = Ok (tt, w')
  /\ lookup "docs/guide.md" (written (fs w')) = Some (Static "guide")
  /\ is_dir (fs w') "docs" = true.
Proof.
  intros w'.
  assert (Hrun : _write_file "docs/guide.md" (Static "guide")
                   (fresh_repository sample_rng) = Ok (tt, w'))
    by reflexivity.
  split; [exact Hrun|].
  pose proof (write_file_then_lookup _ _ _ _ Hrun) as (Hl & _ & _ & Hd & _).
  split; [exact Hl|exact Hd].
Defined.

Lemma establishes_forget {A : Type} (c : M A) (ds fls : list string) :
  establishes c ds fls -> establishes c [] [].
Proof.
  intros Hc. apply (establishes_weaken c ds [] fls [] Hc); intros x [].
Qed.

(** Any method body built from the statements of the source removes
    nothing. *)
Ltac quiet :=
  lazymatch goal with
  | |- establishes (bind (extension _) _) _ _ =>
      apply establishes_with_extension; quiet
  | |- establishes (bind _ _) _ _ =>
      apply establishes_then; [quiet|intros ?; quiet]
  | |- establishes (for_ _ _) _ _ => apply establishes_for; intros ?; quiet
  | |- establishes (if ?b then _ else _) _ _ => destruct b; quiet
  | |- establishes (ret _) _ _ => apply establishes_ret
  | |- establishes (draw _) _ _ => apply establishes_draw
  | |- _ => solve [eapply establishes_forget; auto with fs_steps]
  end.

Ltac open_structure :=
  unfold _generate_web_structure, _generate_microservice_structure,
    _generate_cli_structure, _generate_library_structure,
    _generate_mobile_structure, _generate_game_structure,
    _generate_data_structure, _generate_enterprise_structure,
    _create_web_files, _create_config_files, _create_service_files,
    _create_infrastructure_files, _create_cli_files, _create_library_files,
    _create_ios_files, _create_android_files, _create_game_files,
    _create_data_files, _create_enterprise_files;
  cbv zeta.

(** The cases of the dispatch of [_generate_structure], in its order. *)
Ltac by_archetype self :=
  destruct (contains "web" (template self) || contains "framework" (template self));
  [|destruct (contains "microservice" (category self));
    [|destruct (contains "cli" (category self));
      [|destruct (contains "lib" (category self) || contains "lib" (template self));
        [|destruct (contains "mobile" (category self));
          [|destruct (contains "game" (category self));
            [|destruct (contains "data" (category self))]]]]]].

(** A structure function that returns has made its first directory. *)
Lemma structure_makes_first_directory (self : RepoGenerator) :
  establishes (_generate_structure self) [first_directory self] [].
Proof.
  unfold _generate_structure, first_directory, dispatch.
  repeat match goal with
         | |- establishes (if ?b then _ else _) _ _ => destruct b
         end;
    open_structure;
    try (destruct (contains "ios" (category self)));
    (apply establishes_then_dir; [solve [auto with fs_steps]|intros _; quiet]).
Qed.

Lemma mkdir_existing (p : string) {B : Type} (k : unit -> M B) (w : world) :
  is_dir (fs w) p = true -> bind (mkdir p) k w = Raise FileExistsError.
Proof. intros Hp. unfold bind, mkdir. rewrite Hp. reflexivity. Qed.

(** Structure generation cannot be repeated: where the first directory
    of the archetype exists, the structure function raises
    [FileExistsError]; so it does in the directory that an earlier run
    of it has left. *)
Theorem second_structure_run_raises (self : RepoGenerator) (w w' : world) :
  (is_dir (fs w) (first_directory self) = true ->
   _generate_structure self w = Raise FileExistsError)
  /\ (_generate_structure self w = Ok (tt, w') ->
      _generate_structure self w' = Raise FileExistsError).
Proof.
  assert (Hfirst : forall v,
             is_dir (fs v) (first_directory self) = true ->
             _generate_structure self v = Raise FileExistsError).
  { intros v. unfold _generate_structure, first_directory, dispatch.
    by_archetype self; open_structure;
      try (destruct (contains "ios" (category self)));
      intros Hd; apply mkdir_existing; exact Hd. }
  split; [apply Hfirst|].
  intros Hrun. apply Hfirst.
  destruct (structure_makes_first_directory self w tt w' Hrun) as (_ & Hd & _).
  inversion Hd; subst. assumption.
Qed.

Lemma second_structure_run_raises_witness :
  _generate_structure cli_self (fresh_repository sample_rng) = Ok (tt, cli_world)
  /\ _generate_structure cli_self cli_world = Raise FileExistsError.
Proof.
  assert (Hrun : _generate_structure cli_self (fresh_repository sample_rng)
                 = Ok (tt, cli_world)) by (vm_compute; reflexivity).
  split; [exact Hrun|].
  apply (proj2 (second_structure_run_raises cli_self
                  (fresh_repository sample_rng) cli_world)).
  exact Hrun.
Defined.

(** ** More on the orchestrator *)

Lemma attempts_len (next : Z) (sl : list (string * string)) :
  len (attempts next sl) = len sl.
Proof.
  revert next. induction sl as [|[c t] sl IH]; intros next; [reflexivity|].
  simpl. unfold len in *. simpl length. specialize (IH (next + 1)). lia.
Qed.

Lemma filter_all_true {A : Type} (f : A -> bool) (l : list A) :
  (forall x, f x = true) -> filter f l = l.
Proof.
  intros Hf. induction l as [|x l IH]; simpl; [reflexivity|].
  now rewrite Hf, IH.
Qed.

Lemma error_lines_none (outcome : attempt -> option exn) (l : list attempt) :
  (forall a, outcome a = None) -> error_lines outcome l = [].
Proof.
  intros Hnone. unfold error_lines.
  induction l as [|a l IH]; [reflexivity|]. simpl. rewrite Hnone. exact IH.
Qed.

(** [main] never counts more than 1000 repositories; and when no build
    raises it stops right after the thousandth: the identities 5001 to
    6000 are used, for the first 1000 slots of the table, which end in
    the middle of [cli_tools]; no repository of the categories after it
    (the mobile ones, the games, the data pipelines) is built, and
    nothing is printed as an error. *)
Theorem full_run_stops_at_thousand (outcome : attempt -> option exn)
  (base_path : string) :
  exists st,
    Main.main (list attempt) (recording_build outcome) base_path [] = Ok st
    /\ Main.total_repos st <= 1000
    /\ ((forall a, outcome a = None) ->
        Main.total_repos st = 1000
        /\ Main.repo_id st = 6001
        /\ Main.outside st = attempts 5001 (firstn 1000 (slots REPO_CATEGORIES))
        /\ printed_errors (Main.stdout st) = []
        /\ Forall (fun a =>
                     In (attempt_category a)
                       (map fst (firstn 16 REPO_CATEGORIES)))
             (Main.outside st)
        /\ len (filter (fun a => String.eqb (attempt_category a) "cli_tools")
                  (Main.outside st)) = 50).
Proof.
  unfold Main.main, Main.main_over.
  match goal with
  | |- context [Main.for_categories _ _ _ ?s] => set (st0 := s)
  end.
  destruct (for_categories_spec outcome REPO_CATEGORIES) with (st := st0)
    as (st' & n & Hrun & Hn & (Ho & Hi & Ht & He) & Hle & Hall).
  { repeat constructor; discriminate. }
  { subst st0. simpl. lia. }
  rewrite Hrun. eexists. split; [reflexivity|].
  subst st0.
  cbn [Main.print Main.repo_id Main.total_repos Main.outside Main.stdout] in *.
  rewrite app_nil_l in Ho. split; [exact Hle|].
  intros Hnone.
  assert (Hslots : length (slots REPO_CATEGORIES) = 1250%nat)
    by (vm_compute; reflexivity).
  assert (Hcalls : len (attempts 5001 (firstn n (slots REPO_CATEGORIES)))
                   = Z.of_nat n).
  { rewrite attempts_len. unfold len. rewrite length_firstn. lia. }
  rewrite filter_all_true in Ht
    by (intros a; unfold succeeded; now rewrite Hnone).
  rewrite Hcalls in Ht.
  assert (Hn1000 : n = 1000%nat).
  { destruct (Z.lt_ge_cases (Main.total_repos st') 1000) as [Hlt|Hge].
    - specialize (Hall Hlt). lia.
    - lia. }
  subst n. rewrite Ho.
  split; [lia|]. split.
  { rewrite Hi. unfold len. rewrite length_firstn. lia. }
  split; [reflexivity|]. split.
  { unfold printed_errors in *.
    rewrite !filter_app, He, (error_lines_none outcome _ Hnone). reflexivity. }
  split.
  - apply Forall_forall. intros a Hin.
    apply existsb_eqb_In.
    assert (Hall16 : forallb
                       (fun a => existsb (String.eqb (attempt_category a))
                                   (map fst (firstn 16 REPO_CATEGORIES)))
                       (attempts 5001 (firstn 1000 (slots REPO_CATEGORIES)))
                     = true) by (vm_compute; reflexivity).
    rewrite forallb_forall in Hall16. apply Hall16, Hin.
  - vm_compute. reflexivity.
Qed.

Lemma full_run_stops_at_thousand_witness :
  exists st,
    Main.main (list attempt) (recording_build (fun _ => None)) "/srv/repos" []
    = Ok st
    /\ Main.total_repos st = 1000
    /\ Main.repo_id st = 6001.
Proof.
  destruct (full_run_stops_at_thousand (fun _ => None) "/srv/repos")
    as (st & Hrun & _ & Hfull).
  exists st. split; [exact Hrun|].
  destruct (Hfull (fun _ => eq_refl)) as (Ht & Hi & _).
  split; assumption.
Defined.

(** ** The service mesh *)

Lemma distinct_NoDup (l : list string) : distinct l = true -> NoDup l.
Proof.
  induction l as [|x l IH]; simpl; [constructor|].
  intros H. apply andb_prop in H as [Hx Hl].
  constructor; [|auto].
  apply existsb_eqb_not_In. now apply negb_true_iff.
Qed.

(** The services of a mesh are 10, 50 or 100 by the category, their
    directories are named by [service_name_of], and for each of the
    three sizes the names are all different, so that making the
    directory of one service never meets the directory of another; the
    first ten are the bare domain names and the later ones carry the
    number of the round. *)
Theorem service_names_are_distinct (self : RepoGenerator) :
  _generate_microservice_structure self
  = bind (mkdir "api-gateway")
      (fun _ =>
         bind (_create_service_files self "api-gateway" "gateway")
           (fun _ =>
              bind (for_ (range (Z.min (num_services_of (category self)) 100))
                      (fun i =>
                         bind (mkdir_parents false
                                 ("services/" ++ service_name_of i))
                           (fun _ =>
                              _create_service_files self
                                ("services/" ++ service_name_of i)
                                (service_name_of i))))
                (fun _ =>
                   bind (mkdir "shared")
                     (fun _ =>
                        bind (mkdir "shared/models")
                          (fun _ =>
                             bind (mkdir "shared/utils")
                               (fun _ =>
                                  bind (mkdir "infrastructure")
                                    (fun _ => _create_infrastructure_files)))))))
  /\ In (num_services_of (category self)) [10; 50; 100]
  /\ NoDup (map service_name_of (range (Z.min (num_services_of (category self)) 100)))
  /\ map service_name_of (range 10) = services
  /\ service_name_of 10 = "auth-1"%string
  /\ service_name_of 99 = "recommendation-9"%string.
Proof.
  split; [reflexivity|].
  unfold num_services_of.
  destruct (contains "small" (category self));
    [|destruct (contains "medium" (category self))];
    (split; [simpl; auto|]);
    (split; [apply distinct_NoDup; vm_compute; reflexivity|]);
    repeat split.
Qed.

(** ** Structure generation in a new repository *)

Lemma flat_zeros (n : nat) : flat (zeros n).
Proof.
  induction n as [|n IH]; [reflexivity|].
  simpl. apply flat_cons. split; [discriminate|exact IH].
Qed.

Lemma parent_below (dir name : string) :
  flat name -> parent (dir ++ String "/" name) = dir.
Proof. intros Hn. unfold parent. now rewrite (dirname_below dir name Hn). Qed.

Lemma reachable_spec (allowed : list string) (dir : string) :
  reachable allowed dir = true ->
  In dir allowed /\ Forall (fun a => In a allowed) (ancestors dir).
Proof.
  unfold reachable. rewrite forallb_app. intros H.
  apply andb_prop in H as [Ha Hd]. split.
  - simpl in Hd. rewrite andb_true_r in Hd. now apply existsb_eqb_In.
  - apply Forall_forall. intros a Hin.
    rewrite forallb_forall in Ha. apply existsb_eqb_In, Ha, Hin.
Qed.

Section StaysFacts.

Variable allowed : list string.
Variable Q : string -> Prop.

Lemma within_not_file (f : filesystem) (d : string) :
  within allowed Q f -> In d allowed -> is_file f d = false.
Proof.
  intros [_ Hw] Hd. unfold is_file.
  apply not_true_is_false. intros Hex.
  apply existsb_exists in Hex as (e & Hin & Heq).
  apply String.eqb_eq in Heq. rewrite Forall_forall in Hw.
  destruct (Hw e Hin) as [Hnot _]. apply Hnot. rewrite <- Heq. exact Hd.
Qed.

Lemma within_not_dir (f : filesystem) (p : string) :
  within allowed Q f -> ~ In p allowed -> is_dir f p = false.
Proof.
  intros [Hd _] Hp. apply not_true_is_false. intros H. apply Hp, Hd, H.
Qed.

Lemma within_add_dirs (f : filesystem) (ps : list string) :
  within allowed Q f -> Forall (fun a => In a allowed) ps ->
  within allowed Q (fold_left add_dir ps f).
Proof.
  intros [Hd Hw] Hps. split.
  - intros d. rewrite is_dir_add_dirs. intros H.
    apply orb_prop in H as [H|H]; [auto|].
    apply existsb_eqb_In in H. rewrite Forall_forall in Hps. auto.
  - rewrite written_add_dirs. exact Hw.
Qed.

Lemma stays_ret {A : Type} (a : A) : stays allowed Q (ret a).
Proof. intros w Hw. exists a, w. split; [reflexivity|exact Hw]. Qed.

Lemma stays_ret_bind {A B : Type} (a : A) (k : A -> M B) :
  stays allowed Q (k a) -> stays allowed Q (bind (ret a) k).
Proof. intros Hk w Hw. exact (Hk w Hw). Qed.

Lemma stays_bind {A B : Type} (c : M A) (k : A -> M B) :
  stays allowed Q c -> (forall a, stays allowed Q (k a)) ->
  stays allowed Q (bind c k).
Proof.
  intros Hc Hk w Hw. destruct (Hc w Hw) as (a & w1 & H1 & Hw1).
  destruct (Hk a w1 Hw1) as (b & w2 & H2 & Hw2).
  exists b, w2. unfold bind. rewrite H1. split; assumption.
Qed.

Lemma stays_draw {A : Type} (f : rng -> A * rng) : stays allowed Q (draw f).
Proof.
  intros w Hw. unfold draw. destruct (f (rand w)) as [a g].
  exists a. eexists. split; [reflexivity|exact Hw].
Qed.

Lemma stays_for {A : Type} (l : list A) (body : A -> M unit) :
  (forall x, stays allowed Q (body x)) -> stays allowed Q (for_ l body).
Proof.
  intros Hb. induction l as [|x l IH]; simpl.
  - apply stays_ret.
  - apply stays_bind; [apply Hb|intros _; exact IH].
Qed.

(** [mkdir(parents=True, exist_ok=True)] of an allowed directory. *)
Lemma stays_mkdir_parents (dir : string) :
  reachable allowed dir = true ->
  stays allowed Q (mkdir_parents true dir).
Proof.
  intros Hr w Hw. destruct (reachable_spec allowed dir Hr) as [Hdir Hanc].
  unfold mkdir_parents.
  rewrite (within_not_file (fs w) dir Hw Hdir).
  assert (Hnone : existsb (is_file (fs w)) (ancestors dir) = false).
  { apply not_true_is_false. intros Hex.
    apply existsb_exists in Hex as (a & Hin & Hfile).
    rewrite Forall_forall in Hanc.
    rewrite (within_not_file (fs w) a Hw (Hanc a Hin)) in Hfile. discriminate. }
  rewrite Hnone, andb_false_r. cbn [orb].
  eexists. eexists. split; [reflexivity|]. cbn [fs].
  apply within_add_dirs; [exact Hw|].
  apply Forall_app. split; [exact Hanc|]. constructor; [exact Hdir|constructor].
Qed.

(** Writing a file whose directory is allowed and whose own name is
    not the name of a directory. *)
Lemma stays_write_file (path : string) (c : content) :
  reachable allowed (parent path) = true ->
  existsb (String.eqb path) allowed = false ->
  Q path ->
  stays allowed Q (_write_file path c).
Proof.
  intros Hr Hpath HQ w Hw.
  destruct (stays_mkdir_parents (parent path) Hr w Hw) as ([] & w1 & H1 & Hw1).
  unfold _write_file, bind. rewrite H1.
  apply existsb_eqb_not_In in Hpath.
  rewrite (within_not_dir (fs w1) path Hw1 Hpath).
  eexists. eexists. split; [reflexivity|]. cbn [fs].
  destruct Hw1 as [Hd Hwr]. split; [exact Hd|]. cbn [written].
  clear - Hwr Hpath HQ. induction (written (fs w1)) as [|[q d] l IH]; simpl.
  - constructor; [split; assumption|constructor].
  - inversion Hwr; subst. destruct (String.eqb path q).
    + constructor; [split; assumption|assumption].
    + constructor; [assumption|auto].
Qed.

Variable self : RepoGenerator.

Lemma stays_write_code (path : string) (lines : Z) (code_type : string) :
  reachable allowed (parent path) = true ->
  existsb (String.eqb path) allowed = false ->
  Q path ->
  stays allowed Q (write_code self path lines code_type).
Proof.
  intros Hr Hpath HQ. unfold write_code, _write_code_file.
  apply stays_bind; [apply stays_draw|].
  intros text. apply stays_write_file; assumption.
Qed.

Lemma stays_write_code_files (lo hi : Z) (path : Z -> string)
  (lines_lo lines_hi : Z) (code_type : string) :
  (forall i, reachable allowed (parent (path i)) = true
             /\ existsb (String.eqb (path i)) allowed = false
             /\ Q (path i)) ->
  stays allowed Q
    (write_code_files self lo hi path lines_lo lines_hi code_type).
Proof.
  intros Hp. unfold write_code_files.
  apply stays_bind; [apply stays_draw|]. intros n.
  apply stays_for. intros i.
  apply stays_bind; [apply stays_draw|]. intros lines.
  destruct (Hp i) as (Hr & Hpath & HQ). apply stays_write_code; assumption.
Qed.

End StaysFacts.

(** The three conditions on a file [dir/name] with a flat [name], for
    files that must lie below a directory. *)
Lemma below_conditions (allowed : list string) (dir name : string) :
  flat name ->
  reachable allowed dir = true ->
  existsb (String.eqb (dir ++ String "/" name)) allowed = false ->
  reachable allowed (parent (dir ++ String "/" name)) = true
  /\ existsb (String.eqb (dir ++ String "/" name)) allowed = false
  /\ ~ flat (dir ++ String "/" name).
Proof.
  intros Hn Hr Hp. rewrite (parent_below dir name Hn).
  split; [exact Hr|]. split; [exact Hp|].
  unfold flat. rewrite (dirname_below dir name Hn). discriminate.
Qed.

Lemma below_conditions_any (allowed : list string) (dir name : string) :
  flat name ->
  reachable allowed dir = true ->
  existsb (String.eqb (dir ++ String "/" name)) allowed = false ->
  reachable allowed (parent (dir ++ String "/" name)) = true
  /\ existsb (String.eqb (dir ++ String "/" name)) allowed = false
  /\ True.
Proof.
  intros Hn Hr Hp. rewrite (parent_below dir name Hn). auto.
Qed.

Section BelowFacts.

Variable allowed : list string.
Variable Q : string -> Prop.
Hypothesis nested_ok : forall p, ~ flat p -> Q p.
Variable self : RepoGenerator.

Lemma stays_code_below (dir name : string) (lines : Z) (code_type : string) :
  flat name ->
  reachable allowed dir = true ->
  existsb (String.eqb (dir ++ String "/" name)) allowed = false ->
  stays allowed Q (write_code self (dir ++ String "/" name) lines code_type).
Proof.
  intros Hn Hr Hp.
  destruct (below_conditions allowed dir name Hn Hr Hp) as (H1 & H2 & H3).
  apply stays_write_code; auto.
Qed.

Lemma stays_codes_below (lo hi : Z) (dir : string) (name : Z -> string)
  (lines_lo lines_hi : Z) (code_type : string) :
  (forall i, flat (name i)) ->
  reachable allowed dir = true ->
  (forall i, existsb (String.eqb (dir ++ String "/" (name i))) allowed = false) ->
  stays allowed Q
    (write_code_files self lo hi (fun i => (dir ++ String "/" (name i))%string)
       lines_lo lines_hi code_type).
Proof.
  intros Hn Hr Hp. apply stays_write_code_files. intros i.
  destruct (below_conditions allowed dir (name i) (Hn i) Hr (Hp i))
    as (H1 & H2 & H3).
  auto.
Qed.

Lemma stays_file_below (dir name : string) (c : content) :
  flat name ->
  reachable allowed dir = true ->
  existsb (String.eqb (dir ++ String "/" name)) allowed = false ->
  stays allowed Q (_write_file (dir ++ String "/" name) c).
Proof.
  intros Hn Hr Hp.
  destruct (below_conditions allowed dir name Hn Hr Hp) as (H1 & H2 & H3).
  apply stays_write_file; auto.
Qed.

End BelowFacts.

Lemma within_initial (allowed : list string) (Q : string -> Prop)
  (ds : list string) :
  forallb (fun d => existsb (String.eqb d) allowed) ds = true ->
  within allowed Q {| dirs := ds; written := [] |}.
Proof.
  intros Hall. split; [|constructor].
  intros d Hd. unfold is_dir in Hd. cbn [dirs] in Hd.
  apply existsb_eqb_In in Hd. rewrite forallb_forall in Hall.
  apply existsb_eqb_In, Hall, Hd.
Qed.

(** A name made of literal text, numbers and the extension is flat. *)
Ltac flat_name :=
  repeat first
    [ assumption | apply flat_str | apply flat_zeros | reflexivity
    | apply flat_app | progress unfold zero_padded ].

Ltac nested_rule := intros ? ?; first [exact I|assumption].

Ltac code_below dir name :=
  lazymatch goal with
  | |- stays ?al ?Q _ =>
      apply (stays_code_below al Q ltac:(nested_rule) _ dir name);
      [flat_name|reflexivity|reflexivity]
  end.

Ltac codes_below dir name :=
  lazymatch goal with
  | |- stays ?al ?Q _ =>
      apply (stays_codes_below al Q ltac:(nested_rule) _ _ _ dir name);
      [intros ?; flat_name|reflexivity|intros ?; reflexivity]
  end.

Lemma web_files_stay (self : RepoGenerator) :
  lookup (language self) LANGUAGES <> None ->
  stays
    ([ "."; "src"; "src/components"; "src/pages"; "src/utils"; "src/api";
       "src/models"; "src/services"; "tests"; "tests/unit";
       "tests/integration"; "tests/e2e"; "config"; "public"; "static";
       ".github"; ".github/workflows" ])%string
    (fun _ => True) (_create_web_files self).
Proof.
  intros Hlang. destruct (extension_configured self Hlang) as [Hext Hflat].
  unfold _create_web_files. rewrite Hext. apply stays_ret_bind.
  apply stays_bind; [code_below "src"%string ("app" ++ ext_of self)%string|intros _].
  apply stays_bind; [code_below "src"%string ("index" ++ ext_of self)%string|intros _].
  apply stays_bind;
    [codes_below "src/components"%string
       (fun i => "Component" ++ str i ++ ext_of self)%string|intros _].
  apply stays_bind;
    [codes_below "src/pages"%string
       (fun i => "Page" ++ str i ++ ext_of self)%string|intros _].
  apply stays_bind;
    [codes_below "src/utils"%string
       (fun i => "util" ++ str i ++ ext_of self)%string|intros _].
  apply stays_bind;
    [codes_below "src/api"%string
       (fun i => "api" ++ str i ++ ext_of self)%string|intros _].
  apply stays_bind;
    [codes_below "tests/unit"%string
       (fun i => "test" ++ str i ++ ext_of self)%string|intros _].
  unfold _create_config_files.
  apply stays_bind.
  { repeat match goal with
           | |- stays _ _ (if ?b then _ else _) => destruct b
           end;
      repeat first
        [ apply stays_ret
        | apply stays_write_file; [reflexivity|reflexivity|exact I]
        | apply stays_bind; [|intros _] ]. }
  intros _.
  apply stays_bind; [apply stays_mkdir_parents; reflexivity|intros _].
  repeat first
    [ apply stays_write_file; [reflexivity|reflexivity|exact I]
    | apply stays_bind; [|intros _] ].
Qed.

Lemma cli_files_stay (self : RepoGenerator) :
  lookup (language self) LANGUAGES <> None ->
  stays ([ "."; "cmd"; "internal"; "pkg"; "tests" ])%string
    (fun p => ~ flat p) (_create_cli_files self).
Proof.
  intros Hlang. destruct (extension_configured self Hlang) as [Hext Hflat].
  unfold _create_cli_files. rewrite Hext. apply stays_ret_bind.
  apply stays_bind; [code_below "cmd"%string ("main" ++ ext_of self)%string|intros _].
  apply stays_bind;
    [code_below "internal"%string ("commands" ++ ext_of self)%string|intros _].
  apply stays_bind;
    [code_below "internal"%string ("config" ++ ext_of self)%string|intros _].
  apply stays_bind; [code_below "pkg"%string ("utils" ++ ext_of self)%string|intros _].
  codes_below "tests"%string (fun i => "test" ++ str i ++ ext_of self)%string.
Qed.

Lemma library_files_stay (self : RepoGenerator) :
  lookup (language self) LANGUAGES <> None ->
  stays ([ "."; "src"; "tests"; "examples"; "docs"; "benchmarks" ])%string
    (fun p => ~ flat p) (_create_library_files self).
Proof.
  intros Hlang. destruct (extension_configured self Hlang) as [Hext Hflat].
  unfold _create_library_files. rewrite Hext. apply stays_ret_bind.
  apply stays_bind; [code_below "src"%string ("core" ++ ext_of self)%string|intros _].
  apply stays_bind;
    [codes_below "src"%string (fun i => "module" ++ str i ++ ext_of self)%string
    |intros _].
  apply stays_bind;
    [codes_below "tests"%string (fun i => "test" ++ str i ++ ext_of self)%string
    |intros _].
  codes_below "examples"%string (fun i => "example" ++ str i ++ ext_of self)%string.
Qed.

Lemma ios_files_stay (self : RepoGenerator) :
  stays ([ "."; "Sources"; "Tests"; "Resources" ])%string
    (fun p => ~ flat p) (_create_ios_files self).
Proof.
  unfold _create_ios_files.
  apply stays_bind;
    [codes_below "Sources"%string (fun i => "View" ++ str i ++ ".swift")%string
    |intros _].
  codes_below "Tests"%string (fun i => "Test" ++ str i ++ ".swift")%string.
Qed.

Lemma android_files_stay (self : RepoGenerator) :
  stays
    ([ "."; "app"; "app/src"; "app/src/main"; "app/src/main/java";
       "app/src/test"; "app/src/test/java"; "app/src/main/res";
       "app/src/main/java/com"; "app/src/main/java/com/example";
       "app/src/main/java/com/example/app"; "app/src/test/java/com";
       "app/src/test/java/com/example"; "app/src/test/java/com/example/app" ])%string
    (fun p => ~ flat p) (_create_android_files self).
Proof.
  unfold _create_android_files. cbv zeta.
  apply stays_bind;
    [codes_below "app/src/main/java/com/example/app"%string
       (fun i => "Activity" ++ str i ++ ".kt")%string
    |intros _].
  codes_below "app/src/test/java/com/example/app"%string
    (fun i => "Test" ++ str i ++ ".kt")%string.
Qed.

Lemma game_files_stay (self : RepoGenerator) :
  stays
    ([ "."; "Assets"; "Assets/Scripts"; "Assets/Scenes"; "Assets/Prefabs";
       "Assets/Materials"; "Tests" ])%string
    (fun p => ~ flat p) (_create_game_files self).
Proof.
  unfold _create_game_files.
  codes_below "Assets/Scripts"%string (fun i => "Script" ++ str i ++ ".cs")%string.
Qed.

Lemma data_files_stay (self : RepoGenerator) :
  lookup (language self) LANGUAGES <> None ->
  stays
    ([ "."; "pipelines"; "transformations"; "models"; "schemas"; "tests";
       "config" ])%string
    (fun p => ~ flat p) (_create_data_files self).
Proof.
  intros Hlang. destruct (extension_configured self Hlang) as [Hext Hflat].
  unfold _create_data_files. rewrite Hext. apply stays_ret_bind.
  apply stays_bind;
    [codes_below "pipelines"%string
       (fun i => "pipeline" ++ str i ++ ext_of self)%string
    |intros _].
  codes_below "transformations"%string
    (fun i => "transform" ++ str i ++ ext_of self)%string.
Qed.

Lemma enterprise_files_stay (self : RepoGenerator) :
  lookup (language self) LANGUAGES <> None ->
  stays
    ([ "."; "backend"; "backend/src"; "backend/tests"; "frontend";
       "frontend/src"; "frontend/tests"; "database"; "database/migrations";
       "docs"; "infrastructure" ])%string
    (fun p => ~ flat p) (_create_enterprise_files self).
Proof.
  intros Hlang. destruct (extension_configured self Hlang) as [Hext Hflat].
  unfold _create_enterprise_files. rewrite Hext. apply stays_ret_bind.
  apply stays_bind;
    [codes_below "backend/src"%string
       (fun i => "module" ++ str i ++ ext_of self)%string
    |intros _].
  apply stays_bind;
    [codes_below "frontend/src"%string
       (fun i => "component" ++ str i ++ ext_of self)%string
    |intros _].
  apply stays_bind; [apply stays_draw|intros n].
  apply stays_for. intros i.
  apply (stays_file_below _ (fun p => ~ flat p) ltac:(nested_rule)
           "database/migrations"%string
           ("migration" ++ zero_padded 3 i ++ ".sql")%string);
    [flat_name|reflexivity|reflexivity].
Qed.

Lemma within_files (allowed : list string) (Q : string -> Prop)
  (f : filesystem) (p : string) :
  within allowed Q f -> is_file f p = true -> ~ In p allowed /\ Q p.
Proof.
  intros [_ Hw] Hp. unfold is_file in Hp.
  apply existsb_exists in Hp as (e & Hin & Heq).
  apply String.eqb_eq in Heq. subst p.
  rewrite Forall_forall in Hw. apply Hw, Hin.
Qed.

(** The end of a structure function: its file creator, run in the
    directories it has just made. *)
Ltac run_files lemma g made :=
  destruct (lemma {| fs := {| dirs := "."%string :: made; written := [] |};
                     rand := g |})
    as ([] & w' & Hrun & Hw');
  [apply within_initial; reflexivity|];
  exists w'; split; [exact Hrun|];
  split; [apply Hw'|intros p Hp; apply (within_files _ _ _ p Hw' Hp)].

(** Structure generation in a repository that was just created, for
    every archetype but the service mesh. *)
Lemma new_repository_structure (self : RepoGenerator) (g : rng) :
  lookup (language self) LANGUAGES <> None ->
  archetype self <> ServiceMesh ->
  exists w',
    _generate_structure self (fresh_repository g) = Ok (tt, w')
    /\ (forall d, is_dir (fs w') d = true -> In d (repository_directories self))
    /\ (forall p, is_file (fs w') p = true ->
                  ~ In p (repository_directories self) /\ file_rule self p).
Proof.
  intros Hlang Hmesh.
  unfold archetype, _generate_structure, repository_directories,
    made_directories, file_directories, file_rule, dispatch in *.
  by_archetype self.
  - run_files (web_files_stay self Hlang) g
      ([ "src"; "src/components"; "src/pages"; "src/utils"; "src/api";
         "src/models"; "src/services"; "tests"; "tests/unit";
         "tests/integration"; "tests/e2e"; "config"; "public"; "static" ])%string.
  - congruence.
  - run_files (cli_files_stay self Hlang) g
      ([ "cmd"; "internal"; "pkg"; "tests" ])%string.
  - run_files (library_files_stay self Hlang) g
      ([ "src"; "tests"; "examples"; "docs"; "benchmarks" ])%string.
  - unfold _generate_mobile_structure.
    destruct (contains "ios" (category self)).
    + run_files (ios_files_stay self) g
        ([ "Sources"; "Tests"; "Resources" ])%string.
    + run_files (android_files_stay self) g
        ([ "app"; "app/src"; "app/src/main"; "app/src/main/java";
           "app/src/test"; "app/src/test/java"; "app/src/main/res" ])%string.
  - run_files (game_files_stay self) g
      ([ "Assets"; "Assets/Scripts"; "Assets/Scenes"; "Assets/Prefabs";
         "Assets/Materials"; "Tests" ])%string.
  - run_files (data_files_stay self Hlang) g
      ([ "pipelines"; "transformations"; "models"; "schemas"; "tests";
         "config" ])%string.
  - run_files (enterprise_files_stay self Hlang) g
      ([ "backend"; "backend/src"; "backend/tests"; "frontend";
         "frontend/src"; "frontend/tests"; "database"; "database/migrations";
         "docs"; "infrastructure" ])%string.
Qed.

(** In a repository that was just created, structure generation
    returns for every archetype but the service mesh, whatever is
    drawn; it leaves the first directory of the archetype and only
    directories of the archetype, no file has the name of one of them,
    and outside the web archetype every file lies below a directory. *)
Theorem structure_returns_in_new_repository (self : RepoGenerator) (g : rng) :
  lookup (language self) LANGUAGES <> None ->
  archetype self <> ServiceMesh ->
  exists w',
    _generate_structure self (fresh_repository g) = Ok (tt, w')
    /\ is_dir (fs w') (first_directory self) = true
    /\ (forall d, is_dir (fs w') d = true -> In d (repository_directories self))
    /\ (forall p, is_file (fs w') p = true ->
                  ~ In p (repository_directories self) /\ file_rule self p).
Proof.
  intros Hlang Hmesh.
  destruct (new_repository_structure self g Hlang Hmesh)
    as (w' & Hrun & Hdirs & Hfiles).
  exists w'. split; [exact Hrun|]. split; [|split; assumption].
  destruct (structure_makes_first_directory self _ tt w' Hrun) as (_ & Hd & _).
  inversion Hd; subst. assumption.
Qed.

Lemma structure_returns_in_new_repository_witness :
  exists w',
    _generate_structure java_self (fresh_repository sample_rng) = Ok (tt, w')
    /\ is_dir (fs w') (first_directory java_self) = true
    /\ (forall d, is_dir (fs w') d = true ->
                  In d (repository_directories java_self))
    /\ (forall p, is_file (fs w') p = true ->
                  ~ In p (repository_directories java_self)
                  /\ file_rule java_self p).
Proof.
  apply (structure_returns_in_new_repository java_self sample_rng).
  - vm_compute. discriminate.
  - vm_compute. discriminate.
Defined.

Lemma file_rule_nested (self : RepoGenerator) (p : string) :
  archetype self <> WebApp -> archetype self <> ServiceMesh ->
  file_rule self p -> ~ flat p.
Proof.
  unfold archetype, file_rule, dispatch.
  by_archetype self; intros Hweb Hmesh; try congruence; auto.
Qed.

Lemma no_directory_of_that_name (self : RepoGenerator) (p : string) :
  flat p -> p <> "."%string ->
  existsb (String.eqb p)
    ([ "src"; "tests"; "config"; "public"; "static"; ".github"; "cmd";
       "internal"; "pkg"; "examples"; "docs"; "benchmarks"; "Sources";
       "Tests"; "Resources"; "app"; "Assets"; "pipelines"; "transformations";
       "models"; "schemas"; "backend"; "frontend"; "database";
       "infrastructure" ])%string = false ->
  ~ In p (repository_directories self).
Proof.
  intros Hflat Hdot Hnot Hin.
  assert (Hall : forall d, In d (repository_directories self) ->
                           d = "."%string
                           \/ ~ flat d
                           \/ In d ([ "src"; "tests"; "config"; "public";
                                      "static"; ".github"; "cmd"; "internal";
                                      "pkg"; "examples"; "docs"; "benchmarks";
                                      "Sources"; "Tests"; "Resources"; "app";
                                      "Assets"; "pipelines"; "transformations";
                                      "models"; "schemas"; "backend";
                                      "frontend"; "database";
                                      "infrastructure" ])%string).
  { unfold repository_directories, made_directories, file_directories, dispatch.
    by_archetype self; try destruct (contains "ios" (category self));
      intros d Hd; simpl in Hd;
      repeat (destruct Hd as [Hd|Hd];
              [subst d;
               first [ left; reflexivity
                     | right; right; simpl; tauto
                     | right; left; discriminate ]|]);
      contradiction. }
  destruct (Hall p Hin) as [H|[H|H]]; [contradiction|contradiction|].
  apply existsb_eqb_In in H. congruence.
Qed.

(** Outside the web archetype (and the service mesh) the generator
    writes neither [.gitignore] nor [README.md], the two files of the
    initial commit: in a repository that was just created the replay
    stages no file for the initial commit, and calls [git commit] for
    it with nothing staged. *)
Theorem initial_commit_stages_nothing (self : RepoGenerator) (g : rng) :
  lookup (language self) LANGUAGES <> None ->
  archetype self <> ServiceMesh ->
  archetype self <> WebApp ->
  exists w',
    _generate_structure self (fresh_repository g) = Ok (tt, w')
    /\ path_exists (fs w') ".gitignore" = false
    /\ path_exists (fs w') "README.md" = false
    /\ forall start who,
         replay_commit (fs w') (initial_commit start who)
         = [ GitConfig "user.name" (fst who);
             GitConfig "user.email" (snd who);
             GitCommit "Initial commit" start start ].
Proof.
  intros Hlang Hmesh Hweb.
  destruct (new_repository_structure self g Hlang Hmesh)
    as (w' & Hrun & Hdirs & Hfiles).
  exists w'. split; [exact Hrun|].
  assert (Hnone : forall p,
             flat p -> ~ In p (repository_directories self) ->
             path_exists (fs w') p = false).
  { intros p Hflat Hnot. unfold path_exists. apply orb_false_iff. split.
    - apply not_true_is_false. intros Hd. apply Hnot, Hdirs, Hd.
    - apply not_true_is_false. intros Hf.
      destruct (Hfiles p Hf) as [_ Hrule].
      apply (file_rule_nested self p Hweb Hmesh Hrule), Hflat. }
  assert (Hignore : path_exists (fs w') ".gitignore" = false).
  { apply Hnone; [reflexivity|].
    apply no_directory_of_that_name; [reflexivity|discriminate|reflexivity]. }
  assert (Hreadme : path_exists (fs w') "README.md" = false).
  { apply Hnone; [reflexivity|].
    apply no_directory_of_that_name; [reflexivity|discriminate|reflexivity]. }
  split; [exact Hignore|]. split; [exact Hreadme|].
  intros start who. unfold replay_commit, initial_commit.
  cbn [files author message date filter]. rewrite Hignore, Hreadme. reflexivity.
Qed.

Lemma initial_commit_stages_nothing_witness :
  exists w',
    _generate_structure cli_self (fresh_repository sample_rng) = Ok (tt, w')
    /\ path_exists (fs w') ".gitignore" = false
    /\ path_exists (fs w') "README.md" = false
    /\ forall start who,
         replay_commit (fs w') (initial_commit start who)
         = [ GitConfig "user.name" (fst who);
             GitConfig "user.email" (snd who);
             GitCommit "Initial commit" start start ].
Proof.
  apply (initial_commit_stages_nothing cli_self sample_rng).
  - vm_compute. discriminate.
  - vm_compute. discriminate.
  - vm_compute. discriminate.
Defined.

(** ** The service mesh in a new repository *)

Lemma append_empty (s : string) : (s ++ "")%string = s.
Proof. induction s as [|c s IH]; simpl; [reflexivity|now rewrite IH]. Qed.

Lemma append_associative (a b c : string) :
  ((a ++ b) ++ c)%string = (a ++ b ++ c)%string.
Proof. induction a as [|x a IH]; simpl; [reflexivity|now rewrite IH]. Qed.

Lemma ancestors_from_below (seen dir name : string) :
  flat name ->
  ancestors_from seen (dir ++ String "/" name)
  = ancestors_from seen dir ++ [(seen ++ dir)%string].
Proof.
  intros Hn. revert seen. induction dir as [|c dir IH]; intros seen; simpl.
  - rewrite (ancestors_flat _ name Hn), append_empty. reflexivity.
  - rewrite IH, append_associative. simpl.
    destruct (Ascii.eqb c "/"); reflexivity.
Qed.

Lemma ancestors_below (dir name : string) :
  flat name -> ancestors (dir ++ String "/" name) = ancestors dir ++ [dir].
Proof. intros Hn. unfold ancestors. now rewrite ancestors_from_below. Qed.

Lemma no_child_spec (all : list string) (dir leaf : string) :
  no_child all dir = true -> flat leaf ->
  ~ In (dir ++ String "/" leaf)%string all.
Proof.
  intros Hc Hl Hin. unfold no_child in Hc. rewrite forallb_forall in Hc.
  specialize (Hc _ Hin). rewrite (dirname_below dir leaf Hl) in Hc.
  rewrite String.eqb_refl in Hc. discriminate.
Qed.

Lemma subset_spec (l1 l2 : list string) :
  subset l1 l2 = true -> incl l1 l2.
Proof.
  unfold subset. rewrite forallb_forall. intros H d Hd.
  apply existsb_eqb_In, H, Hd.
Qed.

Lemma Forall_store (P : string * content -> Prop) (p : string) (c : content)
  (l : list (string * content)) :
  Forall P l -> P (p, c) -> Forall P (store p c l).
Proof.
  intros Hl Hp. induction l as [|[q d] l IH]; simpl.
  - constructor; [exact Hp|constructor].
  - inversion Hl; subst. destruct (String.eqb p q); constructor; auto.
Qed.

Section LeadsFacts.

Variable all : list string.

Lemma arranged_not_file (ds : list string) (w : world) (p : string) :
  arranged all ds w -> In p all -> is_file (fs w) p = false.
Proof.
  intros (_ & _ & Hw) Hp. apply not_true_is_false. intros Hex.
  unfold is_file in Hex. apply existsb_exists in Hex as (e & Hin & Heq).
  apply String.eqb_eq in Heq. rewrite Forall_forall in Hw.
  apply (Hw e Hin). rewrite <- Heq. exact Hp.
Qed.

Lemma arranged_is_dir (ds : list string) (w : world) (p : string) :
  arranged all ds w -> In p ds -> is_dir (fs w) p = true.
Proof. intros (_ & Hd & _) Hp. now apply Hd. Qed.

Lemma arranged_not_dir (ds : list string) (w : world) (p : string) :
  arranged all ds w -> ~ In p ds -> is_dir (fs w) p = false.
Proof.
  intros (_ & Hd & _) Hp. apply not_true_is_false. intros H. now apply Hp, Hd.
Qed.

(** Making directories [ps], all of them members of [all]. *)
Lemma arranged_add_dirs (ds ps : list string) (w : world) (g : rng) :
  arranged all ds w -> incl ps all ->
  arranged all (ds ++ ps) {| fs := fold_left add_dir ps (fs w); rand := g |}.
Proof.
  intros (Hi & Hd & Hw) Hps. split; [|split].
  - apply incl_app; assumption.
  - intros d. cbn [fs]. rewrite is_dir_add_dirs, orb_true_iff, in_app_iff.
    rewrite Hd, existsb_eqb_In. reflexivity.
  - cbn [fs]. rewrite written_add_dirs. exact Hw.
Qed.

Lemma leads_ret {A : Type} (ds : list string) (a : A) :
  leads all ds ds (ret a).
Proof. intros w Hw. exists a, w. split; [reflexivity|exact Hw]. Qed.

Lemma leads_ret_bind {A B : Type} (ds ds' : list string) (a : A)
  (k : A -> M B) :
  leads all ds ds' (k a) -> leads all ds ds' (bind (ret a) k).
Proof. intros Hk w Hw. exact (Hk w Hw). Qed.

Lemma leads_bind {A B : Type} (ds ds1 ds2 : list string) (c : M A)
  (k : A -> M B) :
  leads all ds ds1 c -> (forall a, leads all ds1 ds2 (k a)) ->
  leads all ds ds2 (bind c k).
Proof.
  intros Hc Hk w Hw. destruct (Hc w Hw) as (a & w1 & H1 & Hw1).
  destruct (Hk a w1 Hw1) as (b & w2 & H2 & Hw2).
  exists b, w2. unfold bind. rewrite H1. split; assumption.
Qed.

Lemma leads_draw {A : Type} (ds : list string) (f : rng -> A * rng) :
  leads all ds ds (draw f).
Proof.
  intros w Hw. unfold draw. destruct (f (rand w)) as [a g].
  exists a. eexists. split; [reflexivity|exact Hw].
Qed.

(** Only the members of the list of directories matter. *)
Lemma leads_same {A : Type} (ds ds1 ds2 : list string) (c : M A) :
  (forall d, In d ds1 <-> In d ds2) ->
  leads all ds ds1 c -> leads all ds ds2 c.
Proof.
  intros Heq Hc w Hw. destruct (Hc w Hw) as (a & w1 & H1 & Hi & Hd & Hf).
  exists a, w1. split; [exact H1|]. split; [|split].
  - intros d Hin. apply Hi, Heq, Hin.
  - intros d. rewrite Hd. apply Heq.
  - exact Hf.
Qed.

Lemma leads_for {A : Type} (ds : list string) (l : list A)
  (body : A -> M unit) :
  (forall x, leads all ds ds (body x)) -> leads all ds ds (for_ l body).
Proof.
  intros Hb. induction l as [|x l IH]; simpl.
  - apply leads_ret.
  - apply (leads_bind ds ds ds); [apply Hb|intros _; exact IH].
Qed.

(** A loop over [range], with the directories after [k] rounds. *)
Lemma leads_rounds (I : nat -> list string) (body : Z -> M unit)
  (a n : nat) :
  (forall k, (a <= k < a + n)%nat ->
             leads all (I k) (I (S k)) (body (Z.of_nat k))) ->
  leads all (I a) (I (a + n)%nat) (for_ (map Z.of_nat (seq a n)) body).
Proof.
  revert a. induction n as [|n IH]; intros a Hb; simpl.
  - rewrite Nat.add_0_r. apply leads_ret.
  - apply (leads_bind _ (I (S a))); [apply Hb; lia|intros _].
    replace (a + S n)%nat with (S a + n)%nat by lia.
    apply IH. intros k Hk. apply Hb. lia.
Qed.

(** [mkdir()] of a new directory whose parent is there. *)
Lemma leads_mkdir (ds : list string) (p : string) :
  ~ In p ds -> In p all -> In (parent p) ds ->
  leads all ds (ds ++ [p]) (mkdir p).
Proof.
  intros Hnew Hall Hpar w Hw. unfold mkdir.
  rewrite (arranged_not_dir ds w p Hw Hnew),
    (arranged_not_file ds w p Hw Hall),
    (arranged_is_dir ds w _ Hw Hpar). cbn [orb negb].
  exists tt. eexists. split; [reflexivity|].
  apply (arranged_add_dirs ds [p] w (rand w) Hw).
  intros d [<-|[]]. exact Hall.
Qed.

(** [mkdir(exist_ok=True)] of a new directory whose parent is there. *)
Lemma leads_mkdir_exist_ok (ds : list string) (p : string) :
  ~ In p ds -> In p all -> In (parent p) ds ->
  leads all ds (ds ++ [p]) (mkdir_exist_ok p).
Proof.
  intros Hnew Hall Hpar w Hw. unfold mkdir_exist_ok.
  rewrite (arranged_not_dir ds w p Hw Hnew),
    (arranged_not_file ds w p Hw Hall),
    (arranged_is_dir ds w _ Hw Hpar). cbn [negb].
  exists tt. eexists. split; [reflexivity|].
  apply (arranged_add_dirs ds [p] w (rand w) Hw).
  intros d [<-|[]]. exact Hall.
Qed.

(** [mkdir(parents=True)], of a new directory when [exist_ok] is not
    given. *)
Lemma leads_mkdir_parents (exist_ok : bool) (ds : list string) (p : string) :
  (exist_ok = false -> ~ In p ds) -> In p all -> incl (ancestors p) all ->
  leads all ds (ds ++ ancestors p ++ [p]) (mkdir_parents exist_ok p).
Proof.
  intros Hnew Hall Hanc w Hw. unfold mkdir_parents.
  rewrite (arranged_not_file ds w p Hw Hall).
  assert (Hnone : existsb (is_file (fs w)) (ancestors p) = false).
  { apply not_true_is_false. intros Hex.
    apply existsb_exists in Hex as (a & Hin & Hfile).
    rewrite (arranged_not_file ds w a Hw (Hanc a Hin)) in Hfile.
    discriminate. }
  rewrite Hnone. cbn [orb].
  assert (Hok : is_dir (fs w) p && negb exist_ok = false).
  { destruct exist_ok; [apply andb_false_r|].
    rewrite (arranged_not_dir ds w p Hw (Hnew eq_refl)). reflexivity. }
  rewrite Hok. exists tt. eexists. split; [reflexivity|].
  apply (arranged_add_dirs ds _ w (rand w) Hw).
  apply incl_app; [exact Hanc|]. intros d [<-|[]]. exact Hall.
Qed.

(** Writing a file into a directory that is there, under a name that
    is not the name of a directory. *)
Lemma leads_write_file (ds : list string) (path : string) (c : content) :
  In (parent path) ds -> incl (ancestors (parent path)) ds ->
  ~ In path all ->
  leads all ds ds (_write_file path c).
Proof.
  intros Hpar Hanc Hpath w Hw.
  assert (Hi : incl ds all) by apply Hw.
  destruct (leads_mkdir_parents true ds (parent path)
              ltac:(discriminate) (Hi _ Hpar)
              (fun a Ha => Hi a (Hanc a Ha)) w Hw)
    as ([] & w1 & H1 & Hw1).
  assert (Hw1' : arranged all ds w1).
  { destruct Hw1 as (_ & Hd & Hf). split; [exact Hi|]. split; [|exact Hf].
    intros d. rewrite Hd, !in_app_iff. split; [|tauto].
    intros [H|[H|[<-|[]]]]; auto. }
  unfold _write_file, bind. rewrite H1.
  rewrite (arranged_not_dir ds w1 path Hw1' (fun H => Hpath (Hi _ H))).
  exists tt. eexists. split; [reflexivity|].
  destruct Hw1' as (_ & Hd & Hf). split; [exact Hi|]. split; [exact Hd|].
  cbn [fs written]. apply Forall_store; assumption.
Qed.

Variable self : RepoGenerator.

Lemma leads_code_below (ds : list string) (path dir leaf : string)
  (lines : Z) (code_type : string) :
  path = (dir ++ String "/" leaf)%string ->
  flat leaf -> In dir ds -> incl (ancestors dir) ds ->
  no_child all dir = true ->
  leads all ds ds (write_code self path lines code_type).
Proof.
  intros -> Hl Hdir Hanc Hc. unfold write_code, _write_code_file.
  apply (leads_bind ds ds ds); [apply leads_draw|]. intros text.
  apply leads_write_file; rewrite ?(parent_below dir leaf Hl); auto.
  apply no_child_spec; assumption.
Qed.

Lemma leads_codes_below (ds : list string) (lo hi : Z) (path : Z -> string)
  (dir : string) (leaf : Z -> string) (lines_lo lines_hi : Z)
  (code_type : string) :
  (forall i, path i = (dir ++ String "/" (leaf i))%string) ->
  (forall i, flat (leaf i)) -> In dir ds -> incl (ancestors dir) ds ->
  no_child all dir = true ->
  leads all ds ds
    (write_code_files self lo hi path lines_lo lines_hi code_type).
Proof.
  intros Hp Hl Hdir Hanc Hc. unfold write_code_files.
  apply (leads_bind ds ds ds); [apply leads_draw|]. intros n.
  apply leads_for. intros i.
  apply (leads_bind ds ds ds); [apply leads_draw|]. intros lines.
  apply (leads_code_below ds (path i) dir (leaf i)); auto.
Qed.

(** [_create_service_files] in a directory [path] that is there and
    has none of the three directories of a service yet. *)
Lemma service_files_lead (ds : list string) (path name : string) :
  lookup (language self) LANGUAGES <> None ->
  In path ds -> incl (ancestors path) ds ->
  distinct (service_directories path) = true ->
  (forall d, In d (service_directories path) -> In d all) ->
  ~ In (path ++ "/src")%string ds ->
  ~ In (path ++ "/tests")%string ds ->
  ~ In (path ++ "/config")%string ds ->
  no_child all (path ++ "/src") = true ->
  no_child all (path ++ "/tests") = true ->
  leads all ds
    (ds ++ [(path ++ "/src")%string; (path ++ "/tests")%string;
            (path ++ "/config")%string])
    (_create_service_files self path name).
Proof.
  intros Hlang Hpath Hanc Hdist Hall Hsrc Htests Hconfig Hcs Hct.
  destruct (extension_configured self Hlang) as [Hext Hflat].
  unfold _create_service_files. rewrite Hext. apply leads_ret_bind.
  assert (Hne : (path ++ "/src")%string <> (path ++ "/tests")%string
                /\ (path ++ "/src")%string <> (path ++ "/config")%string
                /\ (path ++ "/tests")%string <> (path ++ "/config")%string).
  { unfold service_directories, distinct in Hdist. cbn [existsb] in Hdist.
    rewrite !orb_false_r in Hdist.
    repeat (apply andb_prop in Hdist as [? Hdist]).
    repeat match goal with
           | H : negb _ = true |- _ => apply negb_true_iff in H
           end.
    repeat match goal with
           | H : _ || _ = false |- _ => apply orb_false_iff in H as [? ?]
           end.
    repeat split; apply String.eqb_neq; assumption. }
  destruct Hne as (Hst & Hsc & Htc).
  set (ds3 := ds ++ [(path ++ "/src")%string; (path ++ "/tests")%string;
                     (path ++ "/config")%string]).
  assert (Hsub : incl ds ds3) by (intros d Hd; apply in_app_iff; auto).
  assert (Hsrc3 : In (path ++ "/src")%string ds3)
    by (apply in_app_iff; right; simpl; auto).
  assert (Htests3 : In (path ++ "/tests")%string ds3)
    by (apply in_app_iff; right; simpl; auto).
  assert (Hanc3 : forall sub, flat sub ->
                    incl (ancestors (path ++ String "/" sub)) ds3).
  { intros sub Hsub'. rewrite (ancestors_below path sub Hsub').
    apply incl_app; [intros a Ha; apply Hsub, Hanc, Ha|].
    intros a [<-|[]]. apply Hsub, Hpath. }
  apply (leads_bind _ (ds ++ [(path ++ "/src")%string]));
    [apply leads_mkdir_exist_ok;
     [exact Hsrc|apply Hall; simpl; auto
     |change (path ++ "/src")%string with (path ++ String "/" "src")%string;
      rewrite parent_below by reflexivity; exact Hpath]
    |intros _].
  apply (leads_bind _ ((ds ++ [(path ++ "/src")%string])
                       ++ [(path ++ "/tests")%string]));
    [apply leads_mkdir_exist_ok;
     [rewrite in_app_iff; simpl; intuition congruence
     |apply Hall; simpl; auto
     |change (path ++ "/tests")%string with (path ++ String "/" "tests")%string;
      rewrite parent_below by reflexivity; apply in_app_iff; auto]
    |intros _].
  apply (leads_bind _ ds3);
    [apply (leads_same _ (((ds ++ [(path ++ "/src")%string])
                           ++ [(path ++ "/tests")%string])
                          ++ [(path ++ "/config")%string]));
     [intros d; unfold ds3; rewrite !in_app_iff; simpl; tauto|];
     apply leads_mkdir_exist_ok;
     [rewrite !in_app_iff; simpl; intuition congruence
     |apply Hall; simpl; auto
     |change (path ++ "/config")%string with (path ++ String "/" "config")%string;
      rewrite parent_below by reflexivity; rewrite !in_app_iff; auto]
    |intros _].
  apply (leads_bind _ ds3);
    [apply (leads_code_below ds3 _ (path ++ "/src") ("main" ++ ext_of self));
     [rewrite append_associative; reflexivity
     |apply flat_app; [reflexivity|exact Hflat]
     |exact Hsrc3|apply (Hanc3 "src"%string); reflexivity|exact Hcs]
    |intros _].
  apply (leads_bind _ ds3);
    [apply (leads_code_below ds3 _ (path ++ "/src") ("handlers" ++ ext_of self));
     [rewrite append_associative; reflexivity
     |apply flat_app; [reflexivity|exact Hflat]
     |exact Hsrc3|apply (Hanc3 "src"%string); reflexivity|exact Hcs]
    |intros _].
  apply (leads_bind _ ds3);
    [apply (leads_code_below ds3 _ (path ++ "/src") ("models" ++ ext_of self));
     [rewrite append_associative; reflexivity
     |apply flat_app; [reflexivity|exact Hflat]
     |exact Hsrc3|apply (Hanc3 "src"%string); reflexivity|exact Hcs]
    |intros _].
  apply (leads_bind _ ds3);
    [apply (leads_code_below ds3 _ (path ++ "/src")
              ("repository" ++ ext_of self));
     [rewrite append_associative; reflexivity
     |apply flat_app; [reflexivity|exact Hflat]
     |exact Hsrc3|apply (Hanc3 "src"%string); reflexivity|exact Hcs]
    |intros _].
  apply (leads_codes_below ds3 _ _ _ (path ++ "/tests")
           (fun i => "test" ++ str i ++ ext_of self)%string);
    [intros i; rewrite append_associative; reflexivity
    |intros i; apply flat_app;
     [reflexivity|apply flat_app; [apply flat_str|exact Hflat]]
    |exact Htests3|apply (Hanc3 "tests"%string); reflexivity|exact Hct].
Qed.

End LeadsFacts.

Lemma round_ok_all : forallb round_ok (seq 0 100) = true.
Proof. vm_compute. reflexivity. Qed.

Lemma distinct_cons (x : string) (l : list string) :
  distinct (x :: l) = true -> ~ In x l /\ distinct l = true.
Proof.
  simpl. intros H. apply andb_prop in H as [Hx Hl]. split; [|exact Hl].
  apply existsb_eqb_not_In. now apply negb_true_iff.
Qed.

Lemma none_member (l ds : list string) :
  forallb (fun d => negb (existsb (String.eqb d) ds)) l = true ->
  forall d, In d l -> ~ In d ds.
Proof.
  rewrite forallb_forall. intros H d Hd.
  apply existsb_eqb_not_In, negb_true_iff, H, Hd.
Qed.

Ltac new_here :=
  rewrite !in_app_iff; simpl;
  intros [H'|[[H'|[]]|[H'|[]]]];
  [ revert H'; match goal with
               | Hnew : forall d, In d _ -> ~ In d _ |- _ => apply Hnew
               end;
    unfold service_directories; simpl; auto
  | match goal with
    | H : ~ In "services"%string _ |- _ => apply H
    end
  | match goal with
    | H : ~ In ?p (_ :: _ :: _ :: nil) |- _ => apply H
    end ];
  unfold service_directories; simpl;
  repeat first [left; symmetry; exact H' | right].

(** One round of the loop over the services. *)
Lemma service_round (self : RepoGenerator) (k : nat) :
  lookup (language self) LANGUAGES <> None ->
  (k < 100)%nat ->
  leads (mesh_directories 100) (mesh_so_far k) (mesh_so_far (S k))
    (bind (mkdir_parents false ("services/" ++ service_name_of (Z.of_nat k)))
       (fun _ =>
          _create_service_files self
            ("services/" ++ service_name_of (Z.of_nat k))
            (service_name_of (Z.of_nat k)))).
Proof.
  intros Hlang Hk.
  assert (Hok : round_ok k = true).
  { pose proof round_ok_all as H. rewrite forallb_forall in H.
    apply H, in_seq. lia. }
  unfold round_ok in Hok. cbv zeta in Hok.
  assert (Hstep : mesh_so_far (S k)
                  = mesh_so_far k
                    ++ "services"%string
                       :: service_directories
                            ("services/" ++ service_name_of (Z.of_nat k))).
  { unfold mesh_so_far. rewrite seq_S, map_app, flat_map_app, app_assoc.
    cbn [map flat_map Nat.add]. rewrite ?app_nil_r. reflexivity. }
  rewrite Hstep. clear Hstep.
  remember (service_name_of (Z.of_nat k)) as name eqn:Hname. clear Hname.
  remember (mesh_so_far k) as ds eqn:Hds. clear Hds.
  change ("services/" ++ name)%string
    with ("services" ++ String "/" name)%string in *.
  set (path := ("services" ++ String "/" name)%string) in *.
  repeat (apply andb_prop in Hok as [Hok ?]).
  assert (Hflat : flat name).
  { unfold flat. destruct (dirname name); [discriminate|reflexivity]. }
  match goal with
  | H : distinct _ = true |- _ =>
      apply distinct_cons in H as [Hservices Hdist]
  end.
  match goal with
  | H : subset _ _ = true |- _ => apply subset_spec in H; rename H into Hall
  end.
  match goal with
  | H : forallb _ (service_directories path) = true |- _ =>
      pose proof (none_member _ _ H) as Hnew; clear H
  end.
  pose proof (distinct_cons _ _ Hdist) as [Hpath _].
  assert (Hanc : ancestors path = ["services"%string]).
  { unfold path. rewrite (ancestors_below _ name Hflat). reflexivity. }
  clearbody path.
  apply (leads_bind _ _ (ds ++ ancestors path ++ [path])).
  - apply leads_mkdir_parents.
    + intros _. apply Hnew. simpl. auto.
    + apply Hall. simpl. auto.
    + rewrite Hanc. intros d [<-|[]]. apply Hall. simpl. auto.
  - intros _. rewrite Hanc.
    apply (leads_same _ _ ((ds ++ ["services"%string] ++ [path])
                           ++ [(path ++ "/src")%string;
                               (path ++ "/tests")%string;
                               (path ++ "/config")%string])).
    { intros d. unfold service_directories. rewrite !in_app_iff. simpl. tauto. }
    apply service_files_lead; try assumption.
    + rewrite !in_app_iff. simpl. auto.
    + rewrite Hanc. intros d [<-|[]]. rewrite !in_app_iff. simpl. auto.
    + intros d Hd. apply Hall. right. exact Hd.
    + new_here.
    + new_here.
    + new_here.
Qed.

Ltac member := apply existsb_eqb_In; vm_compute; reflexivity.
Ltac no_member := apply existsb_eqb_not_In; vm_compute; reflexivity.
Ltac members := apply subset_spec; vm_compute; reflexivity.

Lemma same_members (l1 l2 : list string) :
  subset l1 l2 = true -> subset l2 l1 = true ->
  forall d, In d l1 <-> In d l2.
Proof.
  intros H1 H2 d. split; [apply (subset_spec _ _ H1)|apply (subset_spec _ _ H2)].
Qed.

(** The loop over the services, for at most a hundred of them. *)
Lemma services_lead (self : RepoGenerator) (n : nat) :
  lookup (language self) LANGUAGES <> None ->
  (n <= 100)%nat ->
  leads (mesh_directories 100) (mesh_so_far 0) (mesh_so_far n)
    (for_ (map Z.of_nat (seq 0 n))
       (fun i =>
          bind (mkdir_parents false ("services/" ++ service_name_of i))
            (fun _ =>
               _create_service_files self ("services/" ++ service_name_of i)
                 (service_name_of i)))).
Proof.
  intros Hlang Hn.
  apply (leads_rounds (mesh_directories 100) mesh_so_far _ 0 n).
  intros k Hk. apply service_round; [exact Hlang|lia].
Qed.

(** What follows the loop: the shared directories and the
    infrastructure files. *)
Lemma shared_leads (n : nat) :
  In n [10; 50; 100]%nat ->
  leads (mesh_directories 100) (mesh_so_far n)
    (mesh_directories (Z.of_nat n))
    (mkdir "shared" ;;
     mkdir "shared/models" ;;
     mkdir "shared/utils" ;;
     mkdir "infrastructure" ;;
     _create_infrastructure_files).
Proof.
  intros Hn. unfold _create_infrastructure_files.
  destruct Hn as [<-|[<-|[<-|[]]]];
    (eapply leads_same; cycle 1;
     [ repeat (lazymatch goal with
               | |- leads _ _ _ (bind _ _) => eapply leads_bind
               end;
               [ first
                   [ apply leads_mkdir; [no_member|member|member]
                   | apply leads_mkdir_parents;
                     [discriminate|member|members]
                   | apply leads_write_file; [member|members|no_member] ]
               | intros _ ]);
       apply leads_write_file; [member|members|no_member]
     | apply same_members; vm_compute; reflexivity ]).
Qed.

Lemma mesh_structure_leads (self : RepoGenerator) :
  lookup (language self) LANGUAGES <> None ->
  leads (mesh_directories 100) ["."%string]
    (mesh_directories (num_services_of (category self)))
    (_generate_microservice_structure self).
Proof.
  intros Hlang.
  assert (Hrun : forall n : nat,
             In n [10; 50; 100]%nat ->
             leads (mesh_directories 100) ["."%string]
               (mesh_directories (Z.of_nat n))
               (mkdir "api-gateway" ;;
                _create_service_files self "api-gateway" "gateway" ;;
                for_ (map Z.of_nat (seq 0 n))
                  (fun i =>
                     bind (mkdir_parents false
                             ("services/" ++ service_name_of i))
                       (fun _ =>
                          _create_service_files self
                            ("services/" ++ service_name_of i)
                            (service_name_of i))) ;;
                mkdir "shared" ;;
                mkdir "shared/models" ;;
                mkdir "shared/utils" ;;
                mkdir "infrastructure" ;;
                _create_infrastructure_files)).
  { intros n Hn.
    apply (leads_bind _ _ (["."%string] ++ ["api-gateway"%string]));
      [apply leads_mkdir; [no_member|member|member]|intros _].
    apply (leads_bind _ _ (mesh_so_far 0)).
    { apply (leads_same _ _ ((["."%string] ++ ["api-gateway"%string])
                             ++ ["api-gateway/src"%string;
                                 "api-gateway/tests"%string;
                                 "api-gateway/config"%string])).
      { apply same_members; vm_compute; reflexivity. }
      apply (service_files_lead (mesh_directories 100) self
               (["."%string] ++ ["api-gateway"%string])
               "api-gateway"%string "gateway"%string Hlang);
        [ member | members | vm_compute; reflexivity
        | apply subset_spec; vm_compute; reflexivity
        | no_member | no_member | no_member
        | vm_compute; reflexivity | vm_compute; reflexivity ]. }
    intros _.
    apply (leads_bind _ _ (mesh_so_far n)).
    { apply services_lead; [exact Hlang|].
      destruct Hn as [<-|[<-|[<-|[]]]]; lia. }
    intros _. apply shared_leads, Hn. }
  unfold _generate_microservice_structure, num_services_of.
  destruct (contains "small" (category self));
    [apply (Hrun 10%nat); simpl; auto|].
  destruct (contains "medium" (category self));
    [apply (Hrun 50%nat)|apply (Hrun 100%nat)]; simpl; auto.
Qed.

Lemma arranged_new (all : list string) (g : rng) :
  In "."%string all -> arranged all ["."%string] (fresh_repository g).
Proof.
  intros Hin. split; [|split].
  - intros d [<-|[]]. exact Hin.
  - intros d. unfold fresh_repository, is_dir. cbn [fs dirs].
    apply existsb_eqb_In.
  - constructor.
Qed.

(** Structure generation of a service mesh in a repository that was
    just created. *)
Lemma new_mesh_structure (self : RepoGenerator) (g : rng) :
  lookup (language self) LANGUAGES <> None ->
  archetype self = ServiceMesh ->
  exists w',
    _generate_structure self (fresh_repository g) = Ok (tt, w')
    /\ arranged (mesh_directories 100)
         (mesh_directories (num_services_of (category self))) w'.
Proof.
  intros Hlang Hmesh.
  destruct (mesh_structure_leads self Hlang (fresh_repository g))
    as ([] & w' & Hrun & Hw').
  { apply arranged_new. left. reflexivity. }
  exists w'. split; [|exact Hw'].
  rewrite <- Hrun. revert Hmesh.
  unfold archetype, _generate_structure, dispatch.
  by_archetype self; intros Hmesh; first [discriminate|reflexivity].
Qed.

(** A service mesh in a repository that was just created: structure
    generation returns whatever is drawn, so the loop over the
    services never meets a directory it has made before; it leaves
    exactly the directories of the gateway, of each service, the
    shared ones and those of the infrastructure, and no file has the
    name of one of them. *)
Theorem service_mesh_structure_returns (self : RepoGenerator) (g : rng) :
  lookup (language self) LANGUAGES <> None ->
  archetype self = ServiceMesh ->
  exists w',
    _generate_structure self (fresh_repository g) = Ok (tt, w')
    /\ (forall d, is_dir (fs w') d = true
                  <-> In d (mesh_directories (num_services_of (category self))))
    /\ (forall p, is_file (fs w') p = true ->
                  ~ In p (mesh_directories (num_services_of (category self)))).
Proof.
  intros Hlang Hmesh.
  destruct (new_mesh_structure self g Hlang Hmesh)
    as (w' & Hrun & Hincl & Hdirs & Hfiles).
  exists w'. split; [exact Hrun|]. split; [exact Hdirs|].
  intros p Hp Hin. unfold is_file in Hp.
  apply existsb_exists in Hp as (e & He & Heq).
  apply String.eqb_eq in Heq. subst p.
  rewrite Forall_forall in Hfiles. apply (Hfiles e He), Hincl, Hin.
Qed.

Lemma service_mesh_structure_returns_witness :
  exists w',
    _generate_structure mesh_self (fresh_repository sample_rng) = Ok (tt, w')
    /\ (forall d, is_dir (fs w') d = true
                  <-> In d (mesh_directories
                              (num_services_of (category mesh_self))))
    /\ (forall p, is_file (fs w') p = true ->
                  ~ In p (mesh_directories
                            (num_services_of (category mesh_self)))).
Proof.
  apply (service_mesh_structure_returns mesh_self sample_rng).
  - vm_compute. discriminate.
  - vm_compute. reflexivity.
Defined.

(** Structure generation in a repository that was just created
    returns, whatever the archetype. *)
Lemma structure_returns (self : RepoGenerator) (g : rng) :
  lookup (language self) LANGUAGES <> None ->
  exists w', _generate_structure self (fresh_repository g) = Ok (tt, w').
Proof.
  intros Hlang. destruct (archetype self) eqn:Harch;
    try (destruct (new_repository_structure self g Hlang) as (w' & Hrun & _);
         [congruence|exists w'; exact Hrun]).
  destruct (new_mesh_structure self g Hlang Harch) as (w' & Hrun & _).
  exists w'. exact Hrun.
Qed.

Lemma init_language_configured (id : Z) (cat tmpl : string) (g0 : rng) :
  lookup (language (fst (__init__ id cat tmpl g0))) LANGUAGES <> None.
Proof.
  apply lookup_in_keys.
  assert (Hlang : language (fst (__init__ id cat tmpl g0))
                  = fst (_select_language g0)).
  { unfold __init__.
    destruct (_select_language g0) as [lang g1].
    destruct (randint 1000 50000 g1) as [loc g2].
    destruct (randint 100 500 g2) as [nc g3].
    destruct (randint 1 (Z.min 5 (len CONTRIBUTORS)) g3) as [k g4].
    destruct (sample CONTRIBUTORS (Z.to_nat k) g4) as [cs g5].
    destruct (randint 20 90 g5) as [tc g6]. reflexivity. }
  rewrite Hlang. unfold _select_language, next. cbn [fst].
  apply pick_weighted_in. discriminate.
Qed.

(** [generate] on a constructed generator, in a repository directory
    that was just created: it returns, whatever the category and the
    template, whatever is drawn and whatever [os.walk] enumerates.  The
    history begins with the initial commit of [contributors[0]], dated
    365 days before now, has at most [num_commits] commits, and stages
    a prefix of the enumerated files; the directory is left as the
    structure step made it. *)
Theorem generate_returns_history (id : Z) (cat tmpl : string) (g0 g : rng)
  (now : Z) (os_walk : filesystem -> list walk_entry) :
  let self := fst (__init__ id cat tmpl g0) in
  exists w1,
    _generate_structure self (fresh_repository g) = Ok (tt, w1)
    /\ forall fuel,
         (length (collect_files (os_walk (fs w1))) <= fuel)%nat ->
         exists who others batches g',
           generate self now os_walk fuel (fresh_repository g)
           = Some (Ok (initial_commit (now - timedelta_days 365) who :: batches,
                       {| fs := fs w1; rand := g' |}))
           /\ contributors self = who :: others
           /\ 1 + len batches <= num_commits self
           /\ exists n,
                concat (map files batches)
                = firstn n (collect_files (os_walk (fs w1))).
Proof.
  intros self.
  destruct (init_spec id cat tmpl g0) as (_ & _ & _ & _ & Hn & _ & Hc).
  fold self in Hn, Hc.
  destruct (structure_returns self g
              (init_language_configured id cat tmpl g0))
    as (w1 & Hrun).
  exists w1. split; [exact Hrun|].
  intros fuel Hfuel.
  destruct (commit_history_run self now (os_walk (fs w1)) (rand w1) fuel
              Hc Hfuel) as (who & others & st & Hcs & Hloop & Hhist).
  assert (Hinv : history_inv self (collect_files (os_walk (fs w1)))
                   (files_per_commit self (collect_files (os_walk (fs w1))))
                   (initial_commit (now - timedelta_days 365) who) st).
  { apply (while_loop_invariant self (collect_files (os_walk (fs w1)))
             (files_per_commit self (collect_files (os_walk (fs w1))))
             (history_inv self (collect_files (os_walk (fs w1)))
                (files_per_commit self (collect_files (os_walk (fs w1))))
                (initial_commit (now - timedelta_days 365) who)))
      with (fuel := fuel)
           (st := {| commits := [initial_commit (now - timedelta_days 365) who];
                     current_date := now - timedelta_days 365 + timedelta_days 1;
                     file_index := 0; gen := rand w1 |}).
    - intros s s'. apply history_inv_step; [apply files_per_commit_pos|assumption].
    - constructor; simpl.
      + lia.
      + exists []. change (len (@nil Commit)) with 0. simpl.
        repeat split; auto. lia.
      + repeat constructor.
      + constructor; [|constructor]. simpl. unfold timedelta_days. lia.
      + unfold len. simpl. lia.
    - exact Hloop. }
  destruct Hinv as [_ (batches & Hcommits & _ & _ & Hconcat & _) _ _ Hcount].
  exists who, others, batches, (gen st).
  unfold generate. rewrite Hrun, Hhist, Hcommits.
  split; [reflexivity|]. split; [exact Hcs|]. split.
  - rewrite Hcommits in Hcount. unfold len in *. simpl length in Hcount. lia.
  - exists (Z.to_nat (file_index st)). exact Hconcat.
Qed.

(** ** The initial commit of a web repository *)

(** For the web archetype the generator writes both files of the
    initial commit: in a repository that was just created the replay
    stages [.gitignore] and [README.md], in this order, between the two
    configuration calls and the commit. *)
Theorem web_initial_commit_stages_both (self : RepoGenerator) (g : rng) :
  lookup (language self) LANGUAGES <> None ->
  archetype self = WebApp ->
  exists w',
    _generate_structure self (fresh_repository g) = Ok (tt, w')
    /\ forall start who,
         replay_commit (fs w') (initial_commit start who)
         = [ GitConfig "user.name" (fst who);
             GitConfig "user.email" (snd who);
             GitAdd ".gitignore"; GitAdd "README.md";
             GitCommit "Initial commit" start start ].
Proof.
  intros Hlang Hweb.
  destruct (new_repository_structure self g Hlang) as (w' & Hrun & _).
  { congruence. }
  exists w'. split; [exact Hrun|].
  assert (Hstructure : _generate_structure self = _generate_web_structure self).
  { revert Hweb. unfold archetype, _generate_structure, dispatch.
    by_archetype self; intros Hweb; first [discriminate|reflexivity]. }
  rewrite Hstructure in Hrun.
  destruct (establishes_generate_web_structure self _ tt w' Hrun)
    as (_ & _ & Hfiles).
  rewrite Forall_forall in Hfiles.
  assert (Hignore : is_file (fs w') ".gitignore" = true)
    by (apply Hfiles; simpl; auto 10).
  assert (Hreadme : is_file (fs w') "README.md" = true)
    by (apply Hfiles; simpl; auto 10).
  intros start who. unfold replay_commit, initial_commit, path_exists.
  cbn [files author message date filter].
  rewrite Hignore, Hreadme, !orb_true_r. reflexivity.
Qed.

Lemma web_initial_commit_stages_both_witness :
  exists w',
    _generate_structure web_framework_self (fresh_repository sample_rng)
    = Ok (tt, w')
    /\ forall start who,
         replay_commit (fs w') (initial_commit start who)
         = [ GitConfig "user.name" (fst who);
             GitConfig "user.email" (snd who);
             GitAdd ".gitignore"; GitAdd "README.md";
             GitCommit "Initial commit" start start ].
Proof.
  apply (web_initial_commit_stages_both web_framework_self sample_rng).
  - vm_compute. discriminate.
  - vm_compute. reflexivity.
Defined.

(** ** The fallback of the code synthesiser *)

Lemma nth_error_range (n i : Z) :
  0 <= i < n -> nth_error (range n) (Z.to_nat i) = Some i.
Proof.
  intros Hi. unfold range. rewrite nth_error_map.
  rewrite (nth_error_nth' _ 0%nat) by (rewrite length_seq; lia).
  rewrite seq_nth by lia. simpl. f_equal. lia.
Qed.

(** For the three configured languages the dispatch of
    [_generate_code] does not name (Ruby, PHP and C#), the text is the
    fallback's: as many lines as the budget asks for, none when the
    budget is not positive, line [i] being the comment [// Line i];
    nothing is drawn for it. *)
Theorem fallback_code_follows_budget (self : RepoGenerator) (lines : Z)
  (code_type : string) (g : rng) :
  In (language self) ["ruby"; "php"; "c#"]%string ->
  _generate_code self lines code_type g = (_generate_generic_code lines, g)
  /\ _generate_generic_code lines = join_lines (generic_code lines)
  /\ len (generic_code lines) = Z.max 0 lines
  /\ forall i, 0 <= i < lines ->
               nth_error (generic_code lines) (Z.to_nat i)
               = Some ("// Line " ++ str i)%string.
Proof.
  intros Hlang. split; [|split; [reflexivity|split]].
  - unfold _generate_code.
    destruct Hlang as [<-|[<-|[<-|[]]]]; reflexivity.
  - unfold generic_code, len. rewrite length_map. apply len_range.
  - intros i Hi. unfold generic_code.
    rewrite nth_error_map, (nth_error_range lines i Hi). reflexivity.
Qed.

Lemma fallback_code_follows_budget_witness :
  _generate_code ruby_self 3 "module" sample_rng
  = (_generate_generic_code 3, sample_rng)
  /\ _generate_generic_code 3 = join_lines (generic_code 3)
  /\ len (generic_code 3) = Z.max 0 3
  /\ forall i, 0 <= i < 3 ->
               nth_error (generic_code 3) (Z.to_nat i)
               = Some ("// Line " ++ str i)%string.
Proof.
  apply (fallback_code_follows_budget ruby_self 3 "module" sample_rng).
  vm_compute. auto.
Defined.

(** ** Directories before files *)

Lemma bind_assoc {A B C : Type} (c : M A) (f : A -> M B) (h : B -> M C)
  (w : world) :
  bind (bind c f) h w = bind c (fun a => bind (f a) h) w.
Proof. unfold bind. destruct (c w) as [[a w1]|e]; reflexivity. Qed.

Lemma bind_ext {A B : Type} (c : M A) (f h : A -> M B) (w : world) :
  (forall a w1, f a w1 = h a w1) -> bind c f w = bind c h w.
Proof.
  intros Hfh. unfold bind. destruct (c w) as [[a w1]|e]; [apply Hfh|reflexivity].
Qed.

Lemma for_then {A : Type} (l : list A) (body : A -> M unit) (k : M unit)
  (w : world) :
  bind (for_ l body) (fun _ => k) w
  = fold_right (fun x rest => bind (body x) (fun _ => rest)) k l w.
Proof.
  revert w. induction l as [|x l IH]; intros w; simpl; [reflexivity|].
  rewrite bind_assoc. apply bind_ext. intros _ w1. apply IH.
Qed.

(** A call of [mkdir] writes no file and draws nothing. *)
Lemma make_directory_frame (call : bool * string) (w : world) (a : unit)
  (w1 : world) :
  make_directory call w = Ok (a, w1) ->
  written (fs w1) = written (fs w) /\ rand w1 = rand w.
Proof.
  unfold make_directory, mkdir, mkdir_parents.
  destruct (fst call).
  - destruct (_ || _); [discriminate|].
    destruct (_ && _); [discriminate|].
    intros H. inversion H; subst. cbn [fs rand].
    rewrite written_add_dirs. auto.
  - destruct (_ || _); [discriminate|].
    destruct (negb _); [discriminate|].
    intros H. inversion H; subst. cbn [fs rand].
    unfold add_dir. destruct (is_dir _ _); auto.
Qed.

Lemma make_directories_frame (calls : list (bool * string)) (w : world)
  (a : unit) (w1 : world) :
  for_ calls make_directory w = Ok (a, w1) ->
  written (fs w1) = written (fs w) /\ rand w1 = rand w.
Proof.
  revert w. induction calls as [|c calls IH]; intros w; simpl.
  - intros H. inversion H; subst. auto.
  - unfold bind. destruct (make_directory c w) as [[[] w0]|e] eqn:Hc;
      [|discriminate].
    intros H. destruct (IH _ H) as [Hw Hr].
    destruct (make_directory_frame c w tt w0 Hc) as [Hw0 Hr0].
    split; congruence.
Qed.

Lemma structure_is_directories_then_files (self : RepoGenerator) (w : world) :
  archetype self <> ServiceMesh ->
  _generate_structure self w = (make_directories self ;; file_creator self) w.
Proof.
  intros Hmesh. unfold make_directories. rewrite for_then.
  revert Hmesh.
  unfold archetype, _generate_structure, directory_calls, file_creator,
    dispatch.
  by_archetype self; intros Hmesh; try congruence; try reflexivity.
  unfold _generate_mobile_structure.
  destruct (contains "ios" (category self)); reflexivity.
Qed.

Lemma directories_in_new_repository (self : RepoGenerator) (g : rng) :
  archetype self <> ServiceMesh ->
  make_directories self (fresh_repository g)
  = Ok (tt, {| fs := {| dirs := "."%string :: made_directories self;
                        written := [] |};
               rand := g |}).
Proof.
  unfold archetype, make_directories, directory_calls, made_directories,
    dispatch.
  by_archetype self; intros Hmesh; try congruence; try reflexivity.
  destruct (contains "ios" (category self)); reflexivity.
Qed.

Lemma mesh_is_gateway_then_remainder (self : RepoGenerator) (w : world) :
  _generate_microservice_structure self w
  = (mesh_gateway self ;; mesh_remainder self) w.
Proof.
  unfold mesh_gateway, bind.
  change (_generate_microservice_structure self w)
    with (match mkdir "api-gateway" w with
          | Ok (_, w0) =>
              match _create_service_files self "api-gateway" "gateway" w0 with
              | Ok (_, w1) => mesh_remainder self w1
              | Raise e => Raise e
              end
          | Raise e => Raise e
          end).
  destruct (mkdir "api-gateway" w) as [[[] w0]|e]; reflexivity.
Qed.

Lemma establishes_mesh_gateway (self : RepoGenerator) :
  establishes (mesh_gateway self)
    [ "api-gateway"; "api-gateway/src"; "api-gateway/tests";
      "api-gateway/config" ]%string
    [ ("api-gateway/src/main" ++ ext_of self)%string;
      ("api-gateway/src/handlers" ++ ext_of self)%string;
      ("api-gateway/src/models" ++ ext_of self)%string;
      ("api-gateway/src/repository" ++ ext_of self)%string ].
Proof.
  unfold mesh_gateway.
  apply establishes_then_dir; [solve [auto with fs_steps]|intros _].
  unfold _create_service_files. apply establishes_with_extension.
  step_through.
  apply (establishes_weaken _ [] _ []); [|apply incl_refl|apply incl_refl].
  apply establishes_write_code_files.
Qed.

Lemma gateway_leads (self : RepoGenerator) :
  lookup (language self) LANGUAGES <> None ->
  leads (mesh_directories 100) ["."%string] (mesh_so_far 0)
    (mesh_gateway self).
Proof.
  intros Hlang. unfold mesh_gateway.
  apply (leads_bind _ _ (["."%string] ++ ["api-gateway"%string]));
    [apply leads_mkdir; [no_member|member|member]|intros _].
  apply (leads_same _ _ ((["."%string] ++ ["api-gateway"%string])
                         ++ ["api-gateway/src"%string;
                             "api-gateway/tests"%string;
                             "api-gateway/config"%string])).
  { apply same_members; vm_compute; reflexivity. }
  apply (service_files_lead (mesh_directories 100) self
           (["."%string] ++ ["api-gateway"%string])
           "api-gateway"%string "gateway"%string Hlang);
    [ member | members | vm_compute; reflexivity
    | apply subset_spec; vm_compute; reflexivity
    | no_member | no_member | no_member
    | vm_compute; reflexivity | vm_compute; reflexivity ].
Qed.

Lemma remainder_leads (self : RepoGenerator) :
  lookup (language self) LANGUAGES <> None ->
  leads (mesh_directories 100) (mesh_so_far 0)
    (mesh_directories (num_services_of (category self)))
    (mesh_remainder self).
Proof.
  intros Hlang.
  assert (Hrun : forall n : nat,
             In n [10; 50; 100]%nat ->
             leads (mesh_directories 100) (mesh_so_far 0)
               (mesh_directories (Z.of_nat n))
               (for_ (map Z.of_nat (seq 0 n))
                  (fun i =>
                     bind (mkdir_parents false
                             ("services/" ++ service_name_of i))
                       (fun _ =>
                          _create_service_files self
                            ("services/" ++ service_name_of i)
                            (service_name_of i))) ;;
                mkdir "shared" ;;
                mkdir "shared/models" ;;
                mkdir "shared/utils" ;;
                mkdir "infrastructure" ;;
                _create_infrastructure_files)).
  { intros n Hn. apply (leads_bind _ _ (mesh_so_far n)).
    - apply services_lead; [exact Hlang|].
      destruct Hn as [<-|[<-|[<-|[]]]]; lia.
    - intros _. apply shared_leads, Hn. }
  unfold mesh_remainder, num_services_of.
  destruct (contains "small" (category self));
    [apply (Hrun 10%nat); simpl; auto|].
  destruct (contains "medium" (category self));
    [apply (Hrun 50%nat)|apply (Hrun 100%nat)]; simpl; auto.
Qed.

(** The service mesh in a new repository: files are written before
    the last directories are made. *)
Lemma mesh_interleaves (self : RepoGenerator) (g : rng) :
  lookup (language self) LANGUAGES <> None ->
  archetype self = ServiceMesh ->
  exists w1 w2,
    mesh_gateway self (fresh_repository g) = Ok (tt, w1)
    /\ is_file (fs w1) ("api-gateway/src/main" ++ ext_of self) = true
    /\ Forall (fun d => is_dir (fs w1) d = false)
         ["services"; "shared"; "infrastructure"]%string
    /\ mesh_remainder self w1 = Ok (tt, w2)
    /\ _generate_structure self (fresh_repository g) = Ok (tt, w2)
    /\ Forall (fun d => is_dir (fs w2) d = true)
         ["services"; "shared"; "infrastructure"]%string.
Proof.
  intros Hlang Hmesh.
  destruct (gateway_leads self Hlang (fresh_repository g))
    as ([] & w1 & Hrun1 & Hw1).
  { apply arranged_new. left. reflexivity. }
  destruct (remainder_leads self Hlang w1 Hw1) as ([] & w2 & Hrun2 & Hw2).
  exists w1, w2. split; [exact Hrun1|].
  destruct (establishes_mesh_gateway self _ tt w1 Hrun1) as (_ & _ & Hfiles).
  split; [inversion Hfiles; assumption|]. split.
  { repeat constructor;
      apply (arranged_not_dir _ _ w1 _ Hw1);
      apply existsb_eqb_not_In; vm_compute; reflexivity. }
  split; [exact Hrun2|]. split.
  { assert (Hstructure : _generate_structure self
                         = _generate_microservice_structure self).
    { revert Hmesh. unfold archetype, _generate_structure, dispatch.
      by_archetype self; intros Hmesh; first [discriminate|reflexivity]. }
    rewrite Hstructure, mesh_is_gateway_then_remainder.
    unfold bind at 1. rewrite Hrun1. exact Hrun2. }
  repeat constructor;
    apply (arranged_is_dir _ _ w2 _ Hw2);
    unfold mesh_directories; apply in_or_app; right; simpl;
    rewrite ?in_app_iff; simpl; auto 12.
Qed.

(** C5, as stated, fails for the service mesh: its structure function
    writes the files of the gateway, among them
    [api-gateway/src/main.go] with the code synthesised for it, while
    [services], [shared] and [infrastructure] are not yet there, and
    makes these directories afterwards; so the function writes content
    between its own [mkdir] calls, and after the directories are made
    the tree is never without generated files. *)
Lemma mesh_writes_files_between_directories :
  (forall w, _generate_structure mesh_self w
             = (mesh_gateway mesh_self ;; mesh_remainder mesh_self) w)
  /\ mesh_gateway mesh_self (fresh_repository sample_rng)
     = Ok (tt, mesh_gateway_world)
  /\ lookup "api-gateway/src/main.go" (written (fs mesh_gateway_world))
     = Some (Code (fst (_generate_code mesh_self 200 "service_main"
                          sample_rng)))
  /\ Forall (fun d => is_dir (fs mesh_gateway_world) d = false)
       ["services"; "shared"; "infrastructure"]%string
  /\ mesh_remainder mesh_self mesh_gateway_world = Ok (tt, mesh_world)
  /\ _generate_structure mesh_self (fresh_repository sample_rng)
     = Ok (tt, mesh_world)
  /\ Forall (fun d => is_dir (fs mesh_world) d = true)
       ["services"; "shared"; "infrastructure"]%string.
Proof.
  split; [intros w; apply mesh_is_gateway_then_remainder|].
  split; [vm_compute; reflexivity|].
  split; [vm_compute; reflexivity|].
  split; [repeat constructor; vm_compute; reflexivity|].
  split; [vm_compute; reflexivity|].
  split; [vm_compute; reflexivity|].
  repeat constructor; vm_compute; reflexivity.
Qed.

(** C5, amended.  Every structure function but that of the service
    mesh is its own sequence of [mkdir] calls followed by one call of
    the file creator of its archetype.  The [mkdir] calls write no
    file and draw nothing, and in a repository that was just created
    they return with the directories of the archetype and no file: at
    that point the tree holds directories and no generated file.  The
    content is written by the file creator called last; whenever the
    command-line or the web structure function returns, the entry
    files of the archetype are there.  For the service mesh the two are
    interleaved: in a new repository the gateway's files are written
    while [services], [shared] and [infrastructure] do not exist, and
    these directories are made afterwards. *)
Theorem structure_makes_directories_before_files (self : RepoGenerator) :
  (archetype self <> ServiceMesh ->
   (forall w,
       _generate_structure self w
       = (make_directories self ;; file_creator self) w)
   /\ (forall w a w1,
          make_directories self w = Ok (a, w1) ->
          written (fs w1) = written (fs w) /\ rand w1 = rand w)
   /\ (forall g,
          make_directories self (fresh_repository g)
          = Ok (tt, {| fs := {| dirs := "."%string :: made_directories self;
                                written := [] |};
                       rand := g |})))
  /\ (forall w w',
         _generate_cli_structure self w = Ok (tt, w') ->
         Forall (fun p => is_file (fs w') (p ++ ext_of self) = true)
           ["cmd/main"; "internal/commands"; "internal/config";
            "pkg/utils"]%string)
  /\ (forall w w',
         _generate_web_structure self w = Ok (tt, w') ->
         Forall (fun p => is_file (fs w') p = true)
           [ ("src/app" ++ ext_of self)%string;
             ("src/index" ++ ext_of self)%string;
             ".github/workflows/ci.yml"%string; ".gitignore"%string;
             "README.md"%string; "LICENSE"%string ])
  /\ (archetype self = ServiceMesh ->
      lookup (language self) LANGUAGES <> None ->
      forall g,
      exists w1 w2,
        mesh_gateway self (fresh_repository g) = Ok (tt, w1)
        /\ is_file (fs w1) ("api-gateway/src/main" ++ ext_of self) = true
        /\ Forall (fun d => is_dir (fs w1) d = false)
             ["services"; "shared"; "infrastructure"]%string
        /\ mesh_remainder self w1 = Ok (tt, w2)
        /\ _generate_structure self (fresh_repository g) = Ok (tt, w2)
        /\ Forall (fun d => is_dir (fs w2) d = true)
             ["services"; "shared"; "infrastructure"]%string).
Proof.
  split; [|split; [|split]].
  - intros Hmesh. split; [|split].
    + intros w. apply structure_is_directories_then_files, Hmesh.
    + intros w a w1. apply make_directories_frame.
    + intros g. apply directories_in_new_repository, Hmesh.
  - intros w w' Hrun.
    destruct (establishes_generate_cli_structure self w tt w' Hrun)
      as (_ & _ & Hf).
    rewrite Forall_map in Hf. exact Hf.
  - intros w w' Hrun.
    destruct (establishes_generate_web_structure self w tt w' Hrun)
      as (_ & _ & Hf).
    exact Hf.
  - intros Hmesh Hlang g. apply mesh_interleaves; assumption.
Qed.

Lemma structure_makes_directories_before_files_witness :
  ((forall w,
       _generate_structure cli_self w
       = (make_directories cli_self ;; file_creator cli_self) w)
   /\ (forall w a w1,
          make_directories cli_self w = Ok (a, w1) ->
          written (fs w1) = written (fs w) /\ rand w1 = rand w)
   /\ (forall g,
          make_directories cli_self (fresh_repository g)
          = Ok (tt, {| fs := {| dirs := "."%string
                                         :: made_directories cli_self;
                                written := [] |};
                       rand := g |})))
  /\ exists w1 w2,
       mesh_gateway mesh_self (fresh_repository sample_rng) = Ok (tt, w1)
       /\ is_file (fs w1) ("api-gateway/src/main" ++ ext_of mesh_self) = true
       /\ Forall (fun d => is_dir (fs w1) d = false)
            ["services"; "shared"; "infrastructure"]%string
       /\ mesh_remainder mesh_self w1 = Ok (tt, w2)
       /\ _generate_structure mesh_self (fresh_repository sample_rng)
          = Ok (tt, w2)
       /\ Forall (fun d => is_dir (fs w2) d = true)
            ["services"; "shared"; "infrastructure"]%string.
Proof.
  split.
  - apply (structure_makes_directories_before_files cli_self).
    vm_compute. discriminate.
  - apply (structure_makes_directories_before_files mesh_self).
    + vm_compute. reflexivity.
    + vm_compute. discriminate.
Defined.
